(** * Stock price pipeline: fetch, resample, combine, moving average

    A shallow embedding of [fetch_and_resample_data] of [main.py] (the PyQt5
    front-end) and of [main_st_good.py] (the Streamlit front-end), together
    with the combination, end-date filter and 200-day moving average of the
    Streamlit script, its one-hour cache, the window of [main.py] (plot and
    hover), and the properties of the pipeline.

    Conventions.
    - A date is the number of days since 1970-01-01 (a Thursday), as in a
      [datetime64] index; every row of a price history is stamped at
      midnight, so days are all the pipeline looks at.
    - A price is an exact rational; NaN is [Num None].
    - A data frame is a list of column names and a list of rows, a row being
      its index date and a finite map from column names to cells.
    - The library calls of the sources ([resample(rule).last()], [rolling],
      [concat], comparison of the index with a date string) are modelled by
      the definitions of [Pandas], after the behaviour of the library. *)

From Stdlib Require Import ZArith QArith Lia Ascii String.
From stdpp Require Import base gmap strings list sorting.

Close Scope Q_scope.

(** ** The calendar *)

Module Calendar.
Local Open Scope Z_scope.

(** Days from 0000-03-01 to the first of March of year [y] (years that start
    in March put the leap day last). *)
Definition days_before_year (y : Z) : Z := 365 * y + y / 4 - y / 100 + y / 400.

(** Days from the first of March to the first of month [mp] (0 = March). *)
Definition days_before_month (mp : Z) : Z := (153 * mp + 2) / 5.

(** First day of the month numbered [k = 12 * y + mp], counted from March. *)
Definition month_start (k : Z) : Z :=
  days_before_year (k / 12) + days_before_month (k mod 12) - 719468.

(** The month, counted from March, a day falls in. *)
Definition month_index (d : Z) : Z :=
  let z := d + 719468 in
  let era := z / 146097 in
  let doe := z mod 146097 in
  let yoe := (doe - doe / 1460 + doe / 36524 - doe / 146096) / 365 in
  let doy := doe - (365 * yoe + yoe / 4 - yoe / 100) in
  let mp := (5 * doy + 2) / 153 in
  12 * (yoe + era * 400) + mp.

(** The same two functions with months counted from January:
    [12 * year + (month - 1)]. *)
Definition civil_month (d : Z) : Z := month_index d + 2.
Definition civil_month_start (j : Z) : Z := month_start (j - 2).

Definition days_from_civil (y m d : Z) : Z :=
  civil_month_start (12 * y + (m - 1)) + (d - 1).

Definition days_in_month (y m : Z) : Z :=
  civil_month_start (12 * y + m) - civil_month_start (12 * y + (m - 1)).

(** The offsets behind the rules ['W'], ['M'], ['Q'] and ['Y']: weeks ending
    on Sunday, month ends, quarter ends (March, June, September, December)
    and year ends. *)
Inductive offset := Week | MonthEnd | QuarterEnd | YearEnd.

Definition to_offset (rule : string) : option offset :=
  if String.eqb rule "W" then Some Week
  else if String.eqb rule "M" then Some MonthEnd
  else if String.eqb rule "Q" then Some QuarterEnd
  else if String.eqb rule "Y" then Some YearEnd
  else None.

(** The Sunday on or after [d] (day 3 is Sunday 1970-01-04). *)
Definition week_end (d : Z) : Z := d + (3 - d) mod 7.

(** The last day of the period of [n] months (1, 3 or 12) that holds [d]. *)
Definition period_end (n : Z) (d : Z) : Z :=
  civil_month_start ((civil_month d / n + 1) * n) - 1.

(** The first bin edge on or after [d]; bins are closed on the right and
    labelled by their right edge. *)
Definition rollforward (o : offset) (d : Z) : Z :=
  match o with
  | Week => week_end d
  | MonthEnd => period_end 1 d
  | QuarterEnd => period_end 3 d
  | YearEnd => period_end 12 d
  end.

(** Parsing of a date string of the form [YYYY-MM-DD], the form both
    front-ends build; anything else is not a date. *)
Definition digit (c : ascii) : option Z :=
  let n := Z.of_N (N_of_ascii c) - 48 in
  if (0 <=? n) && (n <=? 9) then Some n else None.

Definition number (cs : list ascii) : option Z :=
  foldl (fun acc c => a ← acc; n ← digit c; Some (10 * a + n)) (Some 0) cs.

Definition Timestamp (s : string) : option Z :=
  match list_ascii_of_string s with
  | [y1; y2; y3; y4; s1; m1; m2; s2; d1; d2] =>
      y ← number [y1; y2; y3; y4];
      m ← number [m1; m2];
      d ← number [d1; d2];
      if Ascii.eqb s1 "-" && Ascii.eqb s2 "-"
         && (1 <=? m) && (m <=? 12) && (1 <=? d) && (d <=? days_in_month y m)
      then Some (days_from_civil y m d) else None
  | _ => None
  end.

End Calendar.

(** ** Exceptions and user-facing messages *)

Module Python.

(** An exception, identified with the text [str(e)] an f-string prints. *)
Record Exception := { str : string }.

Inductive result (A : Type) :=
| Ok (a : A)
| Raise (e : Exception).
Arguments Ok {A} a.
Arguments Raise {A} e.

(** What the front-ends show the user: Qt message boxes (title and text) and
    Streamlit status elements (text). *)
Inductive Message :=
| QMessageBox_warning (title text : string)
| QMessageBox_critical (title text : string)
| QMessageBox_information (title text : string)
| st_warning (text : string)
| st_error (text : string)
| st_info (text : string).

(** A computation either returns or raises, and shows messages on the way. *)
Definition M (A : Type) : Type := (result A * list Message)%type.

#[export] Instance M_ret : MRet M := fun A a => (Ok a, []).
#[export] Instance M_bind : MBind M := fun A B f m =>
  match m with
  | (Ok a, w) => let '(r, w') := f a in (r, w ++ w')
  | (Raise e, w) => (Raise e, w)
  end.

(** The line feed of an f-string. *)
Definition newline : string := String "010" EmptyString.

(** What [df.index >= date] raises when [date] is not a date. *)
Definition invalid_comparison : Exception :=
  {| str := "Invalid comparison between dtype=datetime64[ns] and str" |}.

(** [KeyError(c)] *)
Definition KeyError (c : string) : Exception := {| str := "'" +:+ c +:+ "'" |}.

(** The text both front-ends show when a fetch raises. *)
Definition fetch_error_text (symbol : string) (e : Exception) : string :=
  "An error occurred while fetching " +:+ symbol +:+ " data: "
  +:+ str e +:+ newline
  +:+ "Please check your internet connection or try again later.".

Definition lift {A} (r : result A) : M A := (r, []).
Definition show (m : Message) : M unit := (Ok tt, [m]).

(** [try: body except Exception as e: handler e] *)
Definition try_except {A} (body : M A) (handler : Exception -> M A) : M A :=
  match body with
  | (Ok a, w) => (Ok a, w)
  | (Raise e, w) => let '(r, w') := handler e in (r, w ++ w')
  end.

#[export] Instance result_ret : MRet result := fun A a => Ok a.
#[export] Instance result_bind : MBind result := fun A B f m =>
  match m with
  | Ok a => f a
  | Raise e => Raise e
  end.

(** *** Formatting of integers

    [str(n)] and [f"{n}"] for an integer: its decimal digits, with a minus
    sign when it is negative. *)
Definition digit_char (d : Z) : ascii := ascii_of_N (Z.to_N (48 + d)).

Fixpoint digits (fuel : nat) (n : Z) : list ascii :=
  match fuel with
  | O => []
  | S fuel' =>
      if (n <? 10)%Z then [digit_char n]
      else digits fuel' (n / 10)%Z ++ [digit_char (n mod 10)%Z]
  end.

(** A number has no more decimal digits than binary ones. *)
Definition str_nat (n : Z) : string :=
  string_of_list_ascii (digits (S (Z.to_nat (Z.log2 n))) n).

Definition str_int (n : Z) : string :=
  if (n <? 0)%Z then String "-" (str_nat (- n)) else str_nat n.

(** A number below 100 on two digits, as [%m] and [%d] print it. *)
Definition two_digits (n : Z) : string :=
  String (digit_char (n / 10)%Z) (String (digit_char (n mod 10)%Z) EmptyString).

End Python.

(** ** Data frames and series *)

Module Pandas.
Import Calendar Python.

Inductive cell :=
| Num (x : option Q)
| Str (s : string).

Definition NaN : cell := Num None.

Definition notna (c : cell) : bool :=
  match c with
  | Num None => false
  | _ => true
  end.

Definition as_float (c : cell) : option Q :=
  match c with
  | Num x => x
  | Str _ => None
  end.

Record DataFrame := { columns : list string; rows : list (Z * gmap string cell) }.

Record Series := { name : string; items : list (Z * cell) }.

(** [pd.DataFrame()] *)
Definition DataFrame_new : DataFrame := {| columns := []; rows := [] |}.

(** [df.empty]: no column or no row. *)
Definition empty (df : DataFrame) : bool :=
  match columns df, rows df with
  | [], _ => true
  | _, [] => true
  | _, _ => false
  end.

Definition index (df : DataFrame) : list Z := map fst (rows df).

Definition has_column (df : DataFrame) (c : string) : bool :=
  existsb (String.eqb c) (columns df).

(** A cell of a row; a column the row does not have reads as NaN. *)
Definition row_get (r : gmap string cell) (c : string) : cell :=
  default NaN (r !! c).

(** [df.index >= date] and [df.index <= date] for a date string. *)
Definition index_ge (df : DataFrame) (date : string) : result (list bool) :=
  match Timestamp date with
  | Some t => Ok (map (fun d => (t <=? d)%Z) (index df))
  | None => Raise invalid_comparison
  end.

Definition index_le (df : DataFrame) (date : string) : result (list bool) :=
  match Timestamp date with
  | Some t => Ok (map (fun d => (d <=? t)%Z) (index df))
  | None => Raise invalid_comparison
  end.

(** Rows selected by a boolean mask. *)
Fixpoint select {A} (l : list A) (mask : list bool) : list A :=
  match l, mask with
  | x :: l', b :: mask' => if b then x :: select l' mask' else select l' mask'
  | _, _ => []
  end.

(** [df[mask]] *)
Definition df_mask (df : DataFrame) (mask : list bool) : DataFrame :=
  {| columns := columns df; rows := select (rows df) mask |}.

(** [df[c]] *)
Definition getitem (df : DataFrame) (c : string) : result Series :=
  if has_column df c
  then Ok {| name := c; items := map (fun r => (r.1, row_get r.2 c)) (rows df) |}
  else Raise (KeyError c).

(** [s.to_frame()] *)
Definition to_frame (s : Series) : DataFrame :=
  {| columns := [name s];
     rows := map (fun p => (p.1, {[ name s := p.2 ]})) (items s) |}.

(** [df[c] = v] for a scalar [v] *)
Definition setitem (df : DataFrame) (c : string) (v : cell) : DataFrame :=
  {| columns := if has_column df c then columns df else columns df ++ [c];
     rows := map (fun r => (r.1, <[c := v]> r.2)) (rows df) |}.

(** [df.rename(columns={df.columns[0]: c}, inplace=True)] *)
Definition rename_first (df : DataFrame) (c : string) : DataFrame :=
  match columns df with
  | [] => df
  | c0 :: cs =>
      {| columns := c :: cs;
         rows := map (fun r => (r.1, <[c := row_get r.2 c0]> (delete c0 r.2))) (rows df) |}
  end.

(** [pd.concat([a, b])]: the rows of [a] then those of [b], over the union of
    the columns. *)
Definition concat (a b : DataFrame) : DataFrame :=
  {| columns := columns a ++ list_difference (columns b) (columns a);
     rows := rows a ++ rows b |}.

(** *** [resample(rule).last()]

    For the rules ['W'], ['M'], ['Q'] and ['Y'] the bins are closed on the
    right and labelled by their right edge, the last day of the period. The
    result has one row for every bin from the bin of the earliest date to the
    bin of the latest one; [last] gives the last value of the bin that is not
    NaN, and NaN for a bin without one (rows are not dropped). *)

(** The last value of a group that is not NaN, NaN when there is none. *)
Definition last_valid (cs : list cell) : cell :=
  match List.filter notna (rev cs) with
  | c :: _ => c
  | [] => NaN
  end.

(** The bin labels from [L] up to [hi], one per period. *)
Fixpoint bin_labels (fuel : nat) (o : offset) (L hi : Z) : list Z :=
  match fuel with
  | O => []
  | S fuel' =>
      if (L <=? hi)%Z then L :: bin_labels fuel' o (rollforward o (L + 1)) hi else []
  end.

Definition group (o : offset) (L : Z) (l : list (Z * cell)) : list cell :=
  map snd (List.filter (fun p => (rollforward o p.1 =? L)%Z) l).

(** The labels of the bins from the bin of the earliest date to the bin of
    the latest one. *)
Definition time_bins (o : offset) (dates : list Z) : list Z :=
  match dates with
  | [] => []
  | d :: ds =>
      let lo := rollforward o (foldr Z.min d ds) in
      let hi := rollforward o (foldr Z.max d ds) in
      bin_labels (S (Z.to_nat (hi - lo))) o lo hi
  end.

(** One point per bin, stamped with the bin label; a bin without a value is
    NaN. *)
Definition resample_last_items (o : offset) (l : list (Z * cell)) : list (Z * cell) :=
  map (fun L => (L, last_valid (group o L l))) (time_bins o (map fst l)).

Definition resample_last (s : Series) (rule : string) : result Series :=
  match to_offset rule with
  | Some o => Ok {| name := name s; items := resample_last_items o (items s) |}
  | None => Raise {| str := "Invalid frequency: " +:+ rule |}
  end.

(** *** [rolling(window).mean()] *)

(** The running count and sum of the values of the window that are not NaN. *)
Definition add_obs (x : option Q) (st : nat * Q) : nat * Q :=
  match x with
  | Some v => (S st.1, (st.2 + v)%Q)
  | None => st
  end.

Definition remove_obs (x : option Q) (st : nat * Q) : nat * Q :=
  match x with
  | Some v => (pred st.1, (st.2 - v)%Q)
  | None => st
  end.

(** Position [i] takes in [xs !! i] and drops [xs !! (i - window)]; the mean
    is there when the window holds [minp] values. *)
Fixpoint roll_mean (window minp : nat) (xs : list (option Q)) (i : nat)
    (todo : list (option Q)) (st : nat * Q) : list (option Q) :=
  match todo with
  | [] => []
  | x :: todo' =>
      let st := add_obs x st in
      let st := if (window <=? i)%nat
                then remove_obs (default None (xs !! (i - window)%nat)) st
                else st in
      (if (minp <=? st.1)%nat then Some (st.2 / inject_Z (Z.of_nat st.1))%Q else None)
        :: roll_mean window minp xs (S i) todo' st
  end.

(** [s.rolling(window=window).mean()]; [min_periods] is the window. *)
Definition rolling_mean (window : nat) (s : Series) : Series :=
  let xs := map (fun p => as_float p.2) (items s) in
  {| name := name s;
     items := zip (map fst (items s))
                  (map Num (roll_mean window window xs 0 xs (O, 0%Q))) |}.

(** [df[c] == v] *)
Definition eq_mask (df : DataFrame) (c : string) (v : string) : result (list bool) :=
  s ← getitem df c;
  Ok (map (fun p => match p.2 with Str s' => String.eqb s' v | Num _ => false end) (items s)).

(** [df.loc[mask, c]] *)
Definition loc_get (df : DataFrame) (mask : list bool) (c : string) : result Series :=
  s ← getitem df c;
  Ok {| name := c; items := select (items s) mask |}.

(** Writes [values] in column [c] of the rows the mask selects, in order. *)
Fixpoint assign (c : string) (rs : list (Z * gmap string cell)) (mask : list bool)
    (values : list cell) : list (Z * gmap string cell) :=
  match rs, mask with
  | r :: rs', true :: mask' =>
      match values with
      | v :: values' => (r.1, <[c := v]> r.2) :: assign c rs' mask' values'
      | [] => r :: assign c rs' mask' []
      end
  | r :: rs', false :: mask' => r :: assign c rs' mask' values
  | _, _ => rs
  end.

(** [df.loc[mask, c] = s] *)
Definition loc_set (df : DataFrame) (mask : list bool) (c : string) (s : Series) : DataFrame :=
  {| columns := if has_column df c then columns df else columns df ++ [c];
     rows := assign c (rows df) mask (map snd (items s)) |}.

(** *** Formatting of dates and prices *)

(** [date.strftime('%Y-%m-%d')] *)
Definition strftime_Ymd (d : Z) : string :=
  let j := civil_month d in
  str_int (j / 12)%Z +:+ "-" +:+ two_digits (j mod 12 + 1)%Z
  +:+ "-" +:+ two_digits (d - civil_month_start j + 1)%Z.

(** The hundredths nearest to a rational, ties going to the even one. *)
Definition hundredths (q : Q) : Z :=
  let n := (Qnum q * 100)%Z in
  let d := Zpos (Qden q) in
  let fl := (n / d)%Z in
  let r := (n mod d)%Z in
  if (2 * r <? d)%Z then fl
  else if (d <? 2 * r)%Z then (fl + 1)%Z
  else if Z.even fl then fl else (fl + 1)%Z.

(** [f"{price:.2f}"] for a float: two decimals, ["nan"] for NaN; a string
    has no such format. *)
Definition format_2f (c : cell) : result string :=
  match c with
  | Num (Some q) =>
      let h := Z.abs (hundredths q) in
      Ok ((if (Qnum q <? 0)%Z then "-" else EmptyString)
          +:+ str_int (h / 100)%Z +:+ "." +:+ two_digits (h mod 100)%Z)
  | Num None => Ok "nan"
  | Str _ => Raise {| str := "Unknown format code 'f' for object of type 'str'" |}
  end.

End Pandas.

(** ** The upstream price source *)

(** [yf.Ticker(symbol).history(period="max")]: the full daily history of a
    symbol, or an exception (time-out, malformed response, rate limit). *)
Definition PriceSource : Type := string -> Python.result Pandas.DataFrame.

(** ** [st.cache_data]

    The decorator of main_st_good.py, line 49. A decorated function keeps a
    cache of its results by argument tuple: a call whose arguments have an
    entry younger than [ttl] seconds returns the stored value (and shows
    again the elements the stored call showed) without running the function;
    any other call runs it and stores what it returns. A call that raises
    stores nothing. Times are in seconds. *)
Module st.
Import Python Pandas.

Record CacheEntry := { cached_value : DataFrame; cached_messages : list Message;
                       created : Z }.

(** The entry of [key] that has not expired at [now]. *)
Definition live (ttl : Z) (cache : gmap (string * string * string) CacheEntry)
    (now : Z) (key : string * string * string) : option CacheEntry :=
  e ← cache !! key;
  if (now <? created e + ttl)%Z then Some e else None.

Definition cache_data (ttl : Z) (func : string -> string -> string -> M DataFrame)
    (cache : gmap (string * string * string) CacheEntry) (now : Z) (a b c : string)
    : M DataFrame * gmap (string * string * string) CacheEntry :=
  match live ttl cache now (a, b, c) with
  | Some e => ((Ok (cached_value e), cached_messages e), cache)
  | None =>
      match func a b c with
      | (Ok v, w) =>
          ((Ok v, w),
           <[(a, b, c) := {| cached_value := v; cached_messages := w; created := now |}]>
             cache)
      | (Raise e, w) => ((Raise e, w), cache)
      end
  end.

End st.

(** ** The chart *)

Module Matplotlib.
Import Python Pandas.

(** A plotted line: its dates and values, its legend label and its colour. *)
Record Line2D := { get_xdata : list Z; get_ydata : list cell;
                   get_label : string; get_color : string }.

(** An annotation: its text and the point it is anchored at. *)
Record Annotation := { get_text : string; xy : Q * Q }.

Record Axes := { lines : list Line2D; annotations : list Annotation;
                 texts : list string; title : string; xlabel : string;
                 ylabel : string; grid : bool; legend : bool }.

(** The axes after [ax.clear()]. *)
Definition cleared : Axes :=
  {| lines := []; annotations := []; texts := []; title := EmptyString;
     xlabel := EmptyString; ylabel := EmptyString; grid := false; legend := false |}.

(** A mouse event: whether it is over the axes, its data coordinates, and
    for a line the indices of the points of the line it is over (what
    [line.contains(event)] finds). *)
Record MouseEvent := { inaxes : bool; xdata : Q; ydata : Q; ind : Line2D -> list nat }.

#[export] Instance Q_eq_dec : EqDecision Q.
Proof. solve_decision. Defined.

#[export] Instance Annotation_eq_dec : EqDecision Annotation.
Proof. solve_decision. Defined.

(** [ax.plot(x, y, label=label, color=color)] *)
Definition plot (ax : Axes) (line : Line2D) : Axes :=
  {| lines := lines ax ++ [line]; annotations := annotations ax; texts := texts ax;
     title := title ax; xlabel := xlabel ax; ylabel := ylabel ax;
     grid := grid ax; legend := legend ax |}.

(** [ax.text(0.5, 0.5, s, ...)] *)
Definition text (ax : Axes) (s : string) : Axes :=
  {| lines := lines ax; annotations := annotations ax; texts := texts ax ++ [s];
     title := title ax; xlabel := xlabel ax; ylabel := ylabel ax;
     grid := grid ax; legend := legend ax |}.

(** [ax.set_title], [ax.set_xlabel], [ax.set_ylabel], [ax.grid(True)] and
    [ax.legend()] *)
Definition decorate (ax : Axes) (title xlabel ylabel : string) : Axes :=
  {| lines := lines ax; annotations := annotations ax; texts := texts ax;
     title := title; xlabel := xlabel; ylabel := ylabel; grid := true; legend := true |}.

(** [ax.annotate(text, xy=xy, ...)] *)
Definition annotate (ax : Axes) (a : Annotation) : Axes :=
  {| lines := lines ax; annotations := annotations ax ++ [a]; texts := texts ax;
     title := title ax; xlabel := xlabel ax; ylabel := ylabel ax;
     grid := grid ax; legend := legend ax |}.

(** [a.remove()]: the annotation leaves the axes (annotations are told
    apart by their text and anchor). *)
Definition remove (ax : Axes) (a : Annotation) : Axes :=
  {| lines := lines ax;
     annotations := List.filter (fun b => negb (bool_decide (b = a))) (annotations ax);
     texts := texts ax; title := title ax; xlabel := xlabel ax; ylabel := ylabel ax;
     grid := grid ax; legend := legend ax |}.

End Matplotlib.

(** ** main.py: the PyQt5 front-end *)

Module main.
Import Calendar Python Pandas.

(** [df['Close'].resample(rule).last().to_frame()] *)
Definition resample_close (df : DataFrame) (rule : string) : result DataFrame :=
  close ← getitem df "Close";
  r ← resample_last close rule;
  Ok (to_frame r).

(** The body of the [try] block. *)
Definition fetch_try (yf : PriceSource)
    (symbol start_date interval : string) : M DataFrame :=
  df ← lift (yf symbol);
  if empty df then
    show (QMessageBox_warning "Data Error"
            ("No data found for " +:+ symbol +:+ "."
             +:+ " Please check the symbol or date range."));;
    mret DataFrame_new
  else
    mask ← lift (index_ge df start_date);
    let df := df_mask df mask in
    if empty df then mret DataFrame_new
    else
      df ← (if String.eqb interval "Day" then mret df
            else if String.eqb interval "Week" then lift (resample_close df "W")
            else if String.eqb interval "Month" then lift (resample_close df "M")
            else if String.eqb interval "Quarter" then lift (resample_close df "Q")
            else if String.eqb interval "Year" then lift (resample_close df "Y")
            else mret df);
      mret df.

(** The [except Exception as e] block. *)
Definition fetch_except (symbol : string) (e : Exception) : M DataFrame :=
  show (QMessageBox_critical "Error" (fetch_error_text symbol e));;
  mret DataFrame_new.

Definition fetch_and_resample_data (yf : PriceSource)
    (symbol start_date interval : string) : M DataFrame :=
  try_except (fetch_try yf symbol start_date interval) (fetch_except symbol).

(** *** The window *)

Import Matplotlib.

(** The state of the window: the axes, the annotation and the two lines the
    hover handler reads, the two frames of the last plot, the values of the
    two input widgets, and the number of redraws asked of the canvas. *)
Record StockChartApp := {
  ax : Axes;
  annotation : option Annotation;
  line_googl : option Line2D;
  line_nvda : option Line2D;
  df_googl : DataFrame;
  df_nvda : DataFrame;
  start_year_input : Z;
  interval_combo : string;
  draws : nat
}.

Definition clear_annotation (self : StockChartApp) : StockChartApp :=
  match annotation self with
  | Some a =>
      {| ax := remove (ax self) a; annotation := None;
         line_googl := line_googl self; line_nvda := line_nvda self;
         df_googl := df_googl self; df_nvda := df_nvda self;
         start_year_input := start_year_input self;
         interval_combo := interval_combo self; draws := S (draws self) |}
  | None => self
  end.

(** [self.ax.plot(df.index, df['Close'], label=..., color=..., linewidth=2)] *)
Definition plot_close (ax : Axes) (df : DataFrame) (label color : string)
    : result (Axes * Line2D) :=
  close ← getitem df "Close";
  let line := {| get_xdata := index df; get_ydata := map snd (items close);
                 get_label := label; get_color := color |} in
  Ok (plot ax line, line).

(** One symbol of [plot_data]: its line when the frame is not empty, a
    message box otherwise. *)
Definition plot_symbol (ax : Axes) (df : DataFrame) (symbol color : string)
    : M (Axes * option Line2D) :=
  if negb (empty df) then
    '(ax, line) ← lift (plot_close ax df (symbol +:+ " Close Price") color);
    mret (ax, Some line)
  else
    show (QMessageBox_information "Data Not Available"
            ("Could not fetch " +:+ symbol +:+ " data for the selected period."));;
    mret (ax, None).

Definition plot_data (yf : PriceSource) (self : StockChartApp) : M StockChartApp :=
  let self := clear_annotation self in
  let start_year := start_year_input self in
  let interval := interval_combo self in
  let start_date := str_int start_year +:+ "-01-01" in
  df_googl ← fetch_and_resample_data yf "GOOGL" start_date interval;
  df_nvda ← fetch_and_resample_data yf "NVDA" start_date interval;
  let ax := cleared in
  '(ax, line_googl) ← plot_symbol ax df_googl "GOOGL" "steelblue";
  '(ax, line_nvda) ← plot_symbol ax df_nvda "NVDA" "firebrick";
  let ax :=
    if negb (empty df_googl) || negb (empty df_nvda) then
      decorate ax ("GOOGL vs NVDA Stock Price (" +:+ interval +:+ "ly) from "
                   +:+ str_int start_year)
               "Date" "Close Price (USD)"
    else text ax "No data to display. Adjust year or interval." in
  mret {| ax := ax; annotation := annotation self;
          line_googl := line_googl; line_nvda := line_nvda;
          df_googl := df_googl; df_nvda := df_nvda;
          start_year_input := start_year; interval_combo := interval;
          draws := S (draws self) |}.

Definition show_annotation (self : StockChartApp) (date : Z) (price : cell)
    (symbol : string) (x_data y_data : Q) : result StockChartApp :=
  let formatted_date := strftime_Ymd date in
  price_text ← format_2f price;
  let text := symbol +:+ newline +:+ "Date: " +:+ formatted_date +:+ newline
              +:+ "Price: $" +:+ price_text in
  let a := {| get_text := text; xy := (x_data, y_data) |} in
  Ok {| ax := annotate (ax self) a; annotation := Some a;
        line_googl := line_googl self; line_nvda := line_nvda self;
        df_googl := df_googl self; df_nvda := df_nvda self;
        start_year_input := start_year_input self;
        interval_combo := interval_combo self; draws := S (draws self) |}.

(** [df.index[i]] and [df['Close'].iloc[i]] *)
Definition point_at (df : DataFrame) (i : nat) : result (Z * cell) :=
  match index df !! i with
  | Some date =>
      close ← getitem df "Close";
      match items close !! i with
      | Some p => Ok (date, p.2)
      | None => Raise {| str := "single positional indexer is out-of-bounds" |}
      end
  | None => Raise {| str := "index " +:+ str_int (Z.of_nat i) +:+ " is out of bounds" |}
  end.

(** One line of [on_hover]: the annotation of the first point of the line
    the event is over, when there is a line, a frame and such a point. *)
Definition hover_line (self : StockChartApp) (line : option Line2D) (df : DataFrame)
    (symbol : string) (event : MouseEvent) : result (StockChartApp * bool) :=
  match line with
  | Some l =>
      if negb (empty df) then
        match ind event l with
        | i :: _ =>
            '(date, price) ← point_at df i;
            self ← show_annotation self date price symbol (xdata event) (ydata event);
            Ok (self, true)
        | [] => Ok (self, false)
        end
      else Ok (self, false)
  | None => Ok (self, false)
  end.

Definition on_hover (self : StockChartApp) (event : MouseEvent) : result StockChartApp :=
  if inaxes event then
    let self := clear_annotation self in
    '(self, found_point) ← hover_line self (line_googl self) (df_googl self) "GOOGL" event;
    '(self, found_point) ←
      (if negb found_point
       then hover_line self (line_nvda self) (df_nvda self) "NVDA" event
       else Ok (self, found_point));
    if negb found_point then Ok (clear_annotation self) else Ok self
  else Ok (clear_annotation self).

(** [__init__] and [init_ui]: no annotation, no line, the spin box at five
    years before [now_year] (not below its minimum, 1990), the combo box at
    its first item, then the first plot. *)
Definition StockChartApp_new (yf : PriceSource) (now_year : Z) : M StockChartApp :=
  plot_data yf
    {| ax := cleared; annotation := None; line_googl := None; line_nvda := None;
       df_googl := DataFrame_new; df_nvda := DataFrame_new;
       start_year_input := Z.min now_year (Z.max 1990 (now_year - 5));
       interval_combo := "Day"; draws := O |}.

End main.

(** ** main_st_good.py: the Streamlit front-end *)

Module main_st_good.
Import Calendar Python Pandas.

Definition resample_close (df : DataFrame) (rule : string) : result DataFrame :=
  close ← getitem df "Close";
  r ← resample_last close rule;
  Ok (to_frame r).

(** Lines 90 to 92: the first column is renamed when there is no ['Close']. *)
Definition ensure_close (df : DataFrame) : DataFrame :=
  if has_column df "Close" then df else rename_first df "Close".

(** The body of the [try] block. *)
Definition fetch_try (yf : PriceSource)
    (symbol start_date interval_name : string) : M DataFrame :=
  df ← lift (yf symbol);
  if empty df then
    show (st_warning ("No historical data found for " +:+ symbol +:+ "."));;
    mret DataFrame_new
  else
    mask ← lift (index_ge df start_date);
    let df := df_mask df mask in
    if empty df then
      show (st_warning ("No data found for " +:+ symbol +:+ " from "
                        +:+ substring 0 4 start_date
                        +:+ " onwards. Try an earlier year."));;
      mret DataFrame_new
    else
      df ← (if String.eqb interval_name "Day" then mret df
            else if String.eqb interval_name "Week" then lift (resample_close df "W")
            else if String.eqb interval_name "Month" then lift (resample_close df "M")
            else if String.eqb interval_name "Quarter" then lift (resample_close df "Q")
            else if String.eqb interval_name "Year" then lift (resample_close df "Y")
            else mret df);
      let df := ensure_close df in
      let df := setitem df "Symbol" (Str symbol) in
      mret df.

(** The [except Exception as e] block. *)
Definition fetch_except (symbol : string) (e : Exception) : M DataFrame :=
  show (st_error (fetch_error_text symbol e));;
  mret DataFrame_new.

Definition fetch_and_resample_data (yf : PriceSource)
    (symbol start_date interval_name : string) : M DataFrame :=
  try_except (fetch_try yf symbol start_date interval_name) (fetch_except symbol).

(** Line 49: the function as the script calls it, under
    [@st.cache_data(ttl=3600)]. [yf] is what the price source answers at the
    time of the call, [cache] the cache of the function before the call and
    [now] the time of the call; the result comes with the cache after the
    call. *)
Definition fetch_and_resample_data_cached (yf : PriceSource)
    (cache : gmap (string * string * string) st.CacheEntry)
    (now : Z) (symbol start_date interval_name : string)
    : M DataFrame * gmap (string * string * string) st.CacheEntry :=
  st.cache_data 3600 (fetch_and_resample_data yf) cache now
    symbol start_date interval_name.

(** Lines 113 to 120: the frames that are not empty, one after the other. *)
Definition combine (df_googl df_nvda df_tsla : DataFrame) : DataFrame :=
  let combined_df := DataFrame_new in
  let combined_df :=
    if negb (empty df_googl) then concat combined_df df_googl else combined_df in
  let combined_df :=
    if negb (empty df_nvda) then concat combined_df df_nvda else combined_df in
  let combined_df :=
    if negb (empty df_tsla) then concat combined_df df_tsla else combined_df in
  combined_df.

(** Lines 122 to 124: the end-date filter, on the index of the combined
    frame. *)
Definition filter_range (combined_df : DataFrame)
    (start_date_str end_date_str : string) : result DataFrame :=
  if negb (empty combined_df) then
    ge ← index_ge combined_df start_date_str;
    le ← index_le combined_df end_date_str;
    Ok (df_mask combined_df (zip_with andb ge le))
  else Ok combined_df.

(** Line 130, for one symbol. *)
Definition MA200_of (combined_df : DataFrame) (symbol : string) : result DataFrame :=
  symbol_mask ← eq_mask combined_df "Symbol" symbol;
  close ← loc_get combined_df symbol_mask "Close";
  Ok (loc_set combined_df symbol_mask "MA200" (rolling_mean 200 close)).

(** Lines 126 to 130. *)
Definition moving_average (combined_df : DataFrame) (show_ma : bool)
    (selected_interval_name : string) : result DataFrame :=
  if show_ma && String.eqb selected_interval_name "Day" && negb (empty combined_df) then
    foldl (fun acc symbol => df ← acc; MA200_of df symbol) (Ok combined_df)
          ["GOOGL"; "NVDA"; "TSLA"]
  else Ok combined_df.

(** The script from line 106 to line 130: the frame that is plotted. *)
Definition combined_df (yf : PriceSource) (show_ma : bool)
    (start_date_str end_date_str selected_interval_name : string) : M DataFrame :=
  df_googl ← fetch_and_resample_data yf "GOOGL" start_date_str selected_interval_name;
  df_nvda ← fetch_and_resample_data yf "NVDA" start_date_str selected_interval_name;
  df_tsla ← fetch_and_resample_data yf "TSLA" start_date_str selected_interval_name;
  let combined_df := combine df_googl df_nvda df_tsla in
  combined_df ← lift (filter_range combined_df start_date_str end_date_str);
  lift (moving_average combined_df show_ma selected_interval_name).

(** *** The rest of the script *)

(** Lines 34 to 40 and 45: the interval names of the select box and their
    codes; [interval_options[name]] raises for another name. *)
Definition interval_options : list (string * string) :=
  [("Day", "1d"); ("Week", "1wk"); ("Month", "1mo"); ("Quarter", "3mo"); ("Year", "1y")].

Definition yfinance_interval_code (selected_interval_name : string) : result string :=
  match List.find (fun p => String.eqb p.1 selected_interval_name) interval_options with
  | Some p => Ok p.2
  | None => Raise (KeyError selected_interval_name)
  end.

(** Lines 103 and 104. *)
Definition start_date_str (start_year : Z) : string := str_int start_year +:+ "-01-01".
Definition end_date_str (end_year : Z) : string := str_int end_year +:+ "-12-31".

(** A trace added to the figure: its legend name, its dates and values. *)
Record Trace := { trace_name : string; trace_x : list Z; trace_y : list cell }.

(** The figure: its title, the frame [px.line] draws (one line per symbol),
    and the traces added to it. *)
Record Figure := { fig_title : string; fig_data : DataFrame; fig_traces : list Trace }.

(** Lines 155 to 159, for one symbol: the trace of its moving average, when
    the frame has the column. *)
Definition add_ma_trace (combined_df : DataFrame) (fig : Figure) (symbol : string)
    : result Figure :=
  mask ← eq_mask combined_df "Symbol" symbol;
  let ma_data := df_mask combined_df mask in
  if has_column ma_data "MA200" then
    y ← getitem ma_data "MA200";
    Ok {| fig_title := fig_title fig; fig_data := fig_data fig;
          fig_traces := fig_traces fig
                        ++ [{| trace_name := symbol +:+ " 200D MA";
                               trace_x := index ma_data;
                               trace_y := map snd (items y) |}] |}
  else Ok fig.

(** Lines 132 to 193: the chart when the combined frame is not empty, a
    notice otherwise. *)
Definition render (combined_df : DataFrame) (show_ma : bool) (start_year : Z)
    (selected_interval_name : string) : M (option Figure) :=
  if negb (empty combined_df) then
    let fig := {| fig_title := "GOOGL vs NVDA vs TSLA Stock Price ("
                               +:+ selected_interval_name +:+ "ly) from "
                               +:+ str_int start_year;
                  fig_data := combined_df; fig_traces := [] |} in
    fig ← lift (if show_ma && String.eqb selected_interval_name "Day"
                then foldl (fun acc symbol => fig ← acc; add_ma_trace combined_df fig symbol)
                           (Ok fig) ["GOOGL"; "NVDA"; "TSLA"]
                else Ok fig);
    mret (Some fig)
  else
    show (st_info "Please select valid parameters and ensure stock data is available.");;
    mret None.

(** The script for the values of the side bar: the check box, the two years
    of the slider and the interval name. *)
Definition script (yf : PriceSource) (show_ma : bool) (start_year end_year : Z)
    (selected_interval_name : string) : M (DataFrame * option Figure) :=
  _ ← lift (yfinance_interval_code selected_interval_name);
  combined_df ← combined_df yf show_ma (start_date_str start_year)
                  (end_date_str end_year) selected_interval_name;
  fig ← render combined_df show_ma start_year selected_interval_name;
  mret (combined_df, fig).

End main_st_good.

(** ** Notions the properties are stated with *)

Import Calendar Python Pandas.

(** What a call returns, and what it shows the user. *)
Definition value {A} (m : M A) : result A := m.1.
Definition shown {A} (m : M A) : list Message := m.2.

(** The rows of a frame dated [t] or later. *)
Definition filter_ge (t : Z) (df : DataFrame) : DataFrame :=
  {| columns := columns df;
     rows := List.filter (fun r => (t <=? r.1)%Z) (rows df) |}.

(** The two front-ends, and their fetch. *)
Inductive frontend := Qt | Streamlit.

Definition fetch (f : frontend) : PriceSource -> string -> string -> string -> M DataFrame :=
  match f with
  | Qt => main.fetch_and_resample_data
  | Streamlit => main_st_good.fetch_and_resample_data
  end.

(** A call of the function as the front-end makes it, at time [now] and with
    the cache [cache]: main.py calls the method, which has no cache;
    main_st_good.py calls the memoised function. *)
Definition call (f : frontend) (yf : PriceSource)
    (cache : gmap (string * string * string) st.CacheEntry) (now : Z)
    (symbol start_date interval : string)
    : M DataFrame * gmap (string * string * string) st.CacheEntry :=
  match f with
  | Qt => (main.fetch_and_resample_data yf symbol start_date interval, cache)
  | Streamlit =>
      main_st_good.fetch_and_resample_data_cached yf cache now symbol start_date interval
  end.

Definition fetch_try (f : frontend) : PriceSource -> string -> string -> string -> M DataFrame :=
  match f with
  | Qt => main.fetch_try
  | Streamlit => main_st_good.fetch_try
  end.

Definition resample_close (f : frontend) : DataFrame -> string -> result DataFrame :=
  match f with
  | Qt => main.resample_close
  | Streamlit => main_st_good.resample_close
  end.

(** The message a front-end shows for an exception. *)
Definition fetch_failed (f : frontend) (symbol : string) (e : Exception) : Message :=
  match f with
  | Qt => QMessageBox_critical "Error" (fetch_error_text symbol e)
  | Streamlit => st_error (fetch_error_text symbol e)
  end.

(** The two conditions without data: the source has no row for the symbol,
    and it has rows but none on or after the start date. *)
Definition symbol_unknown (yf : PriceSource) (symbol : string) : Prop :=
  exists df, yf symbol = Ok df /\ empty df = true.

Definition no_data_in_range (yf : PriceSource) (symbol start_date : string) : Prop :=
  exists df t, yf symbol = Ok df /\ empty df = false
    /\ Timestamp start_date = Some t /\ empty (filter_ge t df) = true.

(** The failure paths: the two above, and an exception in the [try] block. *)
Definition failure_path (f : frontend) (yf : PriceSource)
    (symbol start_date interval : string) : Prop :=
  symbol_unknown yf symbol \/ no_data_in_range yf symbol start_date
  \/ exists e, value (fetch_try f yf symbol start_date interval) = Raise e.

(** Two results a caller can tell apart: they return different values or
    raise different exceptions. *)
Definition distinguishable (r1 r2 : M DataFrame) : Prop := value r1 <> value r2.

(** The granularities other than Day, with their offsets. *)
Definition granularity (interval : string) : option offset :=
  if String.eqb interval "Week" then Some Week
  else if String.eqb interval "Month" then Some MonthEnd
  else if String.eqb interval "Quarter" then Some QuarterEnd
  else if String.eqb interval "Year" then Some YearEnd
  else None.

(** The dates and closes of a frame, and its points tagged with the symbol. *)
Definition close_items (df : DataFrame) : list (Z * cell) :=
  map (fun r => (r.1, row_get r.2 "Close")) (rows df).

Definition points (df : DataFrame) : list (Z * cell * cell) :=
  map (fun r => (r.1, row_get r.2 "Symbol", row_get r.2 "Close")) (rows df).

(** The frame [df['Close'].resample(rule).last().to_frame()] of a frame with
    a ['Close'] column. *)
Definition resampled (o : offset) (df : DataFrame) : DataFrame :=
  to_frame {| name := "Close"; items := resample_last_items o (close_items df) |}.

(** The texts of the two Streamlit warnings. *)
Definition no_history_text (symbol : string) : string :=
  "No historical data found for " +:+ symbol +:+ ".".

Definition no_data_from_text (symbol start_date : string) : string :=
  "No data found for " +:+ symbol +:+ " from " +:+ substring 0 4 start_date
  +:+ " onwards. Try an earlier year.".

(** The text of the Qt warning. *)
Definition no_data_text (symbol : string) : string :=
  "No data found for " +:+ symbol +:+ "." +:+ " Please check the symbol or date range.".

(** The frame a call hands to the script: what [df_googl = fetch(...)] binds. *)
Definition returned (m : M DataFrame) : DataFrame :=
  match value m with
  | Ok df => df
  | Raise _ => DataFrame_new
  end.

(** The rows and the points of a frame the combination keeps: none when the
    frame is empty. *)
Definition present_rows (df : DataFrame) : list (Z * gmap string cell) :=
  if empty df then [] else rows df.

Definition present (df : DataFrame) : list (Z * cell * cell) :=
  if empty df then [] else points df.

(** Points in the order of the date, then of the symbol. *)
Definition point_le (p q : Z * cell * cell) : Prop :=
  (p.1.1 < q.1.1)%Z
  \/ (p.1.1 = q.1.1
      /\ match p.1.2, q.1.2 with
         | Str s1, Str s2 => String.leb s1 s2 = true
         | _, _ => True
         end).

Definition sorted_by_date_then_symbol (pts : list (Z * cell * cell)) : Prop :=
  Sorted point_le pts.

(** A frame a fetch of [symbol] from [t] on returns when it has data: a
    frame with a close column and rows dated [t] or later, to which the
    symbol column is added. *)
Definition tagged (symbol : string) (t : Z) (out : DataFrame) : Prop :=
  exists body,
    out = setitem body "Symbol" (Str symbol) /\ empty body = false
    /\ has_column body "Close" = true /\ forall d, d ∈ index body -> (t <= d)%Z.

(** A frame with the two columns the script reads. *)
Definition plottable (df : DataFrame) : Prop :=
  has_column df "Symbol" = true /\ has_column df "Close" = true.

(** The mask [combined_df['Symbol'] == symbol], and the frame line 130 makes
    for one symbol. *)
Definition is_symbol (symbol : string) (c : cell) : bool :=
  match c with
  | Str s => String.eqb s symbol
  | Num _ => false
  end.

Definition symbol_row (symbol : string) (r : Z * gmap string cell) : bool :=
  is_symbol symbol (row_get r.2 "Symbol").

Definition symbol_mask (df : DataFrame) (symbol : string) : list bool :=
  map (symbol_row symbol) (rows df).

(** A column of the rows of one symbol, in the order of the frame. *)
Definition series_of (df : DataFrame) (symbol c : string) : list cell :=
  map (fun r => row_get r.2 c) (List.filter (symbol_row symbol) (rows df)).

(** The values line 130 computes for one symbol. *)
Definition MA200_values (df : DataFrame) (symbol : string) : list (option Q) :=
  let xs := map as_float (series_of df symbol "Close") in
  roll_mean 200 200 xs 0 xs (O, 0%Q).

(** The moving average as the specification words it: absent before index
    [window - 1], then the arithmetic mean of the closes at the indices from
    [i - window + 1] to [i]. *)
Definition Qsum (l : list Q) : Q := foldr Qplus 0%Q l.

Definition window_mean (window : nat) (closes : list Q) (i : nat) : Q :=
  (Qsum (take window (drop (i + 1 - window) closes)) / inject_Z (Z.of_nat window))%Q.

Definition moving_average_at (window : nat) (closes : list Q) (i : nat) : option Q :=
  if (i <? window - 1)%nat then None else Some (window_mean window closes i).

Definition spec_moving_average (window : nat) (closes : list Q) : list (option Q) :=
  map (moving_average_at window closes) (seq 0 (length closes)).

(** Two values that are both absent, or both present and equal as rationals. *)
Definition same_value (a b : option Q) : Prop :=
  match a, b with
  | Some x, Some y => (x == y)%Q
  | None, None => True
  | _, _ => False
  end.

Definition count_present (l : list (option Q)) : nat :=
  length (List.filter (fun x : option Q => match x with Some _ => true | None => false end) l).

Definition with_MA200 (df : DataFrame) (symbol : string) : DataFrame :=
  loc_set df (symbol_mask df symbol) "MA200"
    (rolling_mean 200
       {| name := "Close"; items := select (close_items df) (symbol_mask df symbol) |}).

(** Filtering by both dates before resampling, as the specification words
    it: the history is cut to the dates from [t] to [e], then resampled. *)
Definition resample_of_range (o : offset) (t e : Z) (df : DataFrame) : list (Z * cell) :=
  resample_last_items o
    (close_items {| columns := columns df;
                    rows := List.filter (fun r => (t <=? r.1)%Z && (r.1 <=? e)%Z)
                                        (rows df) |}).

(** The series of a history cut to the dates from [t] to [e]: its daily
    rows for Day, their resampling otherwise. *)
Definition range_series (interval : string) (t e : Z) (df : DataFrame) : list (Z * cell) :=
  match granularity interval with
  | Some o => resample_of_range o t e df
  | None =>
      close_items {| columns := columns df;
                     rows := List.filter (fun r => (t <=? r.1)%Z && (r.1 <=? e)%Z)
                                         (rows df) |}
  end.

(** The points of a series that have a value, and those dated [e] or
    earlier. *)
Definition valued (l : list (Z * cell)) : list (Z * cell) :=
  List.filter (fun p => notna p.2) l.

Definition up_to (e : Z) (l : list (Z * cell)) : list (Z * cell) :=
  List.filter (fun p => (p.1 <=? e)%Z) l.

(** The three passes of the loop of line 128. *)
Definition with_MA200_all (df : DataFrame) : DataFrame :=
  with_MA200 (with_MA200 (with_MA200 df "GOOGL") "NVDA") "TSLA".

(** The trace of the moving average of a symbol: the dates of the rows of
    the symbol and their ['MA200'] values. *)
Definition ma_trace (df : DataFrame) (symbol : string) : main_st_good.Trace :=
  {| main_st_good.trace_name := symbol +:+ " 200D MA";
     main_st_good.trace_x := map fst (List.filter (symbol_row symbol) (rows df));
     main_st_good.trace_y := series_of df symbol "MA200" |}.

(** A name the select box offers. *)
Definition selectable (name : string) : Prop :=
  name ∈ map fst main_st_good.interval_options.

Definition chart_title (name : string) (start_year : Z) : string :=
  "GOOGL vs NVDA vs TSLA Stock Price (" +:+ name +:+ "ly) from " +:+ str_int start_year.

Definition no_chart_info : Message :=
  st_info "Please select valid parameters and ensure stock data is available.".

(** The three fetches of the script, and what they show. *)
Definition st_fetched (yf : PriceSource) (start_year : Z) (name symbol : string)
    : M DataFrame :=
  main_st_good.fetch_and_resample_data yf symbol
    (main_st_good.start_date_str start_year) name.

Definition st_fetch_messages (yf : PriceSource) (start_year : Z) (name : string)
    : list Message :=
  shown (st_fetched yf start_year name "GOOGL")
  ++ shown (st_fetched yf start_year name "NVDA")
  ++ shown (st_fetched yf start_year name "TSLA").

(** The text of a message. *)
Definition message_text (m : Message) : string :=
  match m with
  | QMessageBox_warning _ text | QMessageBox_critical _ text
  | QMessageBox_information _ text | st_warning text | st_error text | st_info text => text
  end.

(** What a front-end shows in the two conditions without data. *)
Definition shown_when_unknown (f : frontend) (symbol : string) : list Message :=
  match f with
  | Qt => [QMessageBox_warning "Data Error" (no_data_text symbol)]
  | Streamlit => [st_warning (no_history_text symbol)]
  end.

Definition shown_when_out_of_range (f : frontend) (symbol start_date : string)
    : list Message :=
  match f with
  | Qt => []
  | Streamlit => [st_warning (no_data_from_text symbol start_date)]
  end.

(** Dates in strictly ascending order. *)
Definition ascending (dates : list Z) : Prop := StronglySorted Z.lt dates.

(** No two dates of [dates] fall in the same bucket. *)
Definition one_point_per_bucket (o : offset) (dates : list Z) : Prop :=
  NoDup (map (rollforward o) dates).

(** Some input row falls in the bucket of [L]. *)
Definition populated (o : offset) (input : list Z) (L : Z) : Prop :=
  exists d, d ∈ input /\ rollforward o d = rollforward o L.

(** A point that is NaN, or carries the value of an input row of its own
    bucket. *)
Definition point_of_own_bucket (o : offset) (input : list (Z * cell)) (p : Z * cell)
    : Prop :=
  p.2 = NaN \/ exists d, (d, p.2) ∈ input /\ rollforward o d = p.1.

(** [L] is a bucket label between the buckets of two input rows. *)
Definition in_bucket_range (o : offset) (input : list Z) (L : Z) : Prop :=
  rollforward o L = L
  /\ exists d1 d2, d1 ∈ input /\ d2 ∈ input
       /\ (rollforward o d1 <= L <= rollforward o d2)%Z.

(** Every output point comes from a bucket that holds an input row. *)
Definition no_point_for_empty_bucket (o : offset) (input output : list Z) : Prop :=
  forall L, L ∈ output -> populated o input L.

(** The frame a front-end returns for the filtered or resampled frame
    [body]: main.py returns it as it is, main_st_good.py makes sure of the
    close column and adds the symbol column. *)
Definition frame_of (f : frontend) (symbol : string) (body : DataFrame) : DataFrame :=
  match f with
  | Qt => body
  | Streamlit => setitem (main_st_good.ensure_close body) "Symbol" (Str symbol)
  end.

(** The frame before that: the daily rows from [t] on for Day and for a name
    that is no granularity, their resampling otherwise. *)
Definition body_of (interval : string) (t : Z) (df : DataFrame) : DataFrame :=
  match granularity interval with
  | Some o => resampled o (filter_ge t df)
  | None => filter_ge t df
  end.

(** A fetch that has data: the source has rows for the symbol, some on or
    after the start date, and a close column if they are to be resampled. *)
Definition has_data (yf : PriceSource) (symbol start_date interval : string)
    (df : DataFrame) (t : Z) : Prop :=
  yf symbol = Ok df /\ empty df = false /\ Timestamp start_date = Some t
  /\ empty (filter_ge t df) = false
  /\ (granularity interval <> None -> has_column df "Close" = true).

(** The line [plot_data] draws for the frame of a symbol. *)
Definition line_of (df : DataFrame) (symbol color : string) : Matplotlib.Line2D :=
  {| Matplotlib.get_xdata := index df;
     Matplotlib.get_ydata := map snd (close_items df);
     Matplotlib.get_label := symbol +:+ " Close Price";
     Matplotlib.get_color := color |}.

(** The message box of [plot_data] for a symbol without data. *)
Definition not_available (symbol : string) : Message :=
  QMessageBox_information "Data Not Available"
    ("Could not fetch " +:+ symbol +:+ " data for the selected period.").

(** The window [plot_data] leaves for the two frames, the axes with their
    lines and the two lines. *)
Definition after_plot (self : main.StockChartApp) (g n : DataFrame)
    (ax : Matplotlib.Axes) (lg ln : option Matplotlib.Line2D) : main.StockChartApp :=
  {| main.ax :=
       if negb (empty g) || negb (empty n) then
         Matplotlib.decorate ax
           ("GOOGL vs NVDA Stock Price (" +:+ main.interval_combo self +:+ "ly) from "
            +:+ str_int (main.start_year_input self))
           "Date" "Close Price (USD)"
       else Matplotlib.text ax "No data to display. Adjust year or interval.";
     main.annotation := None;
     main.line_googl := lg; main.line_nvda := ln;
     main.df_googl := g; main.df_nvda := n;
     main.start_year_input := main.start_year_input self;
     main.interval_combo := main.interval_combo self;
     main.draws := S (main.draws (main.clear_annotation self)) |}.

(** The line and the message box of [plot_data] for a frame. *)
Definition line_if_data (df : DataFrame) (symbol color : string)
    : option Matplotlib.Line2D :=
  if empty df then None else Some (line_of df symbol color).

Definition notice_if_empty (df : DataFrame) (symbol : string) : list Message :=
  if empty df then [QMessageBox_information "Data Not Available"
                      ("Could not fetch " +:+ symbol
                       +:+ " data for the selected period.")]
  else [].

(** The start date [plot_data] asks for. *)
Definition start_date_of (self : main.StockChartApp) : string :=
  str_int (main.start_year_input self) +:+ "-01-01".

(** The histories of a source that have rows have a close column. *)
Definition histories_have_close (yf : PriceSource) : Prop :=
  forall symbol df,
    yf symbol = Ok df -> empty df = false -> has_column df "Close" = true.

(** The chart holds the annotation of the window and no other. *)
Definition annotation_on_axes (self : main.StockChartApp) : Prop :=
  Matplotlib.annotations (main.ax self)
  = match main.annotation self with Some a => [a] | None => [] end.

(** A line of the window goes with the frame the hover handler reads for it:
    the frame has rows and a close column, and the line has a point per row. *)
Definition line_matches (line : option Matplotlib.Line2D) (df : DataFrame) : Prop :=
  forall l, line = Some l ->
    empty df = false /\ has_column df "Close" = true
    /\ length (Matplotlib.get_xdata l) = length (rows df).

Definition lines_match_frames (self : main.StockChartApp) : Prop :=
  line_matches (main.line_googl self) (main.df_googl self)
  /\ line_matches (main.line_nvda self) (main.df_nvda self).

Definition window_invariant (self : main.StockChartApp) : Prop :=
  annotation_on_axes self /\ lines_match_frames self.

(** The indices an event reports for a line are indices of its points. *)
Definition valid_event (event : Matplotlib.MouseEvent) : Prop :=
  forall l i, i ∈ Matplotlib.ind event l -> (i < length (Matplotlib.get_xdata l))%nat.

(** The closes of a frame are numbers (NaN included), not text. *)
Definition numeric_closes (df : DataFrame) : Prop :=
  forall r, r ∈ rows df -> exists x, row_get r.2 "Close" = Num x.

Definition numeric_closesb (df : DataFrame) : bool :=
  forallb (fun r => match row_get r.2 "Close" with Num _ => true | Str _ => false end)
          (rows df).

(** The closes of every history of a source are numbers. *)
Definition numeric_source (yf : PriceSource) : Prop :=
  forall symbol df, yf symbol = Ok df -> numeric_closes df.

(** The text of the annotation of a point. *)
Definition annotation_text (symbol : string) (date : Z) (price_text : string) : string :=
  symbol +:+ newline +:+ "Date: " +:+ strftime_Ymd date +:+ newline
  +:+ "Price: $" +:+ price_text.

(** The civil year of a day. *)
Definition year_of (d : Z) : Z := (civil_month d / 12)%Z.

(** ** Sample price sources *)

Definition price (n : Z) : cell := Num (Some (inject_Z n)).

(** A row of a history: open, high, low, close and volume. *)
Definition bar (y m d : Z) (o h l c v : Z) : Z * gmap string cell :=
  (days_from_civil y m d,
   {[ "Open" := price o; "High" := price h; "Low" := price l;
      "Close" := price c; "Volume" := price v ]}).

Definition history (rows : list (Z * gmap string cell)) : DataFrame :=
  {| columns := ["Open"; "High"; "Low"; "Close"; "Volume"]; rows := rows |}.

(** Five trading days; no trading in the week from 2024-01-08 to 2024-01-14. *)
Definition googl_history : DataFrame :=
  history [bar 2023 12 29 139 141 138 140 100; bar 2024 1 2 138 140 137 139 120;
           bar 2024 1 3 139 142 138 141 110; bar 2024 1 16 142 145 141 144 130;
           bar 2024 12 30 190 193 189 192 90]%Z.

Definition nvda_history : DataFrame :=
  history [bar 2024 1 2 48 49 47 48 300; bar 2024 1 3 48 50 48 49 310]%Z.

(** GOOGL and NVDA have a history, the fetch of TSLA times out, any other
    symbol has no row. *)
Definition sample_source : PriceSource := fun symbol =>
  if String.eqb symbol "GOOGL" then Ok googl_history
  else if String.eqb symbol "NVDA" then Ok nvda_history
  else if String.eqb symbol "TSLA" then Raise {| str := "Read timed out." |}
  else Ok DataFrame_new.

(** A tagged daily series of [n] points from day [first] on, the closes
    rising by one a day from [c]. *)
Definition daily_series (symbol : string) (first c : Z) (n : nat) : DataFrame :=
  {| columns := ["Close"; "Symbol"];
     rows := map (fun i : nat =>
                    ((first + Z.of_nat i)%Z,
                     {[ "Close" := price (c + Z.of_nat i); "Symbol" := Str symbol ]}))
                 (seq 0 n) |}.

(** The sample source once the fetch of TSLA no longer times out. *)
Definition recovered_source : PriceSource := fun symbol =>
  if String.eqb symbol "TSLA" then Ok nvda_history else sample_source symbol.

(** A source that knows no symbol. *)
Definition empty_source : PriceSource := fun _ => Ok DataFrame_new.

(** A source whose history of GOOGL has no close column. *)
Definition no_close_source : PriceSource := fun symbol =>
  if String.eqb symbol "GOOGL"
  then Ok {| columns := ["Open"; "Volume"];
             rows := [(19724%Z, {[ "Open" := price 138; "Volume" := price 120 ]})] |}
  else sample_source symbol.

(** A window before its first plot, the spin box at 2024. *)
Definition blank_app (interval : string) : main.StockChartApp :=
  {| main.ax := Matplotlib.cleared; main.annotation := None;
     main.line_googl := None; main.line_nvda := None;
     main.df_googl := DataFrame_new; main.df_nvda := DataFrame_new;
     main.start_year_input := 2024; main.interval_combo := interval;
     main.draws := O |}.

(** The window after a plot of the daily closes of GOOGL from 2024 on, NVDA
    having none. *)
Definition plotted_app : main.StockChartApp :=
  let g := filter_ge 19723 googl_history in
  let l := line_of g "GOOGL" "steelblue" in
  {| main.ax := Matplotlib.plot Matplotlib.cleared l; main.annotation := None;
     main.line_googl := Some l; main.line_nvda := None;
     main.df_googl := g; main.df_nvda := DataFrame_new;
     main.start_year_input := 2024; main.interval_combo := "Day";
     main.draws := 1%nat |}.

(** The cursor on the first point of a line. *)
Definition hover_event : Matplotlib.MouseEvent :=
  {| Matplotlib.inaxes := true; Matplotlib.xdata := inject_Z 19724;
     Matplotlib.ydata := inject_Z 139;
     Matplotlib.ind := fun l =>
       match Matplotlib.get_xdata l with [] => [] | _ :: _ => [O] end |}.

(** The window after the cursor has come over the first point of GOOGL. *)
Definition hovered_app : main.StockChartApp :=
  match main.on_hover plotted_app hover_event with
  | Ok app => app
  | Raise _ => plotted_app
  end.

(** A source that knows GOOGL only. *)
Definition googl_source : PriceSource := fun symbol =>
  if String.eqb symbol "GOOGL" then Ok googl_history else Ok DataFrame_new.

(** The same, but for NVDA, whose fetch is rate limited. *)
Definition other_source : PriceSource := fun symbol =>
  if String.eqb symbol "NVDA" then Raise {| str := "Too Many Requests." |}
  else sample_source symbol.

(** ** Calendar facts *)

Section calendar_facts.
Import Calendar.
Local Open Scope Z_scope.

Local Ltac euclid := Z.to_euclidean_division_equations; lia.

Lemma days_before_year_step y :
  365 <= days_before_year (y + 1) - days_before_year y <= 366.
Proof. unfold days_before_year. euclid. Qed.

Lemma month_start_lt k : month_start k < month_start (k + 1).
Proof.
  unfold month_start.
  assert (Hk : (k + 1) / 12 = k / 12 /\ (k + 1) mod 12 = k mod 12 + 1 /\ k mod 12 < 11
            \/ (k + 1) / 12 = k / 12 + 1 /\ (k + 1) mod 12 = 0 /\ k mod 12 = 11)
    by euclid.
  destruct Hk as [(-> & -> & H) | (-> & -> & ->)].
  - assert (0 <= k mod 12) by (apply Z.mod_pos_bound; lia).
    unfold days_before_month. euclid.
  - pose proof (days_before_year_step (k / 12)).
    change (days_before_month 0) with 0. change (days_before_month 11) with 337. lia.
Qed.

Lemma month_start_mono k k' : k <= k' -> month_start k <= month_start k'.
Proof.
  intros H. replace k' with (k + Z.of_nat (Z.to_nat (k' - k))) by lia.
  induction (Z.to_nat (k' - k)) as [|n IH].
  - rewrite Z.add_0_r. lia.
  - pose proof (month_start_lt (k + Z.of_nat n)).
    replace (k + Z.of_nat (S n)) with (k + Z.of_nat n + 1) by lia. lia.
Qed.

Lemma month_start_lt_inv k k' : month_start k < month_start k' -> k < k'.
Proof.
  intros H. destruct (Z_lt_le_dec k k') as [|Hle]; [done|].
  apply month_start_mono in Hle. lia.
Qed.

(** The year of an era (400 years, 146097 days) a day of the era falls in. *)
Lemma year_of_era doe :
  0 <= doe < 146097 ->
  let yoe := (doe - doe / 1460 + doe / 36524 - doe / 146096) / 365 in
  0 <= yoe <= 399 /\
  365 * yoe + yoe / 4 - yoe / 100 <= doe
    < 365 * (yoe + 1) + (yoe + 1) / 4 - (yoe + 1) / 100 + (yoe + 1) / 400.
Proof. intros H yoe. subst yoe. euclid. Qed.

(** The month a day of a year that starts in March falls in. *)
Lemma month_of_year doy :
  0 <= doy <= 365 ->
  let mp := (5 * doy + 2) / 153 in
  0 <= mp <= 11 /\ days_before_month mp <= doy
  /\ (mp < 11 -> doy < days_before_month (mp + 1)).
Proof. intros H mp. subst mp. unfold days_before_month. euclid. Qed.

(** A day lies in the month [month_index] gives it. *)
Lemma month_bracket d :
  month_start (month_index d) <= d < month_start (month_index d + 1).
Proof.
  unfold month_index.
  set (z := d + 719468). set (era := z / 146097). set (doe := z mod 146097).
  assert (Hdoe : 0 <= doe < 146097) by (apply Z.mod_pos_bound; lia).
  assert (Hz : z = 146097 * era + doe) by (apply Z.div_mod; lia).
  pose proof (year_of_era doe Hdoe) as Hy. cbv zeta in Hy.
  set (yoe := (doe - doe / 1460 + doe / 36524 - doe / 146096) / 365) in *.
  destruct Hy as (Hyoe & Hlo & Hhi).
  set (doy := doe - (365 * yoe + yoe / 4 - yoe / 100)).
  assert (Hdoy : 0 <= doy <= 365) by (subst doy; split; [lia | euclid]).
  pose proof (month_of_year doy Hdoy) as Hm. cbv zeta in Hm.
  set (mp := (5 * doy + 2) / 153) in *.
  destruct Hm as (Hmp & Hmlo & Hmhi).
  set (y := yoe + era * 400).
  assert (Hq : (12 * y + mp) / 12 = y) by euclid.
  assert (Hr : (12 * y + mp) mod 12 = mp) by euclid.
  assert (Hdby : days_before_year y = 146097 * era + 365 * yoe + yoe / 4 - yoe / 100)
    by (unfold days_before_year; subst y; euclid).
  split.
  - unfold month_start. rewrite Hq, Hr, Hdby. lia.
  - destruct (Z.eq_dec mp 11) as [E|E].
    + assert (Hq' : (12 * y + mp + 1) / 12 = y + 1) by euclid.
      assert (Hr' : (12 * y + mp + 1) mod 12 = 0) by euclid.
      unfold month_start. rewrite Hq', Hr'. change (days_before_month 0) with 0.
      assert (days_before_year (y + 1)
              = 146097 * era + 365 * (yoe + 1) + (yoe + 1) / 4 - (yoe + 1) / 100
                + (yoe + 1) / 400)
        by (unfold days_before_year; subst y; euclid).
      lia.
    + assert (Hq' : (12 * y + mp + 1) / 12 = y) by euclid.
      assert (Hr' : (12 * y + mp + 1) mod 12 = mp + 1) by euclid.
      unfold month_start. rewrite Hq', Hr', Hdby.
      assert (doy < days_before_month (mp + 1)) by (apply Hmhi; lia). lia.
Qed.

Lemma month_index_unique d k :
  month_start k <= d < month_start (k + 1) -> month_index d = k.
Proof.
  intros [Hlo Hhi]. pose proof (month_bracket d) as [Hlo' Hhi'].
  assert (k < month_index d + 1) by (apply month_start_lt_inv; lia).
  assert (month_index d < k + 1) by (apply month_start_lt_inv; lia).
  lia.
Qed.

Lemma month_index_mono d d' : d <= d' -> month_index d <= month_index d'.
Proof.
  intros H. pose proof (month_bracket d) as [Hlo _].
  pose proof (month_bracket d') as [_ Hhi].
  assert (month_index d < month_index d' + 1) by (apply month_start_lt_inv; lia).
  lia.
Qed.

(** *** The bin edges form a closure operator on days *)

Lemma week_end_ge d : d <= week_end d.
Proof. unfold week_end. euclid. Qed.

Lemma week_end_mono d d' : d <= d' -> week_end d <= week_end d'.
Proof. unfold week_end. intros H. euclid. Qed.

Lemma week_end_idem d : week_end (week_end d) = week_end d.
Proof. unfold week_end. euclid. Qed.

Lemma next_multiple_gt x n : 0 < n -> x < (x / n + 1) * n.
Proof. intros Hn. pose proof (Z.mul_succ_div_gt x n Hn). lia. Qed.

Lemma div_pred_multiple q n : 0 < n -> ((q + 1) * n - 1) / n = q.
Proof. intros Hn. symmetry. apply (Z.div_unique_pos _ _ q (n - 1)); lia. Qed.

Lemma next_multiple_mono x x' n :
  0 < n -> x <= x' -> (x / n + 1) * n <= (x' / n + 1) * n.
Proof.
  intros Hn H. apply Z.mul_le_mono_nonneg_r; [lia|].
  pose proof (Z.div_le_mono x x' n Hn H). lia.
Qed.

Lemma period_end_civil_month n d :
  0 < n -> civil_month (period_end n d) = (civil_month d / n + 1) * n - 1.
Proof.
  intros Hn. unfold period_end, civil_month, civil_month_start.
  set (q := (month_index d + 2) / n).
  enough (month_index (month_start ((q + 1) * n - 2) - 1) = (q + 1) * n - 3) by lia.
  apply month_index_unique.
  replace ((q + 1) * n - 3 + 1) with ((q + 1) * n - 2) by lia.
  pose proof (month_start_lt ((q + 1) * n - 3)) as Hlt.
  replace ((q + 1) * n - 3 + 1) with ((q + 1) * n - 2) in Hlt by lia. lia.
Qed.

Lemma period_end_ge n d : 0 < n -> d <= period_end n d.
Proof.
  intros Hn. unfold period_end, civil_month, civil_month_start.
  pose proof (month_bracket d) as [_ Hhi].
  pose proof (next_multiple_gt (month_index d + 2) n Hn).
  pose proof (month_start_mono (month_index d + 1)
                ((((month_index d + 2) / n + 1) * n) - 2)).
  lia.
Qed.

Lemma period_end_mono n d d' : 0 < n -> d <= d' -> period_end n d <= period_end n d'.
Proof.
  intros Hn H. unfold period_end, civil_month, civil_month_start.
  pose proof (month_index_mono d d' H).
  pose proof (next_multiple_mono (month_index d + 2) (month_index d' + 2) n Hn).
  pose proof (month_start_mono (((month_index d + 2) / n + 1) * n - 2)
                (((month_index d' + 2) / n + 1) * n - 2)).
  lia.
Qed.

Lemma period_end_idem n d : 0 < n -> period_end n (period_end n d) = period_end n d.
Proof.
  intros Hn. unfold period_end at 1. rewrite period_end_civil_month by done.
  rewrite div_pred_multiple by done. unfold period_end. reflexivity.
Qed.

Lemma rollforward_ge o d : d <= rollforward o d.
Proof. destruct o; simpl; [apply week_end_ge | apply period_end_ge; lia ..]. Qed.

Lemma rollforward_mono o d d' : d <= d' -> rollforward o d <= rollforward o d'.
Proof.
  destruct o; simpl; intros H; [by apply week_end_mono | apply period_end_mono; lia ..].
Qed.

Lemma rollforward_idem o d : rollforward o (rollforward o d) = rollforward o d.
Proof. destruct o; simpl; [apply week_end_idem | apply period_end_idem; lia ..]. Qed.

(** The label of a bin is its least edge: an edge on or after [d] is on or
    after the label of [d]. *)
Lemma rollforward_least o d L :
  d <= L -> rollforward o L = L -> rollforward o d <= L.
Proof. intros H <-. by apply rollforward_mono. Qed.

End calendar_facts.

(** ** Lists *)

Section list_facts.
Local Open Scope Z_scope.

Lemma select_map {A} (p : A -> bool) (l : list A) :
  select l (map p l) = List.filter p l.
Proof. induction l as [|x l IH]; simpl; [done|]. rewrite IH. by destruct (p x). Qed.

Lemma foldr_min_le d ds x : x ∈ d :: ds -> foldr Z.min d ds <= x.
Proof.
  induction ds as [|y ds IH]; simpl; intros H.
  - apply list_elem_of_singleton in H. lia.
  - apply elem_of_cons in H as [->|H]; [|apply elem_of_cons in H as [->|H]].
    + assert (foldr Z.min d ds <= d) by (apply IH; left). lia.
    + lia.
    + assert (foldr Z.min d ds <= x) by (apply IH; by right). lia.
Qed.

Lemma foldr_max_ge d ds x : x ∈ d :: ds -> x <= foldr Z.max d ds.
Proof.
  induction ds as [|y ds IH]; simpl; intros H.
  - apply list_elem_of_singleton in H. lia.
  - apply elem_of_cons in H as [->|H]; [|apply elem_of_cons in H as [->|H]].
    + assert (d <= foldr Z.max d ds) by (apply IH; left). lia.
    + lia.
    + assert (x <= foldr Z.max d ds) by (apply IH; by right). lia.
Qed.

Lemma foldr_min_elem d ds : foldr Z.min d ds ∈ d :: ds.
Proof.
  induction ds as [|y ds IH]; simpl; [left|].
  destruct (Z.min_spec y (foldr Z.min d ds)) as [[_ ->]|[_ ->]].
  - right; left.
  - apply elem_of_cons in IH as [->|IH]; [left | right; by right].
Qed.

Lemma foldr_max_elem d ds : foldr Z.max d ds ∈ d :: ds.
Proof.
  induction ds as [|y ds IH]; simpl; [left|].
  destruct (Z.max_spec y (foldr Z.max d ds)) as [[_ ->]|[_ ->]].
  - apply elem_of_cons in IH as [->|IH]; [left | right; by right].
  - right; left.
Qed.

Lemma foldr_min_eq d ds m :
  m ∈ d :: ds -> (forall x, x ∈ d :: ds -> m <= x) -> foldr Z.min d ds = m.
Proof.
  intros Hm Hle. pose proof (foldr_min_le d ds m Hm).
  pose proof (Hle _ (foldr_min_elem d ds)). lia.
Qed.

Lemma foldr_max_eq d ds m :
  m ∈ d :: ds -> (forall x, x ∈ d :: ds -> x <= m) -> foldr Z.max d ds = m.
Proof.
  intros Hm Hle. pose proof (foldr_max_ge d ds m Hm).
  pose proof (Hle _ (foldr_max_elem d ds)). lia.
Qed.

Lemma string_app_assoc (s1 s2 s3 : string) : (s1 +:+ s2) +:+ s3 = s1 +:+ s2 +:+ s3.
Proof.
  induction s1 as [|a s1 IH]; [done|].
  change (String a ((s1 +:+ s2) +:+ s3) = String a (s1 +:+ s2 +:+ s3)). by f_equal.
Qed.

Lemma ascending_no_dup (l : list Z) : StronglySorted Z.lt l -> NoDup l.
Proof.
  induction 1 as [|x l Hs IH Hall]; constructor; [|done].
  intros Hx. rewrite Forall_forall in Hall. apply Hall in Hx. lia.
Qed.

End list_facts.

(** ** The bins of [resample] *)

Section bins.
Import Calendar Pandas.
Local Open Scope Z_scope.
Implicit Types (o : offset) (L hi x : Z).

Lemma bin_labels_ge fuel o L hi x : x ∈ bin_labels fuel o L hi -> L <= x <= hi.
Proof.
  revert L. induction fuel as [|fuel IH]; simpl; intros L H.
  - by apply elem_of_nil in H.
  - destruct (Z.leb_spec L hi) as [Hle|]; [|by apply elem_of_nil in H].
    apply elem_of_cons in H as [->|H]; [lia|].
    apply IH in H. pose proof (rollforward_ge o (L + 1)). lia.
Qed.

(** With enough fuel the labels are all the edges between [L] and [hi]. *)
Lemma bin_labels_elem fuel o L hi x :
  rollforward o L = L -> hi - L < Z.of_nat fuel ->
  x ∈ bin_labels fuel o L hi <-> L <= x <= hi /\ rollforward o x = x.
Proof.
  revert L. induction fuel as [|fuel IH]; simpl; intros L HL Hfuel.
  - split; [intros H; by apply elem_of_nil in H | lia].
  - destruct (Z.leb_spec L hi) as [Hle|Hlt].
    2: { split; [intros H; by apply elem_of_nil in H | lia]. }
    pose proof (rollforward_ge o (L + 1)) as Hnext.
    rewrite elem_of_cons, IH by (rewrite ?rollforward_idem; lia).
    split.
    + intros [->|[? ?]]; [done | split; [lia | done]].
    + intros [Hx Hc]. destruct (Z.eq_dec x L) as [->|Hne]; [by left | right].
      split; [|done]. split; [|lia].
      apply rollforward_least; [lia | done].
Qed.

Lemma bin_labels_sorted fuel o L hi : StronglySorted Z.lt (bin_labels fuel o L hi).
Proof.
  revert L. induction fuel as [|fuel IH]; simpl; intros L; [constructor|].
  destruct (L <=? hi); constructor; [apply IH|].
  apply Forall_forall. intros x Hx. apply bin_labels_ge in Hx.
  pose proof (rollforward_ge o (L + 1)). lia.
Qed.

Lemma time_bins_sorted o dates : StronglySorted Z.lt (time_bins o dates).
Proof. destruct dates; [constructor | apply bin_labels_sorted]. Qed.

Lemma time_bins_elem o d ds x :
  x ∈ time_bins o (d :: ds) <->
  rollforward o (foldr Z.min d ds) <= x <= rollforward o (foldr Z.max d ds)
  /\ rollforward o x = x.
Proof.
  unfold time_bins. apply bin_labels_elem; [apply rollforward_idem|].
  pose proof (foldr_min_le d ds _ (foldr_max_elem d ds)) as Hle.
  apply (rollforward_mono o) in Hle. lia.
Qed.

(** Every label is a bin edge. *)
Lemma time_bins_closed o dates x : x ∈ time_bins o dates -> rollforward o x = x.
Proof.
  destruct dates as [|d ds]; [intros H; by apply elem_of_nil in H|].
  intros H. by apply time_bins_elem in H as [_ ?].
Qed.

(** The bin of every date is there. *)
Lemma time_bins_covers o dates d : d ∈ dates -> rollforward o d ∈ time_bins o dates.
Proof.
  destruct dates as [|d0 ds]; [intros H; by apply elem_of_nil in H|].
  intros H. apply time_bins_elem. split; [|apply rollforward_idem].
  split; apply rollforward_mono; [by apply foldr_min_le | by apply foldr_max_ge].
Qed.

(** A label that is there lies between the bins of two dates. *)
Lemma time_bins_between o dates x :
  x ∈ time_bins o dates ->
  exists d1 d2, d1 ∈ dates /\ d2 ∈ dates /\ rollforward o d1 <= x <= rollforward o d2.
Proof.
  destruct dates as [|d ds]; [intros H; by apply elem_of_nil in H|].
  intros H. apply time_bins_elem in H as [H _].
  exists (foldr Z.min d ds), (foldr Z.max d ds).
  split; [apply foldr_min_elem | split; [apply foldr_max_elem | done]].
Qed.

Lemma time_bins_nil o dates : time_bins o dates = [] -> dates = [].
Proof.
  destruct dates as [|d ds]; [done|]. intros H.
  pose proof (time_bins_covers o (d :: ds) d) as Hin.
  rewrite H in Hin. exfalso. eapply elem_of_nil, Hin. left.
Qed.

Lemma time_bins_no_dup o dates : NoDup (map (rollforward o) (time_bins o dates)).
Proof.
  rewrite (map_ext_in _ id), map_id.
  - apply ascending_no_dup, time_bins_sorted.
  - intros x Hx. apply list_elem_of_In in Hx. by apply time_bins_closed in Hx.
Qed.

(** Binning the labels again gives the same labels. *)
Lemma time_bins_idem o dates : time_bins o (time_bins o dates) = time_bins o dates.
Proof.
  destruct (time_bins o dates) as [|L Ls] eqn:E; [done|].
  assert (Hs : StronglySorted Z.lt (L :: Ls)) by (rewrite <- E; apply time_bins_sorted).
  assert (Hc : forall x, x ∈ L :: Ls -> rollforward o x = x).
  { intros x Hx. rewrite <- E in Hx. by apply time_bins_closed in Hx. }
  destruct dates as [|d ds]; [done|].
  set (lo := rollforward o (foldr Z.min d ds)) in *.
  set (hi := rollforward o (foldr Z.max d ds)) in *.
  assert (Hel : forall x, x ∈ L :: Ls <-> lo <= x <= hi /\ rollforward o x = x).
  { intros x. rewrite <- E. apply time_bins_elem. }
  assert (Hlohi : lo <= hi).
  { apply rollforward_mono, foldr_min_le, foldr_max_elem. }
  assert (HL : L = lo).
  { unfold time_bins in E. simpl in E. fold lo hi in E.
    destruct (Z.leb_spec lo hi); [|lia]. by inversion E. }
  assert (Hmin : foldr Z.min L Ls = lo).
  { apply foldr_min_eq; [rewrite HL; left|]. intros x Hx. apply Hel in Hx. lia. }
  assert (Hmax : foldr Z.max L Ls = hi).
  { apply foldr_max_eq.
    - apply Hel. split; [lia | apply rollforward_idem].
    - intros x Hx. apply Hel in Hx. lia. }
  assert (Hlo : rollforward o lo = lo) by apply rollforward_idem.
  assert (Hhi : rollforward o hi = hi) by apply rollforward_idem.
  transitivity (time_bins o (d :: ds)); [|exact E].
  unfold time_bins. rewrite Hmin, Hmax. fold lo hi. by rewrite Hlo, Hhi.
Qed.

End bins.

(** ** [resample(rule).last()] *)

Section resample_facts.
Import Calendar Pandas.
Local Open Scope Z_scope.
Implicit Types (o : offset) (l : list (Z * cell)) (c : cell).

Lemma notna_false c : notna c = false -> c = NaN.
Proof. by destruct c as [[?|]|?]. Qed.

Lemma last_valid_nil : last_valid [] = NaN.
Proof. done. Qed.

Lemma last_valid_singleton c : last_valid [c] = c.
Proof.
  unfold last_valid. simpl. destruct (notna c) eqn:E; [done|].
  symmetry. by apply notna_false.
Qed.

(** The value of a bin is NaN or one of the values of the bin. *)
Lemma last_valid_elem cs : last_valid cs = NaN \/ last_valid cs ∈ cs.
Proof.
  unfold last_valid. destruct (List.filter notna (rev cs)) as [|c cs'] eqn:E; [by left|].
  right. assert (H : In c (List.filter notna (rev cs))) by (rewrite E; left; done).
  apply filter_In in H as [H _]. rewrite <- in_rev in H. by apply list_elem_of_In.
Qed.

(** A bin with a value that is not NaN has a value. *)
Lemma last_valid_notna cs c : c ∈ cs -> notna c = true -> notna (last_valid cs) = true.
Proof.
  intros Hc Hn. unfold last_valid.
  destruct (List.filter notna (rev cs)) as [|c' cs'] eqn:E.
  - assert (H : In c (List.filter notna (rev cs))).
    { apply filter_In. split; [|done]. rewrite <- in_rev. by apply list_elem_of_In. }
    rewrite E in H. destruct H.
  - assert (H : In c' (List.filter notna (rev cs))) by (rewrite E; left; done).
    by apply filter_In in H as [_ H].
Qed.

Lemma group_elem o L l c :
  c ∈ group o L l <-> exists d, (d, c) ∈ l /\ rollforward o d = L.
Proof.
  unfold group. rewrite list_elem_of_fmap. split.
  - intros [[d c'] [-> H]]. apply list_elem_of_In, filter_In in H as [H Hd].
    exists d. split; [by apply list_elem_of_In | by apply Z.eqb_eq in Hd].
  - intros [d [H Hd]]. exists (d, c). split; [done|].
    apply list_elem_of_In, filter_In. split; [by apply list_elem_of_In | by apply Z.eqb_eq].
Qed.

Lemma group_empty o L l :
  (forall d, d ∈ map fst l -> rollforward o d <> L) -> group o L l = [].
Proof.
  intros H. unfold group. induction l as [|[d c] l IH]; [done|]. simpl.
  destruct (Z.eqb_spec (rollforward o d) L) as [E|_].
  - exfalso. apply (H d); [left | done].
  - apply IH. intros d' Hd'. apply H. by right.
Qed.

Lemma resample_index o l : map fst (resample_last_items o l) = time_bins o (map fst l).
Proof. unfold resample_last_items. rewrite map_map. simpl. apply map_id. Qed.

Lemma resample_elem o l L c :
  (L, c) ∈ resample_last_items o l <->
  L ∈ time_bins o (map fst l) /\ c = last_valid (group o L l).
Proof.
  unfold resample_last_items. rewrite list_elem_of_fmap. split.
  - intros [L' [E H]]. by inversion E; subst.
  - intros [H ->]. by exists L.
Qed.

(** The group of a label in a series that has one point per label. *)
Lemma group_of_labels o (f : Z -> cell) (bs : list Z) L :
  NoDup bs -> (forall x, x ∈ bs -> rollforward o x = x) -> L ∈ bs ->
  group o L (map (fun L' => (L', f L')) bs) = [f L].
Proof.
  intros Hnd Hc HL. induction Hnd as [|x bs Hx Hnd IH]; [by apply elem_of_nil in HL|].
  unfold group in *. simpl. rewrite (Hc x) by left.
  destruct (Z.eqb_spec x L) as [->|Hne].
  - simpl. f_equal. apply (group_empty o L).
    intros d Hd E. rewrite map_map, map_id in Hd.
    rewrite (Hc d) in E by (by right). by subst.
  - apply IH; [intros y Hy; apply Hc; by right|].
    apply elem_of_cons in HL as [->|HL]; done.
Qed.

(** Resampling a resampled series at the same rule leaves it as it is. *)
Lemma resample_last_items_idem o l :
  resample_last_items o (resample_last_items o l) = resample_last_items o l.
Proof.
  unfold resample_last_items at 1. rewrite resample_index, time_bins_idem.
  unfold resample_last_items. apply map_ext_in. intros L HL.
  apply list_elem_of_In in HL. f_equal.
  rewrite (group_of_labels o (fun L' => last_valid (group o L' l))).
  - apply last_valid_singleton.
  - apply ascending_no_dup, time_bins_sorted.
  - intros x. apply time_bins_closed.
  - done.
Qed.

End resample_facts.

(** ** The paths of [fetch_and_resample_data] *)

Section fetch_paths.
Import Calendar Python Pandas.
Local Open Scope Z_scope.
Local Arguments empty : simpl never.
Local Arguments has_column : simpl never.
Local Arguments Timestamp : simpl never.
Local Arguments resample_last_items : simpl never.
Local Arguments String.eqb : simpl nomatch.
Variable yf : PriceSource.
Implicit Types (symbol start_date interval : string) (df : DataFrame) (t : Z).

Lemma df_mask_ge df t :
  df_mask df (map (fun d => t <=? d) (index df)) = filter_ge t df.
Proof.
  unfold df_mask, filter_ge, index. f_equal. rewrite map_map.
  apply (select_map (fun r => t <=? r.1)).
Qed.

Lemma filter_ge_columns df t : columns (filter_ge t df) = columns df.
Proof. done. Qed.

Lemma filter_ge_has_column df t c : has_column (filter_ge t df) c = has_column df c.
Proof. done. Qed.

Lemma granularity_cases interval o :
  granularity interval = Some o ->
  (interval = "Week" /\ o = Week) \/ (interval = "Month" /\ o = MonthEnd)
  \/ (interval = "Quarter" /\ o = QuarterEnd) \/ (interval = "Year" /\ o = YearEnd).
Proof.
  unfold granularity. intros H.
  destruct (String.eqb_spec interval "Week") as [->|_]; [left; by inversion H|].
  destruct (String.eqb_spec interval "Month") as [->|_]; [right; left; by inversion H|].
  destruct (String.eqb_spec interval "Quarter") as [->|_];
    [right; right; left; by inversion H|].
  destruct (String.eqb_spec interval "Year") as [->|_];
    [right; right; right; by inversion H | done].
Qed.

Lemma granularity_none interval :
  granularity interval = None ->
  String.eqb interval "Week" = false /\ String.eqb interval "Month" = false
  /\ String.eqb interval "Quarter" = false /\ String.eqb interval "Year" = false.
Proof.
  unfold granularity. intros H.
  destruct (String.eqb interval "Week"); [done|].
  destruct (String.eqb interval "Month"); [done|].
  destruct (String.eqb interval "Quarter"); [done|].
  destruct (String.eqb interval "Year"); done.
Qed.

(** *** main.py *)

Lemma main_fetch_raises symbol start_date interval e :
  yf symbol = Raise e ->
  main.fetch_and_resample_data yf symbol start_date interval
  = (Ok DataFrame_new, [QMessageBox_critical "Error" (fetch_error_text symbol e)]).
Proof. intros H. unfold main.fetch_and_resample_data, main.fetch_try. rewrite H. reflexivity. Qed.

Lemma main_fetch_no_rows symbol start_date interval df :
  yf symbol = Ok df -> empty df = true ->
  main.fetch_and_resample_data yf symbol start_date interval
  = (Ok DataFrame_new, [QMessageBox_warning "Data Error" (no_data_text symbol)]).
Proof.
  intros H He. unfold main.fetch_and_resample_data, main.fetch_try. rewrite H. simpl. rewrite He.
  reflexivity.
Qed.

Lemma main_fetch_bad_date symbol start_date interval df :
  yf symbol = Ok df -> empty df = false -> Timestamp start_date = None ->
  main.fetch_and_resample_data yf symbol start_date interval
  = (Ok DataFrame_new,
     [QMessageBox_critical "Error" (fetch_error_text symbol invalid_comparison)]).
Proof.
  intros H He Ht. unfold main.fetch_and_resample_data, main.fetch_try. rewrite H. simpl. rewrite He.
  unfold index_ge. rewrite Ht. reflexivity.
Qed.

Lemma main_fetch_out_of_range symbol start_date interval df t :
  yf symbol = Ok df -> empty df = false -> Timestamp start_date = Some t ->
  empty (filter_ge t df) = true ->
  main.fetch_and_resample_data yf symbol start_date interval = (Ok DataFrame_new, []).
Proof.
  intros H He Ht Hf. unfold main.fetch_and_resample_data, main.fetch_try. rewrite H. simpl. rewrite He.
  unfold index_ge. rewrite Ht. simpl. rewrite df_mask_ge, Hf. reflexivity.
Qed.

(** Day, and any name that is not a granularity: the filtered frame. *)
Lemma main_fetch_daily symbol start_date interval df t :
  yf symbol = Ok df -> empty df = false -> Timestamp start_date = Some t ->
  empty (filter_ge t df) = false -> granularity interval = None ->
  main.fetch_and_resample_data yf symbol start_date interval = (Ok (filter_ge t df), []).
Proof.
  intros H He Ht Hf Hg. unfold main.fetch_and_resample_data, main.fetch_try. rewrite H. simpl. rewrite He.
  unfold index_ge. rewrite Ht. simpl. rewrite df_mask_ge, Hf.
  apply granularity_none in Hg as (-> & -> & -> & ->).
  by destruct (String.eqb interval "Day").
Qed.

Lemma main_resample_close df o rule :
  has_column df "Close" = true -> to_offset rule = Some o ->
  main.resample_close df rule = Ok (resampled o df).
Proof.
  intros Hc Hr. unfold main.resample_close, getitem, resample_last. rewrite Hc. simpl.
  by rewrite Hr.
Qed.

Lemma main_resample_close_missing df rule :
  has_column df "Close" = false -> main.resample_close df rule = Raise (KeyError "Close").
Proof. intros Hc. unfold main.resample_close, getitem. by rewrite Hc. Qed.

Lemma main_fetch_resampled symbol start_date interval df t o :
  yf symbol = Ok df -> empty df = false -> Timestamp start_date = Some t ->
  empty (filter_ge t df) = false -> granularity interval = Some o ->
  has_column df "Close" = true ->
  main.fetch_and_resample_data yf symbol start_date interval
  = (Ok (resampled o (filter_ge t df)), []).
Proof.
  intros H He Ht Hf Hg Hc. unfold main.fetch_and_resample_data, main.fetch_try. rewrite H. simpl.
  rewrite He. unfold index_ge. rewrite Ht. simpl. rewrite df_mask_ge, Hf.
  apply granularity_cases in Hg as [[-> ->]|[[-> ->]|[[-> ->]|[-> ->]]]]; simpl;
    by erewrite main_resample_close.
Qed.

Lemma main_fetch_no_close symbol start_date interval df t o :
  yf symbol = Ok df -> empty df = false -> Timestamp start_date = Some t ->
  empty (filter_ge t df) = false -> granularity interval = Some o ->
  has_column df "Close" = false ->
  main.fetch_and_resample_data yf symbol start_date interval
  = (Ok DataFrame_new,
     [QMessageBox_critical "Error" (fetch_error_text symbol (KeyError "Close"))]).
Proof.
  intros H He Ht Hf Hg Hc. unfold main.fetch_and_resample_data, main.fetch_try. rewrite H. simpl.
  rewrite He. unfold index_ge. rewrite Ht. simpl. rewrite df_mask_ge, Hf.
  apply granularity_cases in Hg as [[-> ->]|[[-> ->]|[[-> ->]|[-> ->]]]]; simpl;
    by rewrite main_resample_close_missing.
Qed.

(** *** main_st_good.py *)

Lemma st_fetch_raises symbol start_date interval e :
  yf symbol = Raise e ->
  main_st_good.fetch_and_resample_data yf symbol start_date interval
  = (Ok DataFrame_new, [st_error (fetch_error_text symbol e)]).
Proof. intros H. unfold main_st_good.fetch_and_resample_data, main_st_good.fetch_try. rewrite H. reflexivity. Qed.

Lemma st_fetch_no_rows symbol start_date interval df :
  yf symbol = Ok df -> empty df = true ->
  main_st_good.fetch_and_resample_data yf symbol start_date interval
  = (Ok DataFrame_new, [st_warning (no_history_text symbol)]).
Proof.
  intros H He. unfold main_st_good.fetch_and_resample_data, main_st_good.fetch_try. rewrite H. simpl.
  rewrite He. reflexivity.
Qed.

Lemma st_fetch_bad_date symbol start_date interval df :
  yf symbol = Ok df -> empty df = false -> Timestamp start_date = None ->
  main_st_good.fetch_and_resample_data yf symbol start_date interval
  = (Ok DataFrame_new, [st_error (fetch_error_text symbol invalid_comparison)]).
Proof.
  intros H He Ht. unfold main_st_good.fetch_and_resample_data, main_st_good.fetch_try. rewrite H. simpl.
  rewrite He. unfold index_ge. rewrite Ht. reflexivity.
Qed.

Lemma st_fetch_out_of_range symbol start_date interval df t :
  yf symbol = Ok df -> empty df = false -> Timestamp start_date = Some t ->
  empty (filter_ge t df) = true ->
  main_st_good.fetch_and_resample_data yf symbol start_date interval
  = (Ok DataFrame_new, [st_warning (no_data_from_text symbol start_date)]).
Proof.
  intros H He Ht Hf. unfold main_st_good.fetch_and_resample_data, main_st_good.fetch_try. rewrite H. simpl.
  rewrite He. unfold index_ge. rewrite Ht. simpl. rewrite df_mask_ge, Hf. reflexivity.
Qed.

Lemma st_fetch_daily symbol start_date interval df t :
  yf symbol = Ok df -> empty df = false -> Timestamp start_date = Some t ->
  empty (filter_ge t df) = false -> granularity interval = None ->
  main_st_good.fetch_and_resample_data yf symbol start_date interval
  = (Ok (setitem (main_st_good.ensure_close (filter_ge t df)) "Symbol" (Str symbol)), []).
Proof.
  intros H He Ht Hf Hg. unfold main_st_good.fetch_and_resample_data, main_st_good.fetch_try. rewrite H. simpl.
  rewrite He. unfold index_ge. rewrite Ht. simpl. rewrite df_mask_ge, Hf.
  apply granularity_none in Hg as (-> & -> & -> & ->).
  by destruct (String.eqb interval "Day").
Qed.

Lemma st_resample_close df o rule :
  has_column df "Close" = true -> to_offset rule = Some o ->
  main_st_good.resample_close df rule = Ok (resampled o df).
Proof.
  intros Hc Hr. unfold main_st_good.resample_close, getitem, resample_last. rewrite Hc.
  simpl. by rewrite Hr.
Qed.

Lemma st_resample_close_missing df rule :
  has_column df "Close" = false ->
  main_st_good.resample_close df rule = Raise (KeyError "Close").
Proof. intros Hc. unfold main_st_good.resample_close, getitem. by rewrite Hc. Qed.

Lemma st_fetch_resampled symbol start_date interval df t o :
  yf symbol = Ok df -> empty df = false -> Timestamp start_date = Some t ->
  empty (filter_ge t df) = false -> granularity interval = Some o ->
  has_column df "Close" = true ->
  main_st_good.fetch_and_resample_data yf symbol start_date interval
  = (Ok (setitem (resampled o (filter_ge t df)) "Symbol" (Str symbol)), []).
Proof.
  intros H He Ht Hf Hg Hc. unfold main_st_good.fetch_and_resample_data, main_st_good.fetch_try. rewrite H. simpl.
  rewrite He. unfold index_ge. rewrite Ht. simpl. rewrite df_mask_ge, Hf.
  apply granularity_cases in Hg as [[-> ->]|[[-> ->]|[[-> ->]|[-> ->]]]]; simpl;
    by erewrite st_resample_close.
Qed.

Lemma st_fetch_no_close symbol start_date interval df t o :
  yf symbol = Ok df -> empty df = false -> Timestamp start_date = Some t ->
  empty (filter_ge t df) = false -> granularity interval = Some o ->
  has_column df "Close" = false ->
  main_st_good.fetch_and_resample_data yf symbol start_date interval
  = (Ok DataFrame_new, [st_error (fetch_error_text symbol (KeyError "Close"))]).
Proof.
  intros H He Ht Hf Hg Hc. unfold main_st_good.fetch_and_resample_data, main_st_good.fetch_try. rewrite H. simpl.
  rewrite He. unfold index_ge. rewrite Ht. simpl. rewrite df_mask_ge, Hf.
  apply granularity_cases in Hg as [[-> ->]|[[-> ->]|[[-> ->]|[-> ->]]]]; simpl;
    by rewrite st_resample_close_missing.
Qed.

End fetch_paths.

(** ** Failure paths and messages *)

Section failure_paths.
Import Calendar Python Pandas.
Implicit Types (f : frontend) (yf : PriceSource) (symbol start_date interval : string).

Lemma fetch_unknown f yf symbol start_date interval :
  symbol_unknown yf symbol ->
  fetch f yf symbol start_date interval = (Ok DataFrame_new, shown_when_unknown f symbol).
Proof.
  intros (df & H & He).
  destruct f; [by eapply main_fetch_no_rows | by eapply st_fetch_no_rows].
Qed.

Lemma fetch_out_of_range f yf symbol start_date interval :
  no_data_in_range yf symbol start_date ->
  fetch f yf symbol start_date interval
  = (Ok DataFrame_new, shown_when_out_of_range f symbol start_date).
Proof.
  intros (df & t & H & He & Ht & Hf).
  destruct f; [by eapply main_fetch_out_of_range | by eapply st_fetch_out_of_range].
Qed.

Lemma fetch_upstream_raises f yf symbol start_date interval e :
  yf symbol = Raise e ->
  fetch f yf symbol start_date interval = (Ok DataFrame_new, [fetch_failed f symbol e]).
Proof. intros H. destruct f; [by apply main_fetch_raises | by apply st_fetch_raises]. Qed.

(** An exception of the [try] block is caught: the call returns the empty
    frame. *)
Lemma fetch_catches f yf symbol start_date interval e :
  value (fetch_try f yf symbol start_date interval) = Raise e ->
  value (fetch f yf symbol start_date interval) = Ok DataFrame_new.
Proof.
  destruct f; simpl;
    unfold main.fetch_and_resample_data, main_st_good.fetch_and_resample_data, value.
  - destruct (main.fetch_try _ _ _ _) as [[a|e'] w]; simpl; [done|]. by intros _.
  - destruct (main_st_good.fetch_try _ _ _ _) as [[a|e'] w]; simpl; [done|]. by intros _.
Qed.

(** The call always returns. *)
Lemma fetch_returns f yf symbol start_date interval :
  exists df, value (fetch f yf symbol start_date interval) = Ok df.
Proof.
  destruct f; simpl;
    unfold main.fetch_and_resample_data, main_st_good.fetch_and_resample_data, value.
  - destruct (main.fetch_try _ _ _ _) as [[a|e'] w]; simpl; eauto.
  - destruct (main_st_good.fetch_try _ _ _ _) as [[a|e'] w]; simpl; eauto.
Qed.

(** The result depends on the source through the history of the symbol
    only. *)
Lemma fetch_try_ext f yf1 yf2 symbol start_date interval :
  yf1 symbol = yf2 symbol ->
  fetch_try f yf1 symbol start_date interval = fetch_try f yf2 symbol start_date interval.
Proof.
  intros H. destruct f; simpl; unfold main.fetch_try, main_st_good.fetch_try;
    by rewrite H.
Qed.

End failure_paths.

(** ** The properties of the fetch *)

(** C9. On every failure path (the source has no row for the symbol, no row
    is left after the start-date filter, an exception is raised in the [try]
    block) [fetch_and_resample_data] does not raise and returns the same
    value, the empty frame [pd.DataFrame()], in both front-ends. *)
Theorem failure_returns_empty_frame (f : frontend) (yf : PriceSource)
    (symbol start_date interval : string) :
  failure_path f yf symbol start_date interval ->
  value (fetch f yf symbol start_date interval) = Ok DataFrame_new.
Proof.
  intros [H|[H|[e H]]].
  - by rewrite (fetch_unknown f yf symbol start_date interval H).
  - by rewrite (fetch_out_of_range f yf symbol start_date interval H).
  - by eapply fetch_catches.
Qed.

Lemma failure_returns_empty_frame_witness :
  failure_path Qt sample_source "GOOGL" "2025-01-01" "Week"
  /\ value (fetch Qt sample_source "GOOGL" "2025-01-01" "Week") = Ok DataFrame_new.
Proof.
  assert (H : failure_path Qt sample_source "GOOGL" "2025-01-01" "Week").
  { right; left. exists googl_history, 20089%Z. repeat split; reflexivity. }
  split; [exact H | exact (failure_returns_empty_frame _ _ _ _ _ H)].
Defined.

(** C2 as stated fails: for a symbol without rows and for a symbol whose
    rows all lie before the start date, both front-ends return the same
    value and raise nothing. *)
Lemma unknown_and_out_of_range_not_distinguishable :
  symbol_unknown sample_source "NOSUCHTICKER"
  /\ no_data_in_range sample_source "GOOGL" "2025-01-01"
  /\ ~ distinguishable (fetch Qt sample_source "NOSUCHTICKER" "2025-01-01" "Day")
                       (fetch Qt sample_source "GOOGL" "2025-01-01" "Day")
  /\ ~ distinguishable (fetch Streamlit sample_source "NOSUCHTICKER" "2025-01-01" "Day")
                       (fetch Streamlit sample_source "GOOGL" "2025-01-01" "Day").
Proof.
  split; [exists DataFrame_new; split; reflexivity|].
  split; [exists googl_history, 20089%Z; repeat split; reflexivity|].
  split; intros H; apply H; reflexivity.
Qed.

(** C2, amended. When the source has no row for the symbol and when it has
    rows but none on or after the start date, the call returns the same
    value, the empty frame, and raises nothing; the two conditions differ in
    what is shown to the user only: main.py shows a warning in the first and
    nothing in the second, main_st_good.py shows two different warnings. *)
Theorem no_data_conditions_differ_in_messages_only (f : frontend)
    (yf1 yf2 : PriceSource) (symbol start_date interval : string) :
  symbol_unknown yf1 symbol ->
  no_data_in_range yf2 symbol start_date ->
  let r1 := fetch f yf1 symbol start_date interval in
  let r2 := fetch f yf2 symbol start_date interval in
  value r1 = Ok DataFrame_new /\ value r2 = Ok DataFrame_new
  /\ shown r1 = shown_when_unknown f symbol
  /\ shown r2 = shown_when_out_of_range f symbol start_date
  /\ shown r1 <> shown r2.
Proof.
  intros H1 H2. cbv zeta.
  rewrite (fetch_unknown f yf1 symbol start_date interval H1).
  rewrite (fetch_out_of_range f yf2 symbol start_date interval H2).
  repeat split. destruct f; simpl; [done|].
  unfold no_history_text, no_data_from_text. simpl. intros H. inversion H.
Qed.

Lemma no_data_conditions_differ_in_messages_only_witness :
  let r1 := fetch Streamlit empty_source "GOOGL" "2025-01-01" "Week" in
  let r2 := fetch Streamlit sample_source "GOOGL" "2025-01-01" "Week" in
  value r1 = Ok DataFrame_new /\ value r2 = Ok DataFrame_new
  /\ shown r1 = shown_when_unknown Streamlit "GOOGL"
  /\ shown r2 = shown_when_out_of_range Streamlit "GOOGL" "2025-01-01"
  /\ shown r1 <> shown r2.
Proof.
  apply no_data_conditions_differ_in_messages_only.
  - exists DataFrame_new. split; reflexivity.
  - exists googl_history, 20089%Z. repeat split; reflexivity.
Defined.

(** C3. An exception raised by the price source is caught by the [try]
    block of [fetch_and_resample_data]: the call returns (the empty frame)
    and the exception does not reach the caller; what is shown is the one
    fetch-failed message, whose text holds the text of the exception, and
    which is shown in neither of the two conditions without data. *)
Theorem upstream_exception_is_caught_and_reported (f : frontend) (yf : PriceSource)
    (symbol start_date interval : string) (e : Exception) :
  yf symbol = Raise e ->
  let r := fetch f yf symbol start_date interval in
  value r = Ok DataFrame_new
  /\ shown r = [fetch_failed f symbol e]
  /\ (exists before after,
        message_text (fetch_failed f symbol e) = before +:+ str e +:+ after)
  /\ (forall yf' symbol' start_date' interval',
        symbol_unknown yf' symbol' \/ no_data_in_range yf' symbol' start_date' ->
        fetch_failed f symbol e ∉ shown (fetch f yf' symbol' start_date' interval')).
Proof.
  intros H. cbv zeta. rewrite (fetch_upstream_raises f yf symbol start_date interval e H).
  split; [done|]. split; [done|]. split.
  - exists ("An error occurred while fetching " +:+ symbol +:+ " data: "),
      (newline +:+ "Please check your internet connection or try again later.").
    destruct f; simpl; unfold fetch_error_text; by rewrite !string_app_assoc.
  - intros yf' symbol' start_date' interval' [H'|H'].
    + rewrite (fetch_unknown f yf' symbol' start_date' interval' H').
      destruct f; simpl; intros Hin; apply list_elem_of_singleton in Hin; discriminate.
    + rewrite (fetch_out_of_range f yf' symbol' start_date' interval' H').
      destruct f; simpl; intros Hin;
        [by apply elem_of_nil in Hin | apply list_elem_of_singleton in Hin; discriminate].
Qed.

Lemma upstream_exception_is_caught_and_reported_witness :
  value (fetch Qt sample_source "TSLA" "2024-01-01" "Month") = Ok DataFrame_new
  /\ shown (fetch Qt sample_source "TSLA" "2024-01-01" "Month")
     = [fetch_failed Qt "TSLA" {| str := "Read timed out." |}].
Proof.
  pose proof (upstream_exception_is_caught_and_reported Qt sample_source
                "TSLA" "2024-01-01" "Month" {| str := "Read timed out." |} eq_refl) as H.
  split; [exact (proj1 H) | exact (proj1 (proj2 H))].
Defined.

(** ** The cache of main_st_good.py *)

Section cache.
Import Calendar Python Pandas st.

Lemma cache_data_hit (ttl : Z) func cache (now : Z) (a b c : string) e :
  live ttl cache now (a, b, c) = Some e ->
  cache_data ttl func cache now a b c = ((Ok (cached_value e), cached_messages e), cache).
Proof. intros H. unfold cache_data. by rewrite H. Qed.

Lemma cache_data_miss (ttl : Z) func cache (now : Z) (a b c : string) v w :
  live ttl cache now (a, b, c) = None -> func a b c = (Ok v, w) ->
  cache_data ttl func cache now a b c
  = ((Ok v, w),
     <[(a, b, c) := {| cached_value := v; cached_messages := w; created := now |}]> cache).
Proof. intros H E. unfold cache_data. by rewrite H, E. Qed.

Lemma live_insert (ttl : Z) (cache : gmap (string * string * string) CacheEntry)
    (now now' : Z) key v w :
  (now' < now + ttl)%Z ->
  live ttl (<[key := {| cached_value := v; cached_messages := w; created := now |}]> cache)
       now' key
  = Some {| cached_value := v; cached_messages := w; created := now |}.
Proof.
  intros H. unfold live. rewrite lookup_insert_eq. simpl.
  by apply Z.ltb_lt in H as ->.
Qed.

(** The body never raises, so that every call that runs it stores its
    result. *)
Lemma cached_miss (yf : PriceSource) cache (now : Z)
    (symbol start_date interval : string) :
  live 3600 cache now (symbol, start_date, interval) = None ->
  exists v w,
    main_st_good.fetch_and_resample_data yf symbol start_date interval = (Ok v, w)
    /\ call Streamlit yf cache now symbol start_date interval
       = ((Ok v, w),
          <[(symbol, start_date, interval)
              := {| cached_value := v; cached_messages := w; created := now |}]> cache).
Proof.
  intros H. destruct (fetch_returns Streamlit yf symbol start_date interval) as [v E].
  simpl in E. unfold value in E.
  destruct (main_st_good.fetch_and_resample_data yf symbol start_date interval)
    as [r w] eqn:Eb.
  simpl in E. subst r. exists v, w. split; [done|].
  unfold call, main_st_good.fetch_and_resample_data_cached.
  by apply cache_data_miss.
Qed.

Lemma st_fetch_ext yf1 yf2 symbol start_date interval :
  yf1 symbol = yf2 symbol ->
  main_st_good.fetch_and_resample_data yf1 symbol start_date interval
  = main_st_good.fetch_and_resample_data yf2 symbol start_date interval.
Proof.
  intros H. unfold main_st_good.fetch_and_resample_data.
  pose proof (fetch_try_ext Streamlit yf1 yf2 symbol start_date interval H) as E.
  simpl in E. by rewrite E.
Qed.

End cache.

(** C10, refuted as it stands for main_st_good.py: the result of a call also
    depends on the cache of [st.cache_data]. The fetch of TSLA times out at
    time 0 and the empty frame is stored; half an hour later the source
    answers, but the call returns the stored empty frame; the same call, with
    the same arguments and the same rows from the source, returns the series
    once the entry has expired. *)
Lemma stale_result_is_served_from_the_cache :
  let first := call Streamlit sample_source ∅ 0 "TSLA" "2024-01-01" "Day" in
  let stale := call Streamlit recovered_source first.2 1800 "TSLA" "2024-01-01" "Day" in
  let fresh := call Streamlit recovered_source first.2 3600 "TSLA" "2024-01-01" "Day" in
  value first.1 = Ok DataFrame_new
  /\ value stale.1 = Ok DataFrame_new
  /\ (exists out, value fresh.1 = Ok out /\ index out = [19724; 19725]%Z)
  /\ value stale.1 <> value fresh.1.
Proof.
  cbv zeta.
  set (first := call Streamlit sample_source ∅ 0 "TSLA" "2024-01-01" "Day").
  assert (H1 : value first.1 = Ok DataFrame_new) by (vm_compute; reflexivity).
  assert (H2 : value (call Streamlit recovered_source first.2 1800
                        "TSLA" "2024-01-01" "Day").1 = Ok DataFrame_new)
    by (vm_compute; reflexivity).
  assert (H3 : index (returned (call Streamlit recovered_source first.2 3600
                                  "TSLA" "2024-01-01" "Day").1) = [19724; 19725]%Z)
    by (vm_compute; reflexivity).
  split; [exact H1|]. split; [exact H2|]. unfold returned in H3.
  destruct (value (call Streamlit recovered_source first.2 3600
                     "TSLA" "2024-01-01" "Day").1) as [out|e] eqn:E;
    [|discriminate H3].
  split; [by exists out|]. rewrite H2. intros E'. inversion E' as [E''].
  rewrite <- E'' in H3. discriminate H3.
Qed.

(** C10, amended. The result of main.py's [fetch_and_resample_data] is a
    function of its arguments and of what the price source answers for the
    symbol. In main_st_good.py the function is memoised for an hour on its
    three arguments, and the result of a call also depends on the cache: two
    calls with the same arguments, whose sources answer alike for the
    symbol, return the same frame and show the same messages when neither
    finds an entry younger than 3600 seconds, and that frame is the one the
    function computes from the answer; a call that finds such an entry
    returns the stored frame, whatever the source answers, and leaves the
    cache as it is; and for an hour after a call that found none, every call
    with these arguments returns the frame of that call, whatever the source
    answers then. A call leaves the entries of other arguments alone. *)
Theorem fetch_is_deterministic_up_to_the_cache (yf1 yf2 : PriceSource)
    (cache1 cache2 : gmap (string * string * string) st.CacheEntry) (now1 now2 : Z)
    (symbol start_date interval : string) :
  yf1 symbol = yf2 symbol ->
  let key := (symbol, start_date, interval) in
  let call1 f := call f yf1 cache1 now1 symbol start_date interval in
  let call2 f := call f yf2 cache2 now2 symbol start_date interval in
  (call1 Qt).1 = (call2 Qt).1
  /\ (st.live 3600 cache1 now1 key = None -> st.live 3600 cache2 now2 key = None ->
      (call1 Streamlit).1 = (call2 Streamlit).1
      /\ (call1 Streamlit).1
         = main_st_good.fetch_and_resample_data yf1 symbol start_date interval)
  /\ (forall e, st.live 3600 cache1 now1 key = Some e ->
        value (call1 Streamlit).1 = Ok (st.cached_value e)
        /\ (call1 Streamlit).2 = cache1)
  /\ (forall yf' now',
        st.live 3600 cache1 now1 key = None -> (now1 <= now' < now1 + 3600)%Z ->
        value (call Streamlit yf' (call1 Streamlit).2 now' symbol start_date interval).1
        = value (call1 Streamlit).1)
  /\ (forall key', key' <> key -> (call1 Streamlit).2 !! key' = cache1 !! key').
Proof.
  intros H. cbv zeta. split; [|split; [|split; [|split]]].
  - simpl. unfold main.fetch_and_resample_data.
    pose proof (fetch_try_ext Qt yf1 yf2 symbol start_date interval H) as E.
    simpl in E. by rewrite E.
  - intros H1 H2.
    destruct (cached_miss yf1 cache1 now1 symbol start_date interval H1)
      as (v1 & w1 & E1 & ->).
    destruct (cached_miss yf2 cache2 now2 symbol start_date interval H2)
      as (v2 & w2 & E2 & ->).
    rewrite (st_fetch_ext yf1 yf2 symbol start_date interval H) in E1.
    rewrite E1 in E2. inversion E2. subst. simpl. split; [done|].
    by rewrite (st_fetch_ext yf1 yf2 symbol start_date interval H).
  - intros e He. unfold call, main_st_good.fetch_and_resample_data_cached.
    by rewrite (cache_data_hit _ _ _ _ _ _ _ e He).
  - intros yf' now' H1 Hn.
    destruct (cached_miss yf1 cache1 now1 symbol start_date interval H1)
      as (v1 & w1 & E1 & ->). simpl.
    unfold main_st_good.fetch_and_resample_data_cached.
    assert (HL : (now' < now1 + 3600)%Z) by lia.
    by rewrite (cache_data_hit _ _ _ _ _ _ _ _
                  (live_insert 3600 cache1 now1 now' (symbol, start_date, interval)
                     v1 w1 HL)).
  - intros key' Hk. unfold call, main_st_good.fetch_and_resample_data_cached, st.cache_data.
    destruct (st.live 3600 cache1 now1 (symbol, start_date, interval)); [done|].
    destruct (main_st_good.fetch_and_resample_data yf1 symbol start_date interval)
      as [[v|e] w]; simpl; [|done].
    by rewrite lookup_insert_ne.
Qed.

Lemma fetch_is_deterministic_up_to_the_cache_witness :
  sample_source "GOOGL" = other_source "GOOGL"
  /\ sample_source "NVDA" <> other_source "NVDA"
  /\ (call Streamlit sample_source ∅ 0 "GOOGL" "2024-01-01" "Week").1
     = (call Streamlit other_source ∅ 7200 "GOOGL" "2024-01-01" "Week").1.
Proof.
  split; [reflexivity|]. split; [discriminate|].
  destruct (fetch_is_deterministic_up_to_the_cache sample_source other_source ∅ ∅ 0 7200
              "GOOGL" "2024-01-01" "Week" eq_refl) as (_ & H & _).
  apply H; reflexivity.
Defined.

(** ** Day: the filtered series *)

Section daily.
Import Calendar Python Pandas.
Local Arguments has_column : simpl never.

Lemma close_items_setitem df c v :
  c <> "Close" -> close_items (setitem df c v) = close_items df.
Proof.
  intros Hc. unfold close_items, setitem. simpl. rewrite map_map. apply map_ext.
  intros [d r]. simpl. unfold row_get. by rewrite lookup_insert_ne.
Qed.

Lemma index_setitem df c v : index (setitem df c v) = index df.
Proof. unfold index, setitem. simpl. by rewrite map_map. Qed.

Lemma ensure_close_has_close df :
  has_column df "Close" = true -> main_st_good.ensure_close df = df.
Proof. intros H. unfold main_st_good.ensure_close. by rewrite H. Qed.

Lemma empty_no_rows df c :
  has_column df c = true -> empty df = true -> rows df = [].
Proof.
  unfold has_column, empty. destruct (columns df); [done|]. by destruct (rows df).
Qed.

Lemma empty_false_iff df : empty df = false <-> columns df <> [] /\ rows df <> [].
Proof.
  unfold empty. destruct (columns df), (rows df); split; try done; intros [? ?]; done.
Qed.

Lemma close_items_resampled o df :
  close_items (resampled o df) = resample_last_items o (close_items df).
Proof.
  unfold close_items at 1, resampled, to_frame. simpl. rewrite map_map.
  rewrite <- (map_id (resample_last_items o (close_items df))) at 2.
  apply map_ext. intros [d c]. simpl. unfold row_get. by rewrite lookup_singleton_eq.
Qed.

Lemma index_close_items df : map fst (close_items df) = index df.
Proof. unfold close_items, index. by rewrite map_map. Qed.

Lemma index_resampled o df : index (resampled o df) = time_bins o (index df).
Proof.
  unfold index at 1, resampled, to_frame. simpl. rewrite map_map. simpl.
  change (map (fun x : Z * cell => x.1) ?l) with (map fst l).
  by rewrite resample_index, index_close_items.
Qed.

(** What a successful call returns: its dates and closes. *)
Lemma fetch_daily f yf symbol start_date interval df t :
  yf symbol = Ok df -> empty df = false -> Timestamp start_date = Some t ->
  empty (filter_ge t df) = false -> granularity interval = None ->
  has_column df "Close" = true ->
  value (fetch f yf symbol start_date interval)
  = Ok (match f with
        | Qt => filter_ge t df
        | Streamlit => setitem (filter_ge t df) "Symbol" (Str symbol)
        end).
Proof.
  intros H He Ht Hf Hg Hc. destruct f; simpl.
  - by erewrite main_fetch_daily.
  - erewrite st_fetch_daily by done. by rewrite ensure_close_has_close.
Qed.

Lemma fetch_resampled f yf symbol start_date interval df t o :
  yf symbol = Ok df -> empty df = false -> Timestamp start_date = Some t ->
  empty (filter_ge t df) = false -> granularity interval = Some o ->
  has_column df "Close" = true ->
  value (fetch f yf symbol start_date interval)
  = Ok (match f with
        | Qt => resampled o (filter_ge t df)
        | Streamlit => setitem (resampled o (filter_ge t df)) "Symbol" (Str symbol)
        end).
Proof.
  intros H He Ht Hf Hg Hc. destruct f; simpl.
  - by erewrite main_fetch_resampled.
  - by erewrite st_fetch_resampled.
Qed.

End daily.

(** C8. When the granularity is Day, [fetch_and_resample_data] returns the
    daily series filtered by the start date, unchanged: the dates and the
    closes of the rows of the history dated on or after the start date; no
    resampling is applied (main_st_good.py adds the ['Symbol'] column). *)
Theorem day_returns_filtered_series (f : frontend) (yf : PriceSource)
    (symbol start_date : string) (df : DataFrame) (t : Z) :
  yf symbol = Ok df ->
  Timestamp start_date = Some t ->
  has_column df "Close" = true ->
  exists out,
    value (fetch f yf symbol start_date "Day") = Ok out
    /\ index out = index (filter_ge t df)
    /\ close_items out = close_items (filter_ge t df)
    /\ (empty (filter_ge t df) = false ->
        out = match f with
              | Qt => filter_ge t df
              | Streamlit => setitem (filter_ge t df) "Symbol" (Str symbol)
              end).
Proof.
  intros H Ht Hc. destruct (empty df) eqn:He.
  - exists DataFrame_new.
    rewrite (fetch_unknown f yf symbol start_date "Day") by (by exists df).
    pose proof (empty_no_rows df "Close" Hc He) as Hr.
    assert (Hf : empty (filter_ge t df) = true).
    { unfold empty, filter_ge. simpl. rewrite Hr. by destruct (columns df). }
    rewrite Hf. unfold index, close_items, filter_ge. simpl. rewrite Hr. by repeat split.
  - destruct (empty (filter_ge t df)) eqn:Hf.
    + exists DataFrame_new.
      rewrite (fetch_out_of_range f yf symbol start_date "Day") by (by exists df, t).
      pose proof (empty_no_rows (filter_ge t df) "Close" Hc Hf) as Hr.
      unfold index, close_items. rewrite Hr. by repeat split.
    + eexists. split; [by apply fetch_daily|].
      destruct f; [done|]. split; [apply index_setitem|].
      split; [by apply close_items_setitem | done].
Qed.

Lemma day_returns_filtered_series_witness :
  exists out,
    value (fetch Streamlit sample_source "GOOGL" "2024-01-01" "Day") = Ok out
    /\ index out = [19724; 19725; 19738; 20087]%Z
    /\ close_items out = [(19724, price 139); (19725, price 141);
                          (19738, price 144); (20087, price 192)]%Z.
Proof.
  destruct (day_returns_filtered_series Streamlit sample_source "GOOGL" "2024-01-01"
              googl_history 19723%Z eq_refl eq_refl eq_refl) as (out & H1 & H2 & H3 & _).
  exists out. split; [exact H1|]. split; [exact H2 | exact H3].
Defined.

(** ** Resampling *)

Section resampling.
Import Calendar Python Pandas.
Local Open Scope Z_scope.

(** The points of a resampled series, against the series it comes from. *)
Lemma resample_last_items_spec o (input : list (Z * cell)) :
  let output := resample_last_items o input in
  ascending (map fst output)
  /\ one_point_per_bucket o (map fst output)
  /\ (forall L, L ∈ map fst output <-> in_bucket_range o (map fst input) L)
  /\ (forall p, p ∈ output -> point_of_own_bucket o input p)
  /\ (forall L c, (L, c) ∈ output -> ~ populated o (map fst input) L -> c = NaN)
  /\ (forall d c, (d, c) ∈ input -> notna c = true ->
        exists c', (rollforward o d, c') ∈ output /\ notna c' = true).
Proof.
  cbv zeta. rewrite resample_index.
  split; [apply time_bins_sorted|]. split; [apply time_bins_no_dup|].
  split; [|split; [|split]].
  - intros L. split.
    + intros HL. split; [by apply time_bins_closed in HL | by apply time_bins_between].
    + intros [Hc (d1 & d2 & H1 & H2 & Hle)].
      destruct (map fst input) as [|d ds] eqn:E; [by apply elem_of_nil in H1|].
      apply time_bins_elem. split; [|done].
      pose proof (rollforward_mono o _ _ (foldr_min_le d ds d1 H1)).
      pose proof (rollforward_mono o _ _ (foldr_max_ge d ds d2 H2)). lia.
  - intros [L c] Hp. apply resample_elem in Hp as [HL ->].
    unfold point_of_own_bucket. simpl.
    destruct (last_valid_elem (group o L input)) as [E|E]; [by left | right].
    by apply group_elem in E.
  - intros L c Hp Hnp. apply resample_elem in Hp as [HL ->].
    rewrite group_empty; [done|]. intros d Hd E. apply Hnp. exists d.
    split; [done|]. apply time_bins_closed in HL. congruence.
  - intros d c Hd Hn. exists (last_valid (group o (rollforward o d) input)).
    split.
    + apply resample_elem. split; [|done]. apply time_bins_covers.
      apply list_elem_of_fmap. by exists (d, c).
    + apply (last_valid_notna _ c); [|done]. apply group_elem. by exists d.
Qed.

Lemma resample_close_inv f df rule out :
  resample_close f df rule = Ok out ->
  exists o, to_offset rule = Some o /\ has_column df "Close" = true
            /\ out = resampled o df.
Proof.
  assert (E : resample_close f df rule = main.resample_close df rule) by by destruct f.
  rewrite E. unfold main.resample_close, getitem, resample_last.
  destruct (has_column df "Close"); [|done]. simpl.
  destruct (to_offset rule) as [o|]; [|done]. simpl. intros H. inversion H. by exists o.
Qed.

Lemma resample_close_resampled f df rule o :
  to_offset rule = Some o -> has_column df "Close" = true ->
  resample_close f df rule = Ok (resampled o df).
Proof.
  intros Hr Hc. destruct f; [by apply main_resample_close | by apply st_resample_close].
Qed.

Lemma resampled_idem o df : resampled o (resampled o df) = resampled o df.
Proof.
  unfold resampled at 1. rewrite close_items_resampled, resample_last_items_idem. done.
Qed.

End resampling.

(** The history of GOOGL of the sample source has no row in the week that
    ends on 2024-01-14 (day 19736); the weekly series has a point for it. *)
Lemma sample_weekly_series (f : frontend) :
  exists out,
    value (fetch f sample_source "GOOGL" "2024-01-01" "Week") = Ok out
    /\ (19736%Z, NaN) ∈ close_items out
    /\ ~ no_point_for_empty_bucket Week
           (index (filter_ge 19723 googl_history)) (index out).
Proof.
  exists (match f with
          | Qt => resampled Week (filter_ge 19723 googl_history)
          | Streamlit =>
              setitem (resampled Week (filter_ge 19723 googl_history))
                      "Symbol" (Str "GOOGL")
          end).
  split; [by apply fetch_resampled|].
  assert (Hc : (19736%Z, NaN) ∈ resample_last_items Week
                 (close_items (filter_ge 19723 googl_history))).
  { apply list_elem_of_lookup. exists 1%nat. vm_compute. reflexivity. }
  assert (Hi : 19736%Z ∈ time_bins Week (index (filter_ge 19723 googl_history))).
  { apply list_elem_of_lookup. exists 1%nat. vm_compute. reflexivity. }
  assert (Hn : ~ populated Week (index (filter_ge 19723 googl_history)) 19736).
  { intros (d & Hd & E). vm_compute in Hd.
    repeat (apply elem_of_cons in Hd as [->|Hd]; [vm_compute in E; discriminate|]).
    by apply elem_of_nil in Hd. }
  destruct f.
  - rewrite close_items_resampled, index_resampled.
    split; [done|]. intros H. by apply Hn, H.
  - rewrite close_items_setitem, index_setitem, close_items_resampled, index_resampled
      by done.
    split; [done|]. intros H. by apply Hn, H.
Qed.

(** C1 as stated fails: the history of GOOGL of the sample source has no
    row in the week that ends on 2024-01-14 (day 19736), and the weekly
    series that either front-end returns has a point for that week all the
    same, with a NaN close. *)
Lemma weekly_series_has_point_for_empty_week :
  (exists out,
     value (fetch Qt sample_source "GOOGL" "2024-01-01" "Week") = Ok out
     /\ (19736%Z, NaN) ∈ close_items out
     /\ ~ no_point_for_empty_bucket Week
            (index (filter_ge 19723 googl_history)) (index out))
  /\ (exists out,
        value (fetch Streamlit sample_source "GOOGL" "2024-01-01" "Week") = Ok out
        /\ (19736%Z, NaN) ∈ close_items out
        /\ ~ no_point_for_empty_bucket Week
               (index (filter_ge 19723 googl_history)) (index out)).
Proof. split; apply sample_weekly_series. Qed.

(** C1, amended. For a granularity other than Day and a filtered daily
    series that is not empty, the series [fetch_and_resample_data] returns
    has its points in strictly ascending order of date and no two of them in
    the same bucket; it has one point for every bucket from the bucket of the
    earliest row to the bucket of the latest one, stamped with the last day
    of the bucket. A bucket of that range without input rows contributes a
    point all the same, and its close is NaN: a point is NaN or carries the
    close of a row of its own bucket, never an interpolated or forward-filled
    value, and a bucket that holds a row with a close has a close. *)
Theorem resampled_series_one_point_per_bucket_in_range (f : frontend)
    (yf : PriceSource) (symbol start_date interval : string)
    (df : DataFrame) (t : Z) (o : offset) :
  yf symbol = Ok df ->
  empty df = false ->
  Timestamp start_date = Some t ->
  empty (filter_ge t df) = false ->
  granularity interval = Some o ->
  has_column df "Close" = true ->
  exists out,
    value (fetch f yf symbol start_date interval) = Ok out
    /\ ascending (index out)
    /\ one_point_per_bucket o (index out)
    /\ (forall L, L ∈ index out <-> in_bucket_range o (index (filter_ge t df)) L)
    /\ (forall p, p ∈ close_items out ->
          point_of_own_bucket o (close_items (filter_ge t df)) p)
    /\ (forall L c, (L, c) ∈ close_items out ->
          ~ populated o (index (filter_ge t df)) L -> c = NaN)
    /\ (forall d c, (d, c) ∈ close_items (filter_ge t df) -> notna c = true ->
          exists c', (rollforward o d, c') ∈ close_items out /\ notna c' = true).
Proof.
  intros H He Ht Hf Hg Hc. eexists. split; [by eapply fetch_resampled|].
  pose proof (resample_last_items_spec o (close_items (filter_ge t df))) as Hs.
  cbv zeta in Hs. rewrite resample_index, index_close_items in Hs.
  destruct f.
  - by rewrite close_items_resampled, index_resampled.
  - by rewrite close_items_setitem, index_setitem, close_items_resampled, index_resampled.
Qed.

Lemma resampled_series_one_point_per_bucket_in_range_witness :
  exists out,
    value (fetch Qt sample_source "GOOGL" "2024-01-01" "Quarter") = Ok out
    /\ ascending (index out)
    /\ one_point_per_bucket QuarterEnd (index out).
Proof.
  destruct (resampled_series_one_point_per_bucket_in_range Qt sample_source
              "GOOGL" "2024-01-01" "Quarter" googl_history 19723%Z QuarterEnd
              eq_refl eq_refl eq_refl eq_refl eq_refl eq_refl)
    as (out & H1 & H2 & H3 & _).
  exists out. split; [exact H1|]. split; [exact H2 | exact H3].
Defined.

(** C7. Resampling is idempotent on a series that is already resampled: the
    step [df['Close'].resample(rule).last().to_frame()] applied to its own
    result gives that result again, for the weekly rule ['W'] as for the
    others, and so does resampling the ['Close'] series of the result. *)
Theorem resampling_is_idempotent (f : frontend) (df weekly : DataFrame) (rule : string) :
  resample_close f df rule = Ok weekly ->
  resample_close f weekly rule = Ok weekly
  /\ forall s, getitem weekly "Close" = Ok s -> resample_last s rule = Ok s.
Proof.
  intros H. apply resample_close_inv in H as (o & Hr & Hc & ->).
  split.
  - rewrite (resample_close_resampled f _ rule o) by done. by rewrite resampled_idem.
  - intros s Hs. unfold getitem in Hs. simpl in Hs. inversion Hs as [E]. clear Hs.
    unfold resample_last. rewrite Hr. simpl. f_equal. f_equal.
    rewrite map_map. simpl.
    transitivity (resample_last_items o (resample_last_items o (close_items df))).
    + f_equal. rewrite <- (map_id (resample_last_items o (close_items df))) at 2.
      apply map_ext. intros [d c]. simpl. unfold row_get. by rewrite lookup_singleton_eq.
    + rewrite resample_last_items_idem.
      rewrite <- (map_id (resample_last_items o (close_items df))) at 1.
      apply map_ext. intros [d c]. simpl. unfold row_get. by rewrite lookup_singleton_eq.
Qed.

Lemma resampling_is_idempotent_witness :
  resample_close Qt (resampled Week googl_history) "W" = Ok (resampled Week googl_history).
Proof.
  apply (resampling_is_idempotent Qt googl_history (resampled Week googl_history) "W").
  reflexivity.
Defined.

(** ** The frames the Streamlit fetch returns *)

Section shapes.
Import Calendar Python Pandas.
Local Open Scope Z_scope.
Local Arguments has_column : simpl never.

Lemma has_column_elem df c : has_column df c = true <-> c ∈ columns df.
Proof.
  unfold has_column. rewrite existsb_exists. split.
  - intros (x & Hx & E). apply String.eqb_eq in E. subst. by apply list_elem_of_In.
  - intros H. exists c. split; [by apply list_elem_of_In | apply String.eqb_refl].
Qed.

Lemma index_filter_ge df t d : d ∈ index (filter_ge t df) -> t <= d.
Proof.
  unfold index, filter_ge. simpl. intros H. apply list_elem_of_fmap in H as ([d' r] & -> & H).
  apply list_elem_of_In, filter_In in H as [_ H]. simpl in *. lia.
Qed.

Lemma index_ensure_close df :
  index (main_st_good.ensure_close df) = index df.
Proof.
  unfold main_st_good.ensure_close, rename_first, index.
  destruct (has_column df "Close"); [done|]. destruct (columns df); [done|].
  simpl. by rewrite map_map.
Qed.

Lemma empty_ensure_close df :
  empty (main_st_good.ensure_close df) = empty df.
Proof.
  unfold main_st_good.ensure_close, rename_first, empty.
  destruct (has_column df "Close"); [done|].
  destruct (columns df) as [|c cs] eqn:E; [by rewrite E|]. simpl.
  by destruct (rows df).
Qed.

Lemma has_close_ensure_close df :
  empty df = false -> has_column (main_st_good.ensure_close df) "Close" = true.
Proof.
  intros He. unfold main_st_good.ensure_close.
  destruct (has_column df "Close") eqn:Hc; [done|].
  apply empty_false_iff in He as [Hcols _]. unfold rename_first.
  destruct (columns df) as [|c cs]; [done|]. apply has_column_elem. left.
Qed.

Lemma empty_resampled o df : empty df = false -> empty (resampled o df) = false.
Proof.
  intros He. apply empty_false_iff. split; [done|]. intros Hr.
  assert (Hi : index (resampled o df) = []) by (unfold index; by rewrite Hr).
  rewrite index_resampled in Hi. apply time_bins_nil in Hi.
  apply empty_false_iff in He as [_ He]. apply He.
  unfold index in Hi. by apply map_eq_nil in Hi.
Qed.

Lemma index_resampled_ge o df t d :
  (forall d', d' ∈ index df -> t <= d') -> d ∈ index (resampled o df) -> t <= d.
Proof.
  intros Hge Hd. rewrite index_resampled in Hd.
  apply time_bins_between in Hd as (d1 & _ & H1 & _ & Hle & _).
  pose proof (Hge d1 H1). pose proof (rollforward_ge o d1). lia.
Qed.

(** A fetch returns the empty frame, or a frame tagged with the symbol whose
    rows are dated on or after the start date. *)
Lemma st_fetch_shape yf symbol start_date interval :
  exists out,
    value (main_st_good.fetch_and_resample_data yf symbol start_date interval) = Ok out
    /\ (out = DataFrame_new
        \/ exists t, Timestamp start_date = Some t /\ tagged symbol t out).
Proof.
  destruct (yf symbol) as [df|e] eqn:H.
  2: { exists DataFrame_new. by erewrite st_fetch_raises; eauto. }
  destruct (empty df) eqn:He.
  { exists DataFrame_new. by erewrite st_fetch_no_rows; eauto. }
  destruct (Timestamp start_date) as [t|] eqn:Ht.
  2: { exists DataFrame_new. by erewrite st_fetch_bad_date; eauto. }
  destruct (empty (filter_ge t df)) eqn:Hf.
  { exists DataFrame_new. by erewrite st_fetch_out_of_range; eauto. }
  destruct (granularity interval) as [o|] eqn:Hg.
  - destruct (has_column df "Close") eqn:Hc.
    + eexists. erewrite st_fetch_resampled by done. split; [done|].
      right. exists t. split; [done|]. exists (resampled o (filter_ge t df)).
      split; [done|]. split; [by apply empty_resampled|]. split; [done|].
      intros d. apply index_resampled_ge. apply index_filter_ge.
    + exists DataFrame_new. by erewrite st_fetch_no_close; eauto.
  - eexists. erewrite st_fetch_daily by done. split; [done|].
    right. exists t. split; [done|]. exists (main_st_good.ensure_close (filter_ge t df)).
    split; [done|]. split; [by rewrite empty_ensure_close|].
    split; [by apply has_close_ensure_close|].
    intros d. rewrite index_ensure_close. apply index_filter_ge.
Qed.

Lemma empty_setitem df c v : empty df = false -> empty (setitem df c v) = false.
Proof.
  intros He. apply empty_false_iff in He as [Hc Hr]. apply empty_false_iff. simpl.
  split.
  - destruct (has_column df c); [done|]. by destruct (columns df).
  - by destruct (rows df).
Qed.

Lemma has_column_setitem df c v : has_column (setitem df c v) c = true.
Proof.
  apply has_column_elem. simpl. destruct (has_column df c) eqn:E.
  - by apply has_column_elem.
  - apply elem_of_app. right. left.
Qed.

Lemma has_column_setitem_other df c c' v :
  has_column df c' = true -> has_column (setitem df c v) c' = true.
Proof.
  intros H. apply has_column_elem in H. apply has_column_elem. simpl.
  destruct (has_column df c); [done|]. apply elem_of_app. by left.
Qed.

Lemma points_setitem_symbol df symbol p :
  p ∈ points (setitem df "Symbol" (Str symbol)) -> p.1.2 = Str symbol.
Proof.
  unfold points, setitem. simpl. rewrite map_map. intros H.
  apply list_elem_of_fmap in H as ([d r] & -> & _). simpl.
  unfold row_get. by rewrite lookup_insert_eq.
Qed.

(** The frames the script binds. *)
Lemma returned_shape yf symbol start_date interval :
  let out :=
    returned (main_st_good.fetch_and_resample_data yf symbol start_date interval) in
  out = DataFrame_new \/ exists t, Timestamp start_date = Some t /\ tagged symbol t out.
Proof.
  destruct (st_fetch_shape yf symbol start_date interval) as (out & E & H).
  cbv zeta. unfold returned. by rewrite E.
Qed.

Lemma tagged_not_empty symbol t out : tagged symbol t out -> empty out = false.
Proof. intros (body & -> & He & _). by apply empty_setitem. Qed.

Lemma returned_present yf symbol start_date interval :
  let out :=
    returned (main_st_good.fetch_and_resample_data yf symbol start_date interval) in
  present out = points out /\ present_rows out = rows out.
Proof.
  cbv zeta. destruct (returned_shape yf symbol start_date interval) as [->|(t & _ & H)].
  - done.
  - unfold present, present_rows. by rewrite (tagged_not_empty _ _ _ H).
Qed.

End shapes.

(** ** The combination *)

Section combination.
Import Calendar Python Pandas.
Local Open Scope Z_scope.
Local Arguments empty : simpl never.

Lemma rows_combine g n t :
  rows (main_st_good.combine g n t) = present_rows g ++ present_rows n ++ present_rows t.
Proof.
  unfold main_st_good.combine, present_rows.
  destruct (empty g), (empty n), (empty t); simpl; by rewrite ?app_nil_r, ?app_assoc.
Qed.

Lemma points_combine g n t :
  points (main_st_good.combine g n t) = present g ++ present n ++ present t.
Proof.
  unfold points at 1. rewrite rows_combine, !map_app. unfold present, present_rows, points.
  by destruct (empty g), (empty n), (empty t).
Qed.

End combination.

(** C5 as stated fails: the combination of the daily series of the sample
    source is not sorted by date then symbol; the first NVDA point
    (2024-01-02) comes after the last GOOGL point (2024-12-30). *)
Lemma combination_not_sorted_by_date :
  let fetched symbol :=
    returned (main_st_good.fetch_and_resample_data sample_source symbol
                "2024-01-01" "Day") in
  let combined_df :=
    main_st_good.combine (fetched "GOOGL") (fetched "NVDA") (fetched "TSLA") in
  points combined_df
  = [(19724, Str "GOOGL", price 139); (19725, Str "GOOGL", price 141);
     (19738, Str "GOOGL", price 144); (20087, Str "GOOGL", price 192);
     (19724, Str "NVDA", price 48); (19725, Str "NVDA", price 49)]%Z
  /\ ~ sorted_by_date_then_symbol (points combined_df).
Proof.
  cbv zeta.
  assert (E : points (main_st_good.combine
                (returned (main_st_good.fetch_and_resample_data sample_source "GOOGL"
                             "2024-01-01" "Day"))
                (returned (main_st_good.fetch_and_resample_data sample_source "NVDA"
                             "2024-01-01" "Day"))
                (returned (main_st_good.fetch_and_resample_data sample_source "TSLA"
                             "2024-01-01" "Day")))
              = [(19724, Str "GOOGL", price 139); (19725, Str "GOOGL", price 141);
                 (19738, Str "GOOGL", price 144); (20087, Str "GOOGL", price 192);
                 (19724, Str "NVDA", price 48); (19725, Str "NVDA", price 49)]%Z)
    by (vm_compute; reflexivity).
  cbv beta. rewrite E. split; [done|]. unfold sorted_by_date_then_symbol. intros H.
  do 3 (apply Sorted_inv in H as [H _]).
  apply Sorted_inv in H as [_ H]. apply HdRel_inv in H.
  unfold point_le in H. simpl in H. lia.
Qed.

(** C5, amended. The combination step is the concatenation of the frames
    that are not empty, in the fixed order GOOGL, NVDA, TSLA: its points are
    exactly the points of the input series, each series in its own order and
    nothing else (no interpolation across symbols), so that series of 200
    and 180 points give 380 points; every point of a fetched series is
    tagged with the symbol of the fetch. The output is ordered by symbol
    block; it is not sorted by date then symbol. *)
Theorem combination_is_concatenation (yf : PriceSource)
    (start_date interval : string) (g n t : DataFrame) :
  let fetched symbol :=
    returned (main_st_good.fetch_and_resample_data yf symbol start_date interval) in
  points (main_st_good.combine g n t) = present g ++ present n ++ present t
  /\ (length (present g) = 200%nat -> length (present n) = 180%nat ->
      length (present t) = 0%nat ->
      length (points (main_st_good.combine g n t)) = 380%nat)
  /\ (forall symbol, present (fetched symbol) = points (fetched symbol))
  /\ (forall symbol p, p ∈ points (fetched symbol) -> p.1.2 = Str symbol).
Proof.
  cbv beta zeta. split; [apply points_combine|]. split; [|split].
  - intros Hg Hn Ht. rewrite points_combine, !length_app. lia.
  - intros symbol. apply returned_present.
  - intros symbol p Hp.
    destruct (returned_shape yf symbol start_date interval)
      as [E|(t' & _ & body & E & _)]; rewrite E in Hp.
    + by apply elem_of_nil in Hp.
    + by apply points_setitem_symbol in Hp.
Qed.

Lemma combination_is_concatenation_witness :
  length (points (main_st_good.combine (daily_series "GOOGL" 19724 100 200)
                    (daily_series "NVDA" 19744 40 180) DataFrame_new)) = 380%nat.
Proof.
  apply (combination_is_concatenation sample_source "2024-01-01" "Day"
           (daily_series "GOOGL" 19724 100 200) (daily_series "NVDA" 19744 40 180)
           DataFrame_new); vm_compute; reflexivity.
Defined.

(** ** The end-date filter and the moving-average column *)

Section script.
Import Calendar Python Pandas.
Local Open Scope Z_scope.
Local Arguments empty : simpl never.
Local Arguments has_column : simpl never.
Local Arguments Timestamp : simpl never.

Lemma select_zip_with {A} (p q : A -> bool) (l : list A) :
  select l (zip_with andb (map p l) (map q l)) = List.filter (fun x => p x && q x) l.
Proof.
  induction l as [|x l IH]; simpl; [done|]. rewrite IH. by destruct (p x), (q x).
Qed.

Lemma select_fmap {A B} (g : A -> B) (l : list A) (mask : list bool) :
  select (map g l) mask = map g (select l mask).
Proof.
  revert mask. induction l as [|x l IH]; intros [|b mask]; simpl; try done.
  destruct b; simpl; by rewrite IH.
Qed.

Lemma filter_range_ok X start_date_str end_date_str t e :
  Timestamp start_date_str = Some t -> Timestamp end_date_str = Some e ->
  exists X',
    main_st_good.filter_range X start_date_str end_date_str = Ok X'
    /\ columns X' = columns X
    /\ rows X' = if empty X then rows X
                 else List.filter (fun r => (t <=? r.1) && (r.1 <=? e)) (rows X).
Proof.
  intros Ht He. unfold main_st_good.filter_range, index_ge, index_le.
  rewrite Ht, He. destruct (empty X); simpl; [by exists X|].
  eexists. split; [done|]. split; [done|]. simpl. unfold index. rewrite !map_map.
  apply (select_zip_with (fun r => t <=? r.1) (fun r => r.1 <=? e)).
Qed.

Lemma has_column_concat a b c :
  has_column a c = true \/ has_column b c = true -> has_column (concat a b) c = true.
Proof.
  rewrite !has_column_elem. unfold concat. simpl. intros H.
  apply elem_of_app. destruct (decide (c ∈ columns a)) as [|Hn]; [by left|].
  destruct H as [|H]; [done|]. right. by apply list_elem_of_difference.
Qed.

Lemma tagged_plottable symbol t df : tagged symbol t df -> plottable df.
Proof.
  intros (body & -> & _ & Hc & _). split.
  - apply has_column_setitem.
  - by apply has_column_setitem_other.
Qed.

(** The combination of fetched frames is the empty frame or has the symbol
    and close columns. *)
Lemma combine_shape g n t :
  (g = DataFrame_new \/ (empty g = false /\ plottable g)) ->
  (n = DataFrame_new \/ (empty n = false /\ plottable n)) ->
  (t = DataFrame_new \/ (empty t = false /\ plottable t)) ->
  main_st_good.combine g n t = DataFrame_new \/ plottable (main_st_good.combine g n t).
Proof.
  unfold main_st_good.combine, plottable.
  intros [->|[-> [? ?]]] [->|[-> [? ?]]] [->|[-> [? ?]]]; simpl; try (by left); right;
    split; apply has_column_concat; auto using has_column_concat.
Qed.

Lemma points_assign c rs mask values :
  c <> "Symbol" -> c <> "Close" ->
  map (fun r => (r.1, row_get r.2 "Symbol", row_get r.2 "Close")) (assign c rs mask values)
  = map (fun r => (r.1, row_get r.2 "Symbol", row_get r.2 "Close")) rs.
Proof.
  intros H1 H2. revert mask values.
  induction rs as [|[d r] rs IH]; intros [|[|] mask] values; simpl; try done.
  - destruct values as [|v values]; simpl; rewrite IH; [done|].
    unfold row_get. by rewrite !lookup_insert_ne.
  - by rewrite IH.
Qed.

Lemma points_with_MA200 df symbol : points (with_MA200 df symbol) = points df.
Proof. unfold points, with_MA200, loc_set. simpl. by apply points_assign. Qed.

Lemma has_column_loc_set df mask c s c' :
  has_column df c' = true -> has_column (loc_set df mask c s) c' = true.
Proof.
  intros H. apply has_column_elem in H. apply has_column_elem. simpl.
  destruct (has_column df c); [done|]. apply elem_of_app. by left.
Qed.

Lemma plottable_with_MA200 df symbol : plottable df -> plottable (with_MA200 df symbol).
Proof. intros [H1 H2]. split; by apply has_column_loc_set. Qed.

Lemma MA200_of_ok df symbol :
  plottable df -> main_st_good.MA200_of df symbol = Ok (with_MA200 df symbol).
Proof.
  intros [H1 H2]. unfold main_st_good.MA200_of, eq_mask, loc_get, getitem.
  rewrite H1. simpl. rewrite H2. simpl. unfold with_MA200. do 2 f_equal.
  - unfold symbol_mask, symbol_row. rewrite map_map. done.
  - unfold symbol_mask, symbol_row, close_items. by rewrite map_map.
Qed.

(** The three passes of the loop of line 128. *)
Lemma moving_average_day df :
  plottable df -> empty df = false ->
  main_st_good.moving_average df true "Day"
  = Ok (with_MA200 (with_MA200 (with_MA200 df "GOOGL") "NVDA") "TSLA").
Proof.
  intros Hp He. unfold main_st_good.moving_average. rewrite He. simpl.
  rewrite (MA200_of_ok df) by done. simpl.
  rewrite MA200_of_ok by by apply plottable_with_MA200. simpl.
  rewrite MA200_of_ok by by do 2 apply plottable_with_MA200. done.
Qed.

(** The moving average is computed for Day and on request only. *)
Lemma moving_average_off df show_ma interval :
  show_ma && String.eqb interval "Day" && negb (empty df) = false ->
  main_st_good.moving_average df show_ma interval = Ok df.
Proof. intros H. unfold main_st_good.moving_average. by rewrite H. Qed.

Lemma moving_average_points df show_ma interval :
  empty df = true \/ plottable df ->
  exists out, main_st_good.moving_average df show_ma interval = Ok out
              /\ points out = points df.
Proof.
  intros H.
  destruct (show_ma && String.eqb interval "Day" && negb (empty df)) eqn:E.
  - apply andb_prop in E as [E He]. apply andb_prop in E as [-> E].
    apply String.eqb_eq in E as ->. apply negb_true_iff in He.
    destruct H as [H|Hp]; [congruence|]. eexists. split; [by apply moving_average_day|].
    by rewrite !points_with_MA200.
  - exists df. split; [by apply moving_average_off | done].
Qed.

(** The script, as a function of the three frames it binds. *)
Lemma combined_df_value yf show_ma start_date_str end_date_str interval :
  let fetched symbol :=
    returned (main_st_good.fetch_and_resample_data yf symbol start_date_str interval) in
  value (main_st_good.combined_df yf show_ma start_date_str end_date_str interval)
  = (X ← main_st_good.filter_range
           (main_st_good.combine (fetched "GOOGL") (fetched "NVDA") (fetched "TSLA"))
           start_date_str end_date_str;
     main_st_good.moving_average X show_ma interval).
Proof.
  cbv beta zeta. unfold main_st_good.combined_df, returned.
  destruct (st_fetch_shape yf "GOOGL" start_date_str interval) as (g & Eg & _).
  destruct (st_fetch_shape yf "NVDA" start_date_str interval) as (n & En & _).
  destruct (st_fetch_shape yf "TSLA" start_date_str interval) as (t & Et & _).
  rewrite Eg, En, Et.
  destruct (main_st_good.fetch_and_resample_data yf "GOOGL" _ _) as [rg wg].
  destruct (main_st_good.fetch_and_resample_data yf "NVDA" _ _) as [rn wn].
  destruct (main_st_good.fetch_and_resample_data yf "TSLA" _ _) as [rt wt].
  unfold value in *. simpl in Eg, En, Et. subst. simpl.
  destruct (main_st_good.filter_range _ _ _) as [X|e]; simpl; [|done].
  by destruct (main_st_good.moving_average _ _ _).
Qed.

Lemma index_setitem_ge body c v t d :
  (forall d', d' ∈ index body -> t <= d') -> d ∈ index (setitem body c v) -> t <= d.
Proof. rewrite index_setitem. auto. Qed.

(** The rows of a fetched frame are dated on or after the start date. *)
Lemma returned_dates_ge yf symbol start_date interval t r :
  Timestamp start_date = Some t ->
  r ∈ rows (returned (main_st_good.fetch_and_resample_data yf symbol start_date interval)) ->
  t <= r.1.
Proof.
  intros Ht Hr.
  destruct (returned_shape yf symbol start_date interval)
    as [E|(t' & Ht' & body & E & _ & _ & Hge)]; rewrite E in Hr.
  - by apply elem_of_nil in Hr.
  - assert (t' = t) by congruence. subst t'.
    apply (index_setitem_ge body "Symbol" (Str symbol)); [done|].
    unfold index. apply list_elem_of_fmap. by exists r.
Qed.

Lemma returned_plottable yf symbol start_date interval :
  let df :=
    returned (main_st_good.fetch_and_resample_data yf symbol start_date interval) in
  df = DataFrame_new \/ (empty df = false /\ plottable df).
Proof.
  cbv zeta. destruct (returned_shape yf symbol start_date interval) as [E|(t & _ & H)].
  - by left.
  - right. split; [by eapply tagged_not_empty | by eapply tagged_plottable].
Qed.

Lemma filter_points (p : Z -> bool) (rs : list (Z * gmap string cell)) :
  map (fun r => (r.1, row_get r.2 "Symbol", row_get r.2 "Close"))
      (List.filter (fun r => p r.1) rs)
  = List.filter (fun q : Z * cell * cell => p q.1.1)
      (map (fun r => (r.1, row_get r.2 "Symbol", row_get r.2 "Close")) rs).
Proof.
  induction rs as [|r rs IH]; simpl; [done|]. destruct (p r.1); simpl; by rewrite IH.
Qed.

(** The points of the frame the script plots. *)
Lemma combined_df_points yf show_ma start_date_str end_date_str interval t e :
  Timestamp start_date_str = Some t ->
  Timestamp end_date_str = Some e ->
  let fetched symbol :=
    returned (main_st_good.fetch_and_resample_data yf symbol start_date_str interval) in
  exists out,
    value (main_st_good.combined_df yf show_ma start_date_str end_date_str interval)
    = Ok out
    /\ points out
       = List.filter (fun p => (p.1.1 <=? e)%Z)
           (points (fetched "GOOGL") ++ points (fetched "NVDA")
            ++ points (fetched "TSLA")).
Proof.
  intros Ht He. rewrite combined_df_value. cbv beta zeta.
  set (g := returned (main_st_good.fetch_and_resample_data yf "GOOGL" _ _)).
  set (n := returned (main_st_good.fetch_and_resample_data yf "NVDA" _ _)).
  set (t' := returned (main_st_good.fetch_and_resample_data yf "TSLA" _ _)).
  set (X := main_st_good.combine g n t').
  destruct (filter_range_ok X _ _ t e Ht He) as (X' & -> & Hcols & Hrows). simpl.
  assert (HX : X = DataFrame_new \/ plottable X)
    by (apply combine_shape; apply returned_plottable).
  assert (Hdates : forall r, r ∈ rows X -> (t <= r.1)%Z).
  { intros r Hr. unfold X in Hr. rewrite rows_combine in Hr.
    destruct (returned_present yf "GOOGL" start_date_str interval) as [_ Eg].
    destruct (returned_present yf "NVDA" start_date_str interval) as [_ En].
    destruct (returned_present yf "TSLA" start_date_str interval) as [_ Et].
    fold g in Eg. fold n in En. fold t' in Et. rewrite Eg, En, Et in Hr.
    rewrite !elem_of_app in Hr. destruct Hr as [Hr|[Hr|Hr]];
      by eapply returned_dates_ge. }
  assert (HX' : empty X' = true \/ plottable X').
  { destruct HX as [E|[H1 H2]].
    - left. unfold empty. rewrite Hcols, E. done.
    - right. unfold plottable, has_column in *. by rewrite Hcols. }
  destruct (moving_average_points X' show_ma interval HX') as (out & -> & Hpts).
  exists out. split; [done|]. rewrite Hpts. unfold points at 1. rewrite Hrows.
  assert (Hp : points X = points g ++ points n ++ points t').
  { unfold X. rewrite points_combine.
    destruct (returned_present yf "GOOGL" start_date_str interval) as [Eg _].
    destruct (returned_present yf "NVDA" start_date_str interval) as [En _].
    destruct (returned_present yf "TSLA" start_date_str interval) as [Et _].
    fold g in Eg. fold n in En. fold t' in Et. by rewrite Eg, En, Et. }
  rewrite <- Hp. unfold points.
  rewrite <- (filter_points (fun d => (d <=? e)%Z)).
  destruct (empty X) eqn:HeX.
  + assert (Hr : rows X = []).
    { destruct HX as [->|[H1 _]]; [done | by eapply empty_no_rows]. }
    by rewrite Hr.
  + f_equal. apply filter_ext_in. intros r Hr. apply list_elem_of_In, Hdates in Hr.
    apply Z.leb_le in Hr. by rewrite Hr.
Qed.

End script.

(** C4 as stated fails: for the range 2024-01-01 to 2024-12-31 the weekly
    series of GOOGL that is plotted stops at the week that ends on
    2024-12-29, whereas the resampling of the history cut to that range ends
    with the point of the week of Monday 2024-12-30, the close of that day
    (192) stamped 2025-01-05. *)
Lemma end_bound_drops_last_partial_week :
  exists out,
    value (main_st_good.combined_df googl_source false
             "2024-01-01" "2024-12-31" "Week") = Ok out
    /\ last (close_items out) = Some (20086%Z, NaN)
    /\ last (resample_of_range Week 19723 20088 googl_history)
       = Some (20093%Z, price 192)
    /\ close_items out <> resample_of_range Week 19723 20088 googl_history.
Proof.
  destruct (combined_df_points googl_source false "2024-01-01" "2024-12-31" "Week"
              19723%Z 20088%Z eq_refl eq_refl) as (out & E & _).
  exists out. split; [exact E|].
  assert (Hout : out = returned (main_st_good.combined_df googl_source false
                                   "2024-01-01" "2024-12-31" "Week"))
    by (unfold returned; by rewrite E).
  assert (H1 : last (close_items out) = Some (20086%Z, NaN))
    by (rewrite Hout; vm_compute; reflexivity).
  assert (H2 : last (resample_of_range Week 19723 20088 googl_history)
               = Some (20093%Z, price 192)) by (vm_compute; reflexivity).
  split; [exact H1|]. split; [exact H2|].
  intros E'. rewrite E', H2 in H1. discriminate H1.
Qed.

(** C4, amended. [fetch_and_resample_data] takes no end date: the daily rows
    are filtered to the dates on or after the start date only, then
    resampled. The end bound is applied afterwards by the script, to the
    index of the combined frame, that is to the dates of the resampled
    points (the labels of their buckets): the points that are plotted are
    the points of the three fetched series dated on or before the end date
    (the start bound, applied again, removes nothing). *)
Theorem end_bound_applies_to_resampled_points (yf : PriceSource) (show_ma : bool)
    (start_date_str end_date_str interval : string) (t e : Z) :
  Timestamp start_date_str = Some t ->
  Timestamp end_date_str = Some e ->
  let fetched symbol :=
    returned (main_st_good.fetch_and_resample_data yf symbol start_date_str interval) in
  (exists out,
     value (main_st_good.combined_df yf show_ma start_date_str end_date_str interval)
     = Ok out
     /\ points out
        = List.filter (fun p => (p.1.1 <=? e)%Z)
            (points (fetched "GOOGL") ++ points (fetched "NVDA")
             ++ points (fetched "TSLA")))
  /\ (forall symbol df o,
        yf symbol = Ok df -> empty df = false -> empty (filter_ge t df) = false ->
        granularity interval = Some o -> has_column df "Close" = true ->
        close_items (fetched symbol)
        = resample_last_items o (close_items (filter_ge t df))).
Proof.
  intros Ht He. cbv beta zeta. split.
  - by apply (combined_df_points yf show_ma start_date_str end_date_str interval t e).
  - intros symbol df o H Hne Hf Hg Hc. unfold returned.
    change (main_st_good.fetch_and_resample_data yf symbol start_date_str interval)
      with (fetch Streamlit yf symbol start_date_str interval).
    rewrite (fetch_resampled Streamlit yf symbol start_date_str interval df t o)
      by done.
    by rewrite close_items_setitem, close_items_resampled.
Qed.

Lemma end_bound_applies_to_resampled_points_witness :
  exists out,
    value (main_st_good.combined_df sample_source true
             "2024-01-01" "2024-12-31" "Month") = Ok out
    /\ points out
       = List.filter (fun p => (p.1.1 <=? 20088)%Z)
           (points (returned (main_st_good.fetch_and_resample_data sample_source
                                "GOOGL" "2024-01-01" "Month"))
            ++ points (returned (main_st_good.fetch_and_resample_data sample_source
                                   "NVDA" "2024-01-01" "Month"))
            ++ points (returned (main_st_good.fetch_and_resample_data sample_source
                                   "TSLA" "2024-01-01" "Month"))).
Proof.
  exact (proj1 (end_bound_applies_to_resampled_points sample_source true
                  "2024-01-01" "2024-12-31" "Month" 19723%Z 20088%Z eq_refl eq_refl)).
Defined.

(** ** The rolling mean *)

Section rolling.
Import Pandas.
Local Open Scope nat_scope.
Local Arguments Qplus : simpl never.
Local Arguments Qminus : simpl never.
Local Arguments Qdiv : simpl never.
Local Arguments inject_Z : simpl never.
Local Arguments Z.of_nat : simpl never.
Implicit Types (w i n : nat) (vs : list Q) (s x y : Q).

Lemma Qsum_snoc vs x : (Qsum (vs ++ [x]) == Qsum vs + x)%Q.
Proof.
  induction vs as [|y vs IH]; simpl.
  - ring.
  - rewrite IH. ring.
Qed.

(** The window that ends at [k + w] against the one that ends before it. *)
Lemma Qsum_slide w k vs x y :
  0 < w -> vs !! k = Some y -> vs !! (k + w) = Some x ->
  (Qsum (take w (drop (S k) vs)) == Qsum (take w (drop k vs)) + x - y)%Q.
Proof.
  intros Hw Hy Hx. destruct w as [|w]; [lia|].
  rewrite (drop_S vs y k Hy). simpl.
  rewrite (take_S_r (drop (S k) vs) w x).
  - rewrite Qsum_snoc. ring.
  - rewrite lookup_drop. rewrite <- Hx. f_equal. lia.
Qed.

Lemma length_roll_mean w minp xs i todo st :
  length (roll_mean w minp xs i todo st) = length todo.
Proof.
  revert i st. induction todo as [|x todo IH]; intros i st; simpl; [done|].
  by rewrite IH.
Qed.

(** The running state is the count and the sum of the window; the output is
    the mean of the specification. *)
Lemma roll_mean_from w vs todo i n s :
  0 < w -> drop i vs = todo -> n = min i w ->
  (s == Qsum (take n (drop (i - n) vs)))%Q ->
  Forall2 same_value
    (roll_mean w w (map Some vs) i (map Some todo) (n, s))
    (map (moving_average_at w vs) (seq i (length todo))).
Proof.
  intros Hw. revert i n s. induction todo as [|x todo IH]; intros i n s Hd Hn Hs.
  { constructor. }
  assert (Hx : vs !! i = Some x).
  { rewrite <- (Nat.add_0_r i), <- lookup_drop, Hd. done. }
  assert (Hd' : drop (S i) vs = todo).
  { rewrite (drop_S vs x i Hx) in Hd. by inversion Hd. }
  simpl. destruct (Nat.leb_spec w i) as [Hwi|Hwi].
  - (* the window is full: the value that leaves is dropped *)
    assert (n = w) by lia. clear Hn. subst n.
    assert (Hy : exists y, vs !! (i - w) = Some y).
    { apply lookup_lt_is_Some. apply lookup_lt_Some in Hx. lia. }
    destruct Hy as [y Hy]. rewrite list_lookup_fmap, Hy. simpl.
    assert (Hslide : (s + x - y == Qsum (take w (drop (S i - w) vs)))%Q).
    { replace (S i - w) with (S (i - w)) by lia.
      rewrite (Qsum_slide w (i - w) vs x y); [rewrite Hs; reflexivity | done | done |].
      rewrite <- Hx. f_equal. lia. }
    constructor.
    + rewrite Nat.leb_refl. unfold moving_average_at.
      destruct (Nat.ltb_spec i (w - 1)); [lia|]. unfold same_value, window_mean.
      replace (i + 1 - w) with (S i - w) by lia. rewrite Hslide. reflexivity.
    + apply IH; [done | lia | done].
  - (* the window fills up *)
    assert (n = i) by lia. clear Hn. subst n.
    assert (Hfill : (s + x == Qsum (take (S i) (drop (S i - S i) vs)))%Q).
    { rewrite Nat.sub_diag in *. rewrite drop_0 in *.
      rewrite (take_S_r vs i x Hx), Qsum_snoc. rewrite Hs. reflexivity. }
    constructor.
    + unfold moving_average_at. cbn [fst snd].
      destruct (Nat.leb_spec w (S i)) as [Hle|Hgt].
      * assert (w = S i) by lia. subst w.
        destruct (Nat.ltb_spec i (S i - 1)); [lia|]. unfold same_value, window_mean.
        replace (i + 1 - S i) with (S i - S i) by lia. rewrite Hfill. reflexivity.
      * destruct (Nat.ltb_spec i (w - 1)); [done | lia].
    + apply IH; [done | lia | done].
Qed.

(** The rolling mean of a series of prices is the moving average of the
    specification. *)
Lemma roll_mean_refines w vs :
  0 < w ->
  Forall2 same_value (roll_mean w w (map Some vs) 0 (map Some vs) (0, 0%Q))
          (spec_moving_average w vs).
Proof.
  intros Hw. unfold spec_moving_average. by apply roll_mean_from.
Qed.

Lemma count_present_same ma ma' :
  Forall2 same_value ma ma' -> count_present ma = count_present ma'.
Proof.
  unfold count_present. induction 1 as [|[a|] [b|] ma ma' H _ IH]; simpl; try done.
  by rewrite IH.
Qed.

Lemma count_present_spec w vs a n :
  count_present (map (moving_average_at w vs) (seq a n)) = a + n - max a (w - 1).
Proof.
  unfold count_present. revert a. induction n as [|n IH]; intros a; simpl; [lia|].
  unfold moving_average_at at 1. destruct (Nat.ltb_spec a (w - 1)); simpl; rewrite IH; lia.
Qed.

(** The rolling mean of [n] prices: absent before index [w - 1], the mean of
    the last [w] closes from there on, [n - (w - 1)] values in all. *)
Lemma roll_mean_prices w vs :
  0 < w ->
  let ma := roll_mean w w (map Some vs) 0 (map Some vs) (0, 0%Q) in
  length ma = length vs
  /\ (forall i, i < w - 1 -> i < length vs -> ma !! i = Some None)
  /\ (forall i, w - 1 <= i < length vs ->
        exists v, ma !! i = Some (Some v) /\ (v == window_mean w vs i)%Q)
  /\ count_present ma = length vs - (w - 1).
Proof.
  intros Hw ma. pose proof (roll_mean_refines w vs Hw) as H. fold ma in H.
  assert (Hlen : length ma = length vs).
  { unfold ma. by rewrite length_roll_mean, length_map. }
  assert (Hat : forall i, i < length vs ->
            exists a, ma !! i = Some a /\ same_value a (moving_average_at w vs i)).
  { intros i Hi. destruct (lookup_lt_is_Some_2 ma i) as [a Ha]; [lia|].
    exists a. split; [done|].
    eapply (Forall2_lookup_lr _ _ _ i); [exact H | exact Ha |].
    unfold spec_moving_average. rewrite list_lookup_fmap, lookup_seq_lt by done. done. }
  split; [done|]. split; [|split].
  - intros i Hi Hn. destruct (Hat i Hn) as (a & Ha & Hs).
    unfold moving_average_at in Hs. destruct (Nat.ltb_spec i (w - 1)); [|lia].
    by destruct a.
  - intros i [Hi Hn]. destruct (Hat i Hn) as (a & Ha & Hs).
    unfold moving_average_at in Hs. destruct (Nat.ltb_spec i (w - 1)); [lia|].
    destruct a as [v|]; [|done]. by exists v.
  - rewrite (count_present_same _ _ H). unfold spec_moving_average.
    rewrite count_present_spec. lia.
Qed.

End rolling.

(** ** The moving-average column *)

Section moving_average_column.
Import Calendar Python Pandas.
Local Arguments has_column : simpl never.
Implicit Types (rs : list (Z * gmap string cell)) (vs : list cell).

Lemma symbol_row_insert symbol c v d (m : gmap string cell) :
  c <> "Symbol" -> symbol_row symbol (d, <[c := v]> m) = symbol_row symbol (d, m).
Proof. intros H. unfold symbol_row, row_get. simpl. by rewrite lookup_insert_ne. Qed.

(** The rows of the symbol get the values, in order. *)
Lemma assign_same symbol c rs vs :
  c <> "Symbol" -> length vs = length (List.filter (symbol_row symbol) rs) ->
  map (fun r => row_get r.2 c)
      (List.filter (symbol_row symbol) (assign c rs (map (symbol_row symbol) rs) vs))
  = vs.
Proof.
  intros Hc. revert vs. induction rs as [|[d m] rs IH]; intros vs Hl; simpl in *.
  - by destruct vs.
  - destruct (symbol_row symbol (d, m)) eqn:E; simpl in *.
    + destruct vs as [|v vs]; [done|]. simpl. rewrite symbol_row_insert, E by done.
      simpl. unfold row_get at 1. rewrite lookup_insert_eq. simpl. f_equal.
      apply IH. by inversion Hl.
    + rewrite E. by apply IH.
Qed.

(** The rows of another symbol are left as they are. *)
Lemma assign_other symbol symbol' c rs vs :
  c <> "Symbol" -> symbol <> symbol' ->
  List.filter (symbol_row symbol') (assign c rs (map (symbol_row symbol) rs) vs)
  = List.filter (symbol_row symbol') rs.
Proof.
  intros Hc Hne. revert vs. induction rs as [|[d m] rs IH]; intros vs; simpl; [done|].
  destruct (symbol_row symbol (d, m)) eqn:E; simpl.
  - assert (E' : symbol_row symbol' (d, m) = false).
    { unfold symbol_row, is_symbol in *. simpl in *.
      destruct (row_get m "Symbol") as [|s]; [done|].
      apply String.eqb_eq in E. subst. by apply String.eqb_neq. }
    destruct vs as [|v vs]; simpl; rewrite ?symbol_row_insert, E' by done; apply IH.
  - by rewrite IH.
Qed.

(** The other columns are left as they are. *)
Lemma assign_column symbol symbol' c c' rs vs :
  c <> "Symbol" -> c' <> c ->
  map (fun r => row_get r.2 c')
      (List.filter (symbol_row symbol') (assign c rs (map (symbol_row symbol) rs) vs))
  = map (fun r => row_get r.2 c') (List.filter (symbol_row symbol') rs).
Proof.
  intros Hc Hne. revert vs. induction rs as [|[d m] rs IH]; intros vs; simpl; [done|].
  destruct (symbol_row symbol (d, m)) eqn:E; simpl.
  - destruct vs as [|v vs]; simpl.
    + destruct (symbol_row symbol' (d, m)); simpl; by rewrite IH.
    + rewrite symbol_row_insert by done.
      destruct (symbol_row symbol' (d, m)); simpl; rewrite IH; [|done].
      unfold row_get at 1. simpl. by rewrite lookup_insert_ne.
  - destruct (symbol_row symbol' (d, m)); simpl; by rewrite IH.
Qed.

Lemma rows_with_MA200 df symbol :
  rows (with_MA200 df symbol)
  = assign "MA200" (rows df) (map (symbol_row symbol) (rows df))
           (map Num (MA200_values df symbol)).
Proof.
  unfold with_MA200, loc_set, rolling_mean, MA200_values, series_of, symbol_mask. simpl.
  f_equal.
  assert (E : select (close_items df) (map (symbol_row symbol) (rows df))
              = map (fun r => (r.1, row_get r.2 "Close"))
                    (List.filter (symbol_row symbol) (rows df))).
  { unfold close_items. by rewrite select_fmap, select_map. }
  rewrite E, !map_map. simpl.
  rewrite snd_zip; [done|]. by rewrite !length_map, length_roll_mean, !length_map.
Qed.

Lemma series_of_with_MA200_same df symbol :
  series_of (with_MA200 df symbol) symbol "MA200" = map Num (MA200_values df symbol).
Proof.
  unfold series_of at 1. rewrite rows_with_MA200. apply assign_same; [done|].
  unfold MA200_values, series_of. by rewrite !length_map, length_roll_mean, !length_map.
Qed.

Lemma series_of_with_MA200_other df symbol symbol' c :
  symbol <> symbol' ->
  series_of (with_MA200 df symbol) symbol' c = series_of df symbol' c.
Proof.
  intros H. unfold series_of. rewrite rows_with_MA200. by rewrite assign_other.
Qed.

Lemma series_of_with_MA200_column df symbol symbol' c :
  c <> "MA200" ->
  series_of (with_MA200 df symbol) symbol' c = series_of df symbol' c.
Proof.
  intros H. unfold series_of. rewrite rows_with_MA200. by apply assign_column.
Qed.

Lemma MA200_values_with_MA200 df symbol symbol' :
  MA200_values (with_MA200 df symbol) symbol' = MA200_values df symbol'.
Proof. unfold MA200_values. by rewrite series_of_with_MA200_column. Qed.

(** After the three passes every symbol of the loop has its own values. *)
Lemma series_of_three_passes df symbol :
  symbol ∈ ["GOOGL"; "NVDA"; "TSLA"] ->
  series_of (with_MA200 (with_MA200 (with_MA200 df "GOOGL") "NVDA") "TSLA")
            symbol "MA200"
  = map Num (MA200_values df symbol).
Proof.
  intros H. repeat (apply elem_of_cons in H as [->|H]); [| | |by apply elem_of_nil in H].
  - rewrite !series_of_with_MA200_other by done. apply series_of_with_MA200_same.
  - rewrite series_of_with_MA200_other by done.
    by rewrite series_of_with_MA200_same, MA200_values_with_MA200.
  - by rewrite series_of_with_MA200_same, !MA200_values_with_MA200.
Qed.

End moving_average_column.

(** C6. The moving-average transform with window 200 of the script: for each
    of the three symbols, the ['MA200'] values of the rows of the symbol are
    absent (NaN) at every index below 199 of the daily series of that
    symbol, and from index 199 on they are the arithmetic mean of the 200
    closes at the indices from [i - 199] to [i], so that [len - 199] values
    are present ([0] for a series of fewer than 200 points); the column is
    computed when the granularity is Day (and the box is ticked), and not
    otherwise. Prices are exact rationals here. *)
Theorem moving_average_200 (df : DataFrame) (show_ma : bool)
    (interval symbol : string) (closes : list Q) :
  plottable df ->
  empty df = false ->
  symbol ∈ ["GOOGL"; "NVDA"; "TSLA"] ->
  series_of df symbol "Close" = map (fun c => Num (Some c)) closes ->
  (exists out ma,
     main_st_good.moving_average df true "Day" = Ok out
     /\ series_of out symbol "MA200" = map Num ma
     /\ length ma = length closes
     /\ (forall i, (i < 199)%nat -> (i < length closes)%nat -> ma !! i = Some None)
     /\ (forall i, (199 <= i < length closes)%nat ->
           exists v, ma !! i = Some (Some v) /\ (v == window_mean 200 closes i)%Q)
     /\ count_present ma = (length closes - 199)%nat
     /\ Forall2 same_value ma (spec_moving_average 200 closes))
  /\ (show_ma && String.eqb interval "Day" = false ->
      main_st_good.moving_average df show_ma interval = Ok df).
Proof.
  intros Hp He Hs Hc. split.
  - exists (with_MA200 (with_MA200 (with_MA200 df "GOOGL") "NVDA") "TSLA"),
      (MA200_values df symbol).
    split; [by apply moving_average_day|]. split; [by apply series_of_three_passes|].
    unfold MA200_values. rewrite Hc, map_map. simpl.
    change (map (fun x : Q => Some x) closes) with (map Some closes).
    destruct (roll_mean_prices 200 closes) as (H1 & H2 & H3 & H4); [lia|].
    repeat split; try done. apply roll_mean_refines. lia.
  - intros H. apply moving_average_off. by rewrite H.
Qed.

Lemma moving_average_200_witness :
  let df := main_st_good.combine (daily_series "GOOGL" 19724 100 230)
              (daily_series "NVDA" 19744 40 150) DataFrame_new in
  exists out ma,
    main_st_good.moving_average df true "Day" = Ok out
    /\ series_of out "GOOGL" "MA200" = map Num ma
    /\ length ma = 230%nat
    /\ count_present ma = 31%nat.
Proof.
  cbv zeta.
  destruct (moving_average_200
              (main_st_good.combine (daily_series "GOOGL" 19724 100 230)
                 (daily_series "NVDA" 19744 40 150) DataFrame_new)
              true "Day" "GOOGL"
              (map (fun i : nat => inject_Z (100 + Z.of_nat i)) (seq 0 230)))
    as [(out & ma & H1 & H2 & H3 & _ & _ & H4 & _) _].
  - split; vm_compute; reflexivity.
  - vm_compute; reflexivity.
  - left.
  - vm_compute; reflexivity.
  - exists out, ma. split; [exact H1|]. split; [exact H2|]. split; [exact H3 | exact H4].
Defined.

(** ** Date strings *)

Section date_strings.
Import Calendar Python Pandas.
Local Open Scope Z_scope.
Local Arguments Z.div : simpl never.
Local Arguments Z.modulo : simpl never.
Local Arguments Z.mul : simpl never.
Local Arguments Z.add : simpl never.
Local Arguments Z.sub : simpl never.
Local Arguments days_from_civil : simpl never.
Local Arguments days_in_month : simpl never.

Local Ltac euclid := Z.to_euclidean_division_equations; lia.

Lemma digit_digit_char d : 0 <= d <= 9 -> digit (digit_char d) = Some d.
Proof.
  intros H.
  assert (E : d = 0 \/ d = 1 \/ d = 2 \/ d = 3 \/ d = 4 \/ d = 5 \/ d = 6 \/ d = 7
              \/ d = 8 \/ d = 9) by lia.
  repeat (destruct E as [->|E]; [reflexivity|]). by subst.
Qed.

(** The four digits of a year between 1000 and 9999. *)
Lemma str_int_year y :
  1000 <= y <= 9999 ->
  str_int y = string_of_list_ascii
                [digit_char (y / 1000); digit_char (y / 100 mod 10);
                 digit_char (y / 10 mod 10); digit_char (y mod 10)].
Proof.
  intros H. unfold str_int, str_nat. destruct (Z.ltb_spec y 0); [lia|].
  assert (Hlog : 9 <= Z.log2 y).
  { change 9 with (Z.log2 1000). apply Z.log2_le_mono. lia. }
  destruct (Z.to_nat (Z.log2 y)) as [|[|[|n]]] eqn:E; [lia..|].
  f_equal. cbn [digits].
  destruct (Z.ltb_spec y 10); [lia|].
  destruct (Z.ltb_spec (y / 10) 10); [euclid|].
  destruct (Z.ltb_spec (y / 10 / 10) 10); [euclid|].
  destruct (Z.ltb_spec (y / 10 / 10 / 10) 10); [|euclid].
  replace (y / 10 / 10 / 10) with (y / 1000) by euclid.
  replace (y / 10 / 10) with (y / 100) by euclid. done.
Qed.

Lemma number_year y :
  1000 <= y <= 9999 ->
  number [digit_char (y / 1000); digit_char (y / 100 mod 10);
          digit_char (y / 10 mod 10); digit_char (y mod 10)] = Some y.
Proof.
  intros H. unfold number. cbn [foldl].
  rewrite !digit_digit_char by euclid. cbn [mbind option_bind].
  f_equal. euclid.
Qed.

Lemma number_two_digits n :
  0 <= n <= 99 -> number [digit_char (n / 10); digit_char (n mod 10)] = Some n.
Proof.
  intros H. unfold number. cbn [foldl].
  rewrite !digit_digit_char by euclid. cbn [mbind option_bind].
  f_equal. euclid.
Qed.

(** A month has 28 to 31 days. *)
Lemma month_length k : 28 <= month_start (k + 1) - month_start k <= 31.
Proof.
  unfold month_start.
  assert (Hk : (k + 1) / 12 = k / 12 /\ (k + 1) mod 12 = k mod 12 + 1 /\ k mod 12 < 11
            \/ (k + 1) / 12 = k / 12 + 1 /\ (k + 1) mod 12 = 0 /\ k mod 12 = 11)
    by euclid.
  destruct Hk as [(-> & -> & H) | (-> & -> & ->)].
  - assert (0 <= k mod 12) by (apply Z.mod_pos_bound; lia).
    unfold days_before_month. euclid.
  - pose proof (days_before_year_step (k / 12)).
    change (days_before_month 0) with 0. change (days_before_month 11) with 337. lia.
Qed.

Lemma days_in_month_bounds y m : 28 <= days_in_month y m <= 31.
Proof.
  unfold days_in_month, civil_month_start.
  pose proof (month_length (12 * y + (m - 1) - 2)) as H.
  replace (12 * y + (m - 1) - 2 + 1) with (12 * y + m - 2) in H by lia. lia.
Qed.

Lemma days_in_december y : days_in_month y 12 = 31.
Proof.
  unfold days_in_month, civil_month_start, month_start.
  replace ((12 * y + 12 - 2) / 12) with y by euclid.
  replace ((12 * y + 12 - 2) mod 12) with 10 by euclid.
  replace ((12 * y + (12 - 1) - 2) / 12) with y by euclid.
  replace ((12 * y + (12 - 1) - 2) mod 12) with 9 by euclid.
  change (days_before_month 10) with 306. change (days_before_month 9) with 275. lia.
Qed.

(** A string of the form year, month and day on two digits each parses to
    that day. *)
Lemma Timestamp_Ymd y m d :
  1000 <= y <= 9999 -> 1 <= m <= 12 -> 1 <= d <= days_in_month y m ->
  Timestamp (str_int y +:+ "-" +:+ two_digits m +:+ "-" +:+ two_digits d)
  = Some (days_from_civil y m d).
Proof.
  intros Hy Hm Hd. pose proof (days_in_month_bounds y m) as Hb.
  rewrite str_int_year by done. unfold Timestamp, two_digits.
  cbv [string_of_list_ascii String.append list_ascii_of_string].
  rewrite number_year, !number_two_digits by lia. cbn [mbind option_bind].
  change (Ascii.eqb "-" "-") with true. cbn [andb].
  destruct (Z.leb_spec 1 m); [|lia]. destruct (Z.leb_spec m 12); [|lia].
  destruct (Z.leb_spec 1 d); [|lia]. destruct (Z.leb_spec d (days_in_month y m)); [|lia].
  done.
Qed.

Lemma civil_month_bracket d :
  civil_month_start (civil_month d) <= d < civil_month_start (civil_month d + 1).
Proof.
  unfold civil_month_start, civil_month. pose proof (month_bracket d) as H.
  replace (month_index d + 2 - 2) with (month_index d) by lia.
  replace (month_index d + 2 + 1 - 2) with (month_index d + 1) by lia. done.
Qed.

Lemma civil_month_days_from_civil y m d :
  1 <= m <= 12 -> 1 <= d <= days_in_month y m ->
  civil_month (days_from_civil y m d) = 12 * y + (m - 1).
Proof.
  intros Hm Hd. unfold civil_month, days_from_civil, days_in_month, civil_month_start in *.
  rewrite (month_index_unique _ (12 * y + (m - 1) - 2)); [lia|].
  replace (12 * y + (m - 1) - 2 + 1) with (12 * y + m - 2) by lia. lia.
Qed.

Lemma strftime_Timestamp d :
  1000 <= year_of d <= 9999 -> Timestamp (strftime_Ymd d) = Some d.
Proof.
  unfold year_of. intros Hy. unfold strftime_Ymd. cbv zeta.
  set (j := civil_month d) in *. pose proof (civil_month_bracket d) as Hb. fold j in Hb.
  assert (Hj : 12 * (j / 12) + (j mod 12 + 1 - 1) = j) by euclid.
  assert (Hj' : 12 * (j / 12) + (j mod 12 + 1) = j + 1) by euclid.
  rewrite Timestamp_Ymd.
  - f_equal. unfold days_from_civil. rewrite Hj. lia.
  - done.
  - euclid.
  - unfold days_in_month. rewrite Hj, Hj'. lia.
Qed.

Lemma days_from_civil_strftime y m d :
  1 <= m <= 12 -> 1 <= d <= days_in_month y m ->
  strftime_Ymd (days_from_civil y m d)
  = str_int y +:+ "-" +:+ two_digits m +:+ "-" +:+ two_digits d.
Proof.
  intros Hm Hd. unfold strftime_Ymd. cbv zeta.
  rewrite civil_month_days_from_civil by done.
  replace ((12 * y + (m - 1)) / 12) with y by euclid.
  replace ((12 * y + (m - 1)) mod 12 + 1) with m by euclid.
  replace (days_from_civil y m d - civil_month_start (12 * y + (m - 1)) + 1) with d
    by (unfold days_from_civil; lia).
  done.
Qed.

End date_strings.

(** X1. The date strings the front-ends build from a year of four digits
    are dates: the start string is the first of January of that year, the
    end string the last of December, and the start is before the end
    whenever the start year is not after the end year. *)
Theorem year_date_strings_parse (start_year end_year : Z) :
  (1000 <= start_year <= 9999)%Z -> (1000 <= end_year <= 9999)%Z ->
  Timestamp (main_st_good.start_date_str start_year)
  = Some (days_from_civil start_year 1 1)
  /\ Timestamp (main_st_good.end_date_str end_year)
     = Some (days_from_civil end_year 12 31)
  /\ ((start_year <= end_year)%Z ->
      (days_from_civil start_year 1 1 < days_from_civil end_year 12 31)%Z).
Proof.
  intros Hs He. split; [|split].
  - apply (Timestamp_Ymd start_year 1 1); [done | lia |].
    pose proof (days_in_month_bounds start_year 1). lia.
  - apply (Timestamp_Ymd end_year 12 31); [done | lia |].
    rewrite days_in_december. lia.
  - intros Hle. unfold days_from_civil, civil_month_start.
    pose proof (month_start_lt (12 * start_year + (1 - 1) - 2)).
    pose proof (month_start_mono (12 * start_year + (1 - 1) - 2 + 1)
                  (12 * end_year + (12 - 1) - 2)). lia.
Qed.

Lemma year_date_strings_parse_witness :
  Timestamp (main_st_good.start_date_str 1990) = Some (days_from_civil 1990 1 1)
  /\ Timestamp (main_st_good.end_date_str 2026) = Some (days_from_civil 2026 12 31).
Proof.
  destruct (year_date_strings_parse 1990 2026) as (H1 & H2 & _); [lia | lia |].
  split; [exact H1 | exact H2].
Defined.

(** X2. The date text of an annotation and the parsing of a date string
    are inverse to each other for the days of the years 1000 to 9999:
    [strftime('%Y-%m-%d')] of a day parses back to that day, and the text of
    a valid year, month and day is the year, a dash, the month on two
    digits, a dash and the day on two digits. *)
Theorem strftime_round_trip (d y m dd : Z) :
  (1000 <= year_of d <= 9999)%Z ->
  (1 <= m <= 12)%Z -> (1 <= dd <= days_in_month y m)%Z ->
  Timestamp (strftime_Ymd d) = Some d
  /\ strftime_Ymd (days_from_civil y m dd)
     = str_int y +:+ "-" +:+ two_digits m +:+ "-" +:+ two_digits dd.
Proof.
  intros Hd Hm Hdd. split; [by apply strftime_Timestamp | by apply days_from_civil_strftime].
Qed.

Lemma strftime_round_trip_witness :
  Timestamp (strftime_Ymd 19782) = Some 19782%Z
  /\ strftime_Ymd (days_from_civil 2024 2 29) = "2024-02-29".
Proof.
  destruct (strftime_round_trip 19782 2024 2 29) as [H1 H2];
    [vm_compute; split; discriminate | lia | vm_compute; split; discriminate |].
  split; [exact H1 | exact H2].
Defined.

(** ** All the paths of a fetch *)

Section all_paths.
Import Calendar Python Pandas.
Local Open Scope Z_scope.
Local Arguments has_column : simpl never.
Local Arguments empty : simpl never.
Implicit Types (f : frontend) (yf : PriceSource) (symbol start_date interval : string).

Lemma fetch_has_data f yf symbol start_date interval df t :
  has_data yf symbol start_date interval df t ->
  fetch f yf symbol start_date interval
  = (Ok (frame_of f symbol (body_of interval t df)), []).
Proof.
  intros (H & He & Ht & Hf & Hc). unfold body_of.
  destruct (granularity interval) as [o|] eqn:Hg.
  - assert (Hc' : has_column df "Close" = true) by (by apply Hc).
    destruct f; simpl.
    + by apply main_fetch_resampled.
    + erewrite st_fetch_resampled by done. done.
  - destruct f; simpl; [by apply main_fetch_daily | by apply st_fetch_daily].
Qed.

(** A fetch has data, or returns the empty frame with at most one message;
    main.py is silent when no row is on or after the start date. *)
Lemma fetch_cases f yf symbol start_date interval :
  (exists df t, has_data yf symbol start_date interval df t)
  \/ (exists msgs,
        fetch f yf symbol start_date interval = (Ok DataFrame_new, msgs)
        /\ ((exists m, msgs = [m])
            \/ (msgs = [] /\ f = Qt /\ no_data_in_range yf symbol start_date))).
Proof.
  destruct (yf symbol) as [df|e] eqn:H.
  2: { right. eexists. split; [by apply fetch_upstream_raises | left; eauto]. }
  destruct (empty df) eqn:He.
  { right. eexists. split; [apply fetch_unknown; by exists df|].
    left. destruct f; simpl; eauto. }
  destruct (Timestamp start_date) as [t|] eqn:Ht.
  2: { right. destruct f; simpl; eexists;
         (split; [by (eapply main_fetch_bad_date || eapply st_fetch_bad_date) | left; eauto]). }
  destruct (empty (filter_ge t df)) eqn:Hf.
  { right. eexists. split; [apply fetch_out_of_range; by exists df, t|].
    destruct f; simpl; [right | left; eauto].
    split; [done|]. split; [done|]. by exists df, t. }
  destruct (granularity interval) as [o|] eqn:Hg.
  - destruct (has_column df "Close") eqn:Hc.
    + left. exists df, t. repeat split; done.
    + right. destruct f; simpl; eexists;
        (split; [by (eapply main_fetch_no_close || eapply st_fetch_no_close) | left; eauto]).
  - left. exists df, t. repeat split; done.
Qed.

Lemma empty_body_of interval t df :
  empty (filter_ge t df) = false -> empty (body_of interval t df) = false.
Proof.
  intros H. unfold body_of. destruct (granularity interval); [by apply empty_resampled | done].
Qed.

Lemma empty_frame_of f symbol body :
  empty body = false -> empty (frame_of f symbol body) = false.
Proof.
  intros H. destruct f; simpl; [done|]. apply empty_setitem. by rewrite empty_ensure_close.
Qed.

Lemma index_frame_of f symbol body : index (frame_of f symbol body) = index body.
Proof. destruct f; simpl; [done|]. by rewrite index_setitem, index_ensure_close. Qed.

Lemma index_body_of_ge interval t df d : d ∈ index (body_of interval t df) -> t <= d.
Proof.
  unfold body_of. destruct (granularity interval) as [o|].
  - apply index_resampled_ge. apply index_filter_ge.
  - apply index_filter_ge.
Qed.

End all_paths.

Section unknown_interval.
Import Calendar Python Pandas.

Lemma fetch_try_unknown_interval f yf symbol start_date interval :
  granularity interval = None ->
  fetch_try f yf symbol start_date interval = fetch_try f yf symbol start_date "Day".
Proof.
  intros Hg. apply granularity_none in Hg as (H1 & H2 & H3 & H4).
  destruct f; simpl; unfold main.fetch_try, main_st_good.fetch_try;
    rewrite H1, H2, H3, H4; by destruct (String.eqb interval "Day").
Qed.

End unknown_interval.

(** X3. An interval name that is none of Week, Month, Quarter and Year
    falls through the chain of [elif]: the call behaves as for Day, whatever
    the name, and returns the filtered daily series without resampling and
    without an error. *)
Theorem unknown_interval_is_day (f : frontend) (yf : PriceSource)
    (symbol start_date interval : string) :
  granularity interval = None ->
  fetch f yf symbol start_date interval = fetch f yf symbol start_date "Day".
Proof.
  intros Hg. pose proof (fetch_try_unknown_interval f yf symbol start_date interval Hg) as E.
  destruct f; simpl in *;
    unfold main.fetch_and_resample_data, main_st_good.fetch_and_resample_data;
    by rewrite E.
Qed.

Lemma unknown_interval_is_day_witness :
  fetch Qt sample_source "GOOGL" "2024-01-01" "Hour"
  = fetch Qt sample_source "GOOGL" "2024-01-01" "Day".
Proof. apply (unknown_interval_is_day Qt sample_source). reflexivity. Defined.

(** X4. The frame a fetch returns is the empty frame [pd.DataFrame()] or a
    frame with rows, all dated on or after the start date; such a frame has
    a close column whenever it was resampled, and in main_st_good.py always,
    together with a symbol column that holds the symbol in every row. *)
Theorem fetched_frame_invariant (f : frontend) (yf : PriceSource)
    (symbol start_date interval : string) :
  let out := returned (fetch f yf symbol start_date interval) in
  out = DataFrame_new
  \/ (empty out = false
      /\ (exists t, Timestamp start_date = Some t
                    /\ forall d, d ∈ index out -> (t <= d)%Z)
      /\ (granularity interval <> None \/ f = Streamlit -> has_column out "Close" = true)
      /\ (f = Streamlit ->
          has_column out "Symbol" = true
          /\ forall r, r ∈ rows out -> row_get r.2 "Symbol" = Str symbol)).
Proof.
  cbv zeta. destruct (fetch_cases f yf symbol start_date interval)
    as [(df & t & Hd)|(msgs & E & _)].
  2: { left. unfold returned. by rewrite E. }
  right. unfold returned. rewrite (fetch_has_data f yf symbol start_date interval df t Hd).
  simpl. destruct Hd as (H & He & Ht & Hf & Hc).
  split; [by apply empty_frame_of, empty_body_of|].
  split; [exists t; split; [done|]; intros d; rewrite index_frame_of;
          apply index_body_of_ge|].
  split.
  - intros [Hg| ->].
    + unfold body_of. destruct (granularity interval) as [o|]; [|done].
      destruct f; simpl; [done|]. by apply has_column_setitem_other.
    + simpl. apply has_column_setitem_other, has_close_ensure_close.
      by apply empty_body_of.
  - intros ->. simpl. split; [apply has_column_setitem|].
    intros r Hr. apply list_elem_of_fmap in Hr as ([d m] & -> & _). simpl.
    unfold row_get. by rewrite lookup_insert_eq.
Qed.

(** X5. A call shows at most one message, and none when it returns data.
    When it returns the empty frame, main_st_good.py always shows a message,
    and main.py shows one except when the source has rows but none on or
    after the start date. *)
Theorem fetch_messages (f : frontend) (yf : PriceSource)
    (symbol start_date interval : string) :
  let r := fetch f yf symbol start_date interval in
  (length (shown r) <= 1)%nat
  /\ (empty (returned r) = false -> shown r = [])
  /\ (shown r = [] ->
      empty (returned r) = false \/ (f = Qt /\ no_data_in_range yf symbol start_date)).
Proof.
  cbv zeta. destruct (fetch_cases f yf symbol start_date interval)
    as [(df & t & Hd)|(msgs & E & Hm)].
  - rewrite (fetch_has_data f yf symbol start_date interval df t Hd).
    unfold returned, shown, value. simpl. destruct Hd as (H & He & Ht & Hf & Hc).
    split; [lia|]. split; [done|]. intros _. left.
    by apply empty_frame_of, empty_body_of.
  - rewrite E. unfold returned, shown, value. simpl.
    destruct Hm as [[m ->]|(-> & -> & Hn)].
    + split; [simpl; lia|]. split; [done | done].
    + split; [simpl; lia|]. split; [done|]. intros _. by right.
Qed.

(** ** The window of main.py *)

Section window.
Import Calendar Python Pandas Matplotlib main.
Local Arguments has_column : simpl never.
Local Arguments empty : simpl never.
Local Arguments fetch_and_resample_data : simpl never.

Lemma plot_symbol_empty ax df symbol color :
  empty df = true ->
  plot_symbol ax df symbol color = (Ok (ax, None), [not_available symbol]).
Proof. intros H. unfold plot_symbol. by rewrite H. Qed.

Lemma plot_symbol_line ax df symbol color :
  empty df = false -> has_column df "Close" = true ->
  plot_symbol ax df symbol color
  = (Ok (plot ax (line_of df symbol color), Some (line_of df symbol color)), []).
Proof.
  intros He Hc. unfold plot_symbol, plot_close, getitem. by rewrite He, Hc.
Qed.

Lemma plot_symbol_no_close ax df symbol color :
  empty df = false -> has_column df "Close" = false ->
  plot_symbol ax df symbol color = (Raise (KeyError "Close"), []).
Proof.
  intros He Hc. unfold plot_symbol, plot_close, getitem. by rewrite He, Hc.
Qed.

Lemma clear_annotation_inputs self :
  start_year_input (clear_annotation self) = start_year_input self
  /\ interval_combo (clear_annotation self) = interval_combo self
  /\ annotation (clear_annotation self) = None.
Proof. unfold clear_annotation. by destruct (annotation self) eqn:E. Qed.

(** [plot_symbol] draws the line, shows the message box, or raises for a
    frame with rows and no close column. *)
Lemma plot_symbol_cases ax df symbol color :
  (empty df = true
   /\ plot_symbol ax df symbol color = (Ok (ax, None), [not_available symbol]))
  \/ (empty df = false /\ has_column df "Close" = true
      /\ plot_symbol ax df symbol color
         = (Ok (plot ax (line_of df symbol color), Some (line_of df symbol color)), []))
  \/ (empty df = false /\ has_column df "Close" = false
      /\ plot_symbol ax df symbol color = (Raise (KeyError "Close"), [])).
Proof.
  destruct (empty df) eqn:He; [left; split; [done | by apply plot_symbol_empty]|].
  destruct (has_column df "Close") eqn:Hc.
  - right; left. split; [done|]. split; [done | by apply plot_symbol_line].
  - right; right. split; [done|]. split; [done | by apply plot_symbol_no_close].
Qed.

Lemma plot_data_ok yf self g wg n wn ax1 lg w1 ax2 ln w2 :
  fetch_and_resample_data yf "GOOGL" (start_date_of self) (interval_combo self) = (Ok g, wg) ->
  fetch_and_resample_data yf "NVDA" (start_date_of self) (interval_combo self) = (Ok n, wn) ->
  plot_symbol cleared g "GOOGL" "steelblue" = (Ok (ax1, lg), w1) ->
  plot_symbol ax1 n "NVDA" "firebrick" = (Ok (ax2, ln), w2) ->
  plot_data yf self = (Ok (after_plot self g n ax2 lg ln), wg ++ wn ++ w1 ++ w2).
Proof.
  intros Hg Hn H1 H2. unfold plot_data. cbv zeta.
  destruct (clear_annotation_inputs self) as (-> & -> & ->).
  unfold start_date_of in *. rewrite Hg. simpl. rewrite Hn. simpl.
  rewrite H1. simpl. rewrite H2. simpl. by rewrite app_nil_r.
Qed.

Lemma plot_data_raise_googl yf self g wg n wn e w1 :
  fetch_and_resample_data yf "GOOGL" (start_date_of self) (interval_combo self) = (Ok g, wg) ->
  fetch_and_resample_data yf "NVDA" (start_date_of self) (interval_combo self) = (Ok n, wn) ->
  plot_symbol cleared g "GOOGL" "steelblue" = (Raise e, w1) ->
  value (plot_data yf self) = Raise e.
Proof.
  intros Hg Hn H1. unfold plot_data. cbv zeta.
  destruct (clear_annotation_inputs self) as (-> & -> & ->).
  unfold start_date_of in *. rewrite Hg. simpl. rewrite Hn. simpl.
  by rewrite H1.
Qed.

Lemma plot_data_raise_nvda yf self g wg n wn ax1 lg w1 e w2 :
  fetch_and_resample_data yf "GOOGL" (start_date_of self) (interval_combo self) = (Ok g, wg) ->
  fetch_and_resample_data yf "NVDA" (start_date_of self) (interval_combo self) = (Ok n, wn) ->
  plot_symbol cleared g "GOOGL" "steelblue" = (Ok (ax1, lg), w1) ->
  plot_symbol ax1 n "NVDA" "firebrick" = (Raise e, w2) ->
  value (plot_data yf self) = Raise e.
Proof.
  intros Hg Hn H1 H2. unfold plot_data. cbv zeta.
  destruct (clear_annotation_inputs self) as (-> & -> & ->).
  unfold start_date_of in *. rewrite Hg. simpl. rewrite Hn. simpl.
  rewrite H1. simpl. by rewrite H2.
Qed.

(** What main.py's fetch hands to [plot_data]. *)
Lemma main_fetch_pair yf symbol start_date interval :
  exists out w,
    fetch_and_resample_data yf symbol start_date interval = (Ok out, w)
    /\ out = returned (fetch Qt yf symbol start_date interval)
    /\ w = shown (fetch Qt yf symbol start_date interval).
Proof.
  destruct (fetch_returns Qt yf symbol start_date interval) as [df E].
  unfold returned, shown, value, fetch in *.
  destruct (fetch_and_resample_data yf symbol start_date interval) as [r w].
  simpl in *. subst. by exists df, w.
Qed.

Lemma returned_has_data f yf symbol start_date interval df t :
  has_data yf symbol start_date interval df t ->
  returned (fetch f yf symbol start_date interval)
  = frame_of f symbol (body_of interval t df)
  /\ empty (frame_of f symbol (body_of interval t df)) = false.
Proof.
  intros Hd. unfold returned.
  rewrite (fetch_has_data f yf symbol start_date interval df t Hd). simpl.
  destruct Hd as (_ & _ & _ & Hf & _). split; [done|].
  by apply empty_frame_of, empty_body_of.
Qed.

Lemma has_data_unique yf symbol start_date interval df t df' t' :
  has_data yf symbol start_date interval df t ->
  has_data yf symbol start_date interval df' t' -> df' = df /\ t' = t.
Proof. intros (H & _ & Ht & _) (H' & _ & Ht' & _). split; congruence. Qed.

(** The frame main.py's fetch returns is empty or has a close column, when
    it is resampled or the history has the column. *)
Lemma qt_returned_close yf symbol start_date interval :
  granularity interval <> None \/ histories_have_close yf ->
  let out := returned (fetch Qt yf symbol start_date interval) in
  empty out = true \/ has_column out "Close" = true.
Proof.
  intros H. cbv zeta.
  destruct (fetch_cases Qt yf symbol start_date interval)
    as [(df & t & Hd)|(msgs & E & _)].
  - right. destruct (returned_has_data Qt yf symbol start_date interval df t Hd) as [-> _].
    simpl. unfold body_of. destruct (granularity interval) as [o|] eqn:Hg; [reflexivity|].
    destruct H as [H|H]; [done|]. destruct Hd as (Hy & He & _).
    rewrite filter_ge_has_column. by apply (H symbol).
  - left. unfold returned. by rewrite E.
Qed.

Lemma plot_symbol_ok ax df symbol color :
  empty df = true \/ has_column df "Close" = true ->
  plot_symbol ax df symbol color
  = (Ok (match line_if_data df symbol color with Some l => plot ax l | None => ax end,
         line_if_data df symbol color),
     notice_if_empty df symbol).
Proof.
  intros H. unfold line_if_data, notice_if_empty.
  destruct (plot_symbol_cases ax df symbol color)
    as [[He ->]|[(He & Hc & ->)|(He & Hc & _)]]; rewrite ?He; try done.
  destruct H; congruence.
Qed.

Lemma plot_symbol_inv ax df symbol color ax' line w :
  plot_symbol ax df symbol color = (Ok (ax', line), w) ->
  (empty df = true \/ has_column df "Close" = true)
  /\ ax' = match line_if_data df symbol color with Some l => plot ax l | None => ax end
  /\ line = line_if_data df symbol color /\ w = notice_if_empty df symbol.
Proof.
  intros H.
  destruct (plot_symbol_cases ax df symbol color)
    as [[He E]|[(He & Hc & E)|(He & Hc & E)]]; rewrite E in H; [| |done].
  - inversion H. unfold line_if_data, notice_if_empty. rewrite He. by auto.
  - inversion H. unfold line_if_data, notice_if_empty. rewrite He. by auto.
Qed.

(** What [plot_data] returns, in terms of the two frames it fetches. *)
Lemma plot_data_inv yf self app :
  value (plot_data yf self) = Ok app ->
  let g := returned (fetch Qt yf "GOOGL" (start_date_of self) (interval_combo self)) in
  let n := returned (fetch Qt yf "NVDA" (start_date_of self) (interval_combo self)) in
  let lg := line_if_data g "GOOGL" "steelblue" in
  let ln := line_if_data n "NVDA" "firebrick" in
  (empty g = true \/ has_column g "Close" = true)
  /\ (empty n = true \/ has_column n "Close" = true)
  /\ app = after_plot self g n
             (match ln with
              | Some l => plot (match lg with Some l => plot cleared l | None => cleared end) l
              | None => match lg with Some l => plot cleared l | None => cleared end
              end) lg ln
  /\ shown (plot_data yf self)
     = shown (fetch Qt yf "GOOGL" (start_date_of self) (interval_combo self))
       ++ shown (fetch Qt yf "NVDA" (start_date_of self) (interval_combo self))
       ++ notice_if_empty g "GOOGL" ++ notice_if_empty n "NVDA".
Proof.
  intros H. cbv zeta.
  destruct (main_fetch_pair yf "GOOGL" (start_date_of self) (interval_combo self))
    as (g & wg & Eg & <- & <-).
  destruct (main_fetch_pair yf "NVDA" (start_date_of self) (interval_combo self))
    as (n & wn & En & <- & <-).
  destruct (plot_symbol cleared g "GOOGL" "steelblue") as [[[ax1 lg]|e] w1] eqn:E1.
  2: { rewrite (plot_data_raise_googl yf self g wg n wn e w1) in H; done. }
  destruct (plot_symbol ax1 n "NVDA" "firebrick") as [[[ax2 ln]|e] w2] eqn:E2.
  2: { rewrite (plot_data_raise_nvda yf self g wg n wn ax1 lg w1 e w2) in H; done. }
  rewrite (plot_data_ok yf self g wg n wn ax1 lg w1 ax2 ln w2) in * by done.
  unfold value, shown in *. simpl in *. inversion H. subst app.
  apply plot_symbol_inv in E1 as (H1 & -> & -> & ->).
  apply plot_symbol_inv in E2 as (H2 & -> & -> & ->). done.
Qed.

Lemma plot_data_returns_if yf self :
  (forall symbol,
     let out := returned (fetch Qt yf symbol (start_date_of self) (interval_combo self)) in
     empty out = true \/ has_column out "Close" = true) ->
  exists app, value (plot_data yf self) = Ok app.
Proof.
  intros H.
  destruct (main_fetch_pair yf "GOOGL" (start_date_of self) (interval_combo self))
    as (g & wg & Eg & Hg & _).
  destruct (main_fetch_pair yf "NVDA" (start_date_of self) (interval_combo self))
    as (n & wn & En & Hn & _).
  pose proof (H "GOOGL") as H1. pose proof (H "NVDA") as H2. cbv zeta in H1, H2.
  rewrite <- Hg in H1. rewrite <- Hn in H2.
  eexists. erewrite plot_data_ok; [done | done | done | | ]; by apply plot_symbol_ok.
Qed.

End window.

(** X6. [plot_data] returns, whatever the price source answers (rows, no
    row, an exception), whenever the interval is one that is resampled or
    the histories of the source that have rows have a close column: an
    error of a fetch never stops the plot. *)
Theorem plot_data_returns (yf : PriceSource) (self : main.StockChartApp) :
  granularity (main.interval_combo self) <> None \/ histories_have_close yf ->
  exists app, value (main.plot_data yf self) = Ok app.
Proof.
  intros H. apply plot_data_returns_if. intros symbol. by apply qt_returned_close.
Qed.

Lemma plot_data_returns_witness :
  exists app, value (main.plot_data other_source (blank_app "Week")) = Ok app.
Proof. apply plot_data_returns. left. discriminate. Defined.

(** X7. For Day (or a name that is no granularity) the frame of a history
    without a close column comes back from the fetch as it is, and
    [plot_data] reads its close column outside any [try]: the [KeyError]
    reaches the caller of [plot_data]. *)
Theorem plot_data_key_error (yf : PriceSource) (self : main.StockChartApp)
    (symbol : string) (df : DataFrame) (t : Z) :
  symbol ∈ ["GOOGL"; "NVDA"] ->
  has_data yf symbol (start_date_of self) (main.interval_combo self) df t ->
  has_column df "Close" = false ->
  value (main.plot_data yf self) = Raise (KeyError "Close").
Proof.
  intros Hs Hd Hc.
  destruct (returned_has_data Qt yf symbol _ _ df t Hd) as [E He].
  assert (Hg : granularity (main.interval_combo self) = None).
  { destruct Hd as (_ & _ & _ & _ & H).
    destruct (granularity (main.interval_combo self)); [|done].
    rewrite H in Hc; done. }
  assert (Hn : has_column (returned (fetch Qt yf symbol (start_date_of self)
                                       (main.interval_combo self))) "Close" = false).
  { rewrite E. simpl. unfold body_of. by rewrite Hg. }
  rewrite <- E in He.
  destruct (main_fetch_pair yf "GOOGL" (start_date_of self) (main.interval_combo self))
    as (g & wg & Eg & Hrg & _).
  destruct (main_fetch_pair yf "NVDA" (start_date_of self) (main.interval_combo self))
    as (n & wn & En & Hrn & _).
  destruct (plot_symbol_cases Matplotlib.cleared g "GOOGL" "steelblue")
    as [[He1 E1]|[(He1 & Hc1 & E1)|(He1 & Hc1 & E1)]].
  3: { by eapply plot_data_raise_googl. }
  all: apply elem_of_cons in Hs as [->|Hs];
    [congruence | apply list_elem_of_singleton in Hs as ->];
    eapply plot_data_raise_nvda; [done | done | done |];
    apply plot_symbol_no_close; congruence.
Qed.

Lemma plot_data_key_error_witness :
  value (main.plot_data no_close_source (blank_app "Day")) = Raise (KeyError "Close").
Proof.
  apply (plot_data_key_error no_close_source (blank_app "Day") "GOOGL"
           {| columns := ["Open"; "Volume"];
              rows := [(19724%Z, {[ "Open" := price 138; "Volume" := price 120 ]})] |}
           19723%Z).
  - left.
  - repeat split; try reflexivity. intros H. by contradiction H.
  - reflexivity.
Defined.

Section window_invariants.
Import Calendar Python Pandas Matplotlib main.
Local Arguments has_column : simpl never.
Local Arguments empty : simpl never.

Lemma line_if_data_matches df symbol color :
  empty df = true \/ has_column df "Close" = true ->
  line_matches (line_if_data df symbol color) df.
Proof.
  intros H l. unfold line_if_data. destruct (empty df) eqn:He; [done|].
  intros E. inversion E. subst l. simpl. split; [done|].
  split; [by destruct H|]. unfold index. by rewrite length_map.
Qed.

Lemma after_plot_invariant self g n ax lg ln :
  annotations ax = [] -> line_matches lg g -> line_matches ln n ->
  window_invariant (after_plot self g n ax lg ln).
Proof.
  intros Ha Hg Hn. split; [|by split].
  unfold annotation_on_axes, after_plot. simpl.
  by destruct (negb (empty g) || negb (empty n)).
Qed.

Lemma plot_data_invariant yf self app :
  value (plot_data yf self) = Ok app -> window_invariant app /\ annotation app = None.
Proof.
  intros H. apply plot_data_inv in H as (Hg & Hn & -> & _). split; [|done].
  apply after_plot_invariant; [|by apply line_if_data_matches..].
  by destruct (line_if_data _ "NVDA" _), (line_if_data _ "GOOGL" _).
Qed.

Lemma clear_annotation_invariant self :
  window_invariant self ->
  window_invariant (clear_annotation self)
  /\ annotation (clear_annotation self) = None
  /\ annotations (ax (clear_annotation self)) = [].
Proof.
  intros [Ha Hl]. unfold clear_annotation, window_invariant, annotation_on_axes in *.
  destruct (annotation self) as [a|] eqn:E; simpl.
  - rewrite Ha. simpl. rewrite bool_decide_eq_true_2 by done. simpl.
    split; [split; [done | exact Hl] | done].
  - rewrite E. split; [split; [done | exact Hl] | done].
Qed.

Lemma clear_annotation_none self :
  annotation self = None -> clear_annotation self = self.
Proof. intros H. unfold clear_annotation. by rewrite H. Qed.

(** One line of the hover handler, from a window without annotation. *)
Lemma hover_line_invariant self line df symbol event self' found :
  window_invariant self -> annotation self = None ->
  hover_line self line df symbol event = Ok (self', found) ->
  window_invariant self'
  /\ (found = false -> self' = self)
  /\ (found = true -> annotation self' <> None).
Proof.
  intros [Ha Hl] Hn H. unfold hover_line in H.
  assert (Hsame : Ok (self, false) = Ok (self', found) ->
            window_invariant self' /\ (found = false -> self' = self)
            /\ (found = true -> annotation self' <> None)).
  { intros E. inversion E. subst. split; [by split | by split]. }
  destruct line as [l|]; [|by apply Hsame].
  destruct (negb (empty df)); [|by apply Hsame].
  destruct (ind event l) as [|i rest]; [by apply Hsame|].
  destruct (point_at df i) as [[date price]|e]; [|done]. simpl in H.
  unfold show_annotation in H. destruct (format_2f price) as [ptext|e]; [|done].
  simpl in H. inversion H. subst. clear H.
  split; [|split; [done | done]].
  split; [|done]. unfold annotation_on_axes in *. simpl. rewrite Ha, Hn. done.
Qed.

Lemma on_hover_invariant self event app :
  window_invariant self -> on_hover self event = Ok app -> window_invariant app.
Proof.
  intros Hi H. unfold on_hover in H.
  destruct (clear_annotation_invariant self Hi) as (Hc & Hn & _).
  destruct (inaxes event); [|inversion H; by subst].
  destruct (hover_line (clear_annotation self) _ _ "GOOGL" event)
    as [[self1 found1]|e] eqn:E1; [|done]. simpl in H.
  apply hover_line_invariant in E1 as (Hi1 & Hf1 & Ht1); [|done..].
  destruct found1; simpl in H.
  - inversion H. by subst.
  - rewrite (Hf1 eq_refl) in *.
    destruct (hover_line (clear_annotation self) _ _ "NVDA" event)
      as [[self2 found2]|e] eqn:E2; [|done]. simpl in H.
    apply hover_line_invariant in E2 as (Hi2 & Hf2 & Ht2); [|done..].
    destruct found2; simpl in H; inversion H; subst; [done|].
    rewrite (Hf2 eq_refl). by rewrite clear_annotation_none.
Qed.

End window_invariants.

(** X8. [plot_data] treats the two symbols independently: the window keeps
    the two frames the fetches return; a symbol whose frame has rows gets
    its line, over the dates and closes of that frame, and a symbol whose
    frame is empty gets none and a message box; the chart has exactly those
    lines, and the text "No data to display" when both frames are empty
    only. A symbol that has data is drawn over its filtered or resampled
    series whatever the source answers for the other symbol. *)
Theorem plot_data_partial_success (yf : PriceSource) (self app : main.StockChartApp) :
  value (main.plot_data yf self) = Ok app ->
  let fetched symbol :=
    fetch Qt yf symbol (start_date_of self) (main.interval_combo self) in
  let g := returned (fetched "GOOGL") in
  let n := returned (fetched "NVDA") in
  main.df_googl app = g /\ main.df_nvda app = n
  /\ main.line_googl app = line_if_data g "GOOGL" "steelblue"
  /\ main.line_nvda app = line_if_data n "NVDA" "firebrick"
  /\ Matplotlib.lines (main.ax app)
     = option_list (main.line_googl app) ++ option_list (main.line_nvda app)
  /\ Matplotlib.texts (main.ax app)
     = (if empty g && empty n
        then ["No data to display. Adjust year or interval."] else [])
  /\ shown (main.plot_data yf self)
     = shown (fetched "GOOGL") ++ shown (fetched "NVDA")
       ++ notice_if_empty g "GOOGL" ++ notice_if_empty n "NVDA"
  /\ (forall symbol df t,
        has_data yf symbol (start_date_of self) (main.interval_combo self) df t ->
        returned (fetched symbol) = body_of (main.interval_combo self) t df
        /\ empty (returned (fetched symbol)) = false).
Proof.
  intros H. cbv beta zeta. apply plot_data_inv in H as (Hg & Hn & -> & Hs).
  cbv zeta in Hs. rewrite Hs.
  set (g := returned (fetch Qt yf "GOOGL" _ _)) in *.
  set (n := returned (fetch Qt yf "NVDA" _ _)) in *.
  repeat split; try done.
  - unfold after_plot, line_if_data. simpl.
    by destruct (empty g), (empty n).
  - unfold after_plot, line_if_data. simpl.
    by destruct (empty g), (empty n).
  - by destruct (returned_has_data Qt yf symbol _ _ df t H) as [-> _].
  - destruct (returned_has_data Qt yf symbol _ _ df t H) as [-> He]. done.
Qed.

Lemma plot_data_partial_success_witness :
  exists app,
    value (main.plot_data other_source (blank_app "Day")) = Ok app
    /\ main.line_nvda app = None
    /\ Matplotlib.lines (main.ax app)
       = [line_of (filter_ge 19723 googl_history) "GOOGL" "steelblue"].
Proof.
  assert (H : exists app, value (main.plot_data other_source (blank_app "Day")) = Ok app).
  { apply plot_data_returns_if. intros symbol. apply qt_returned_close. right.
    intros s df. unfold other_source, sample_source.
    destruct (String.eqb s "NVDA"); [done|]. destruct (String.eqb s "GOOGL").
    { intros E. by inversion E. }
    destruct (String.eqb s "TSLA"); [done|]. intros E. by inversion E. }
  destruct H as [app H]. exists app. split; [exact H|].
  destruct (plot_data_partial_success other_source (blank_app "Day") app H)
    as (_ & _ & Hg & Hn & Hl & _).
  split.
  - rewrite Hn. vm_compute. reflexivity.
  - rewrite Hl, Hg, Hn. vm_compute. reflexivity.
Defined.

Section hover.
Import Calendar Python Pandas Matplotlib main.
Local Arguments has_column : simpl never.
Local Arguments empty : simpl never.
Local Arguments format_2f : simpl never.
Local Arguments strftime_Ymd : simpl never.

Lemma clear_annotation_fields self :
  line_googl (clear_annotation self) = line_googl self
  /\ line_nvda (clear_annotation self) = line_nvda self
  /\ df_googl (clear_annotation self) = df_googl self
  /\ df_nvda (clear_annotation self) = df_nvda self.
Proof. unfold clear_annotation. by destruct (annotation self). Qed.

Lemma point_at_ok df i :
  has_column df "Close" = true -> (i < length (rows df))%nat ->
  exists d c, point_at df i = Ok (d, c) /\ close_items df !! i = Some (d, c).
Proof.
  intros Hc Hi. destruct (lookup_lt_is_Some_2 (rows df) i Hi) as [[d m] Hr].
  exists d, (row_get m "Close"). unfold point_at, index, getitem, close_items.
  rewrite Hc, !list_lookup_fmap, Hr. simpl. by rewrite list_lookup_fmap, Hr.
Qed.

Lemma format_2f_numeric c : (exists x, c = Num x) -> exists s, format_2f c = Ok s.
Proof. intros [[q|] ->]; unfold format_2f; eauto. Qed.

(** The annotation of a point. *)
Lemma hover_line_hit self l df symbol event i rest :
  line_matches (Some l) df -> valid_event event -> numeric_closes df ->
  ind event l = i :: rest ->
  exists d c ptext self',
    close_items df !! i = Some (d, c) /\ format_2f c = Ok ptext
    /\ hover_line self (Some l) df symbol event = Ok (self', true)
    /\ annotation self'
       = Some {| get_text := annotation_text symbol d ptext;
                 xy := (xdata event, ydata event) |}.
Proof.
  intros Hm Hv Hnum Hi. destruct (Hm l eq_refl) as (He & Hc & Hlen).
  assert (Hlt : (i < length (rows df))%nat).
  { rewrite <- Hlen. apply Hv. rewrite Hi. left. }
  destruct (point_at_ok df i Hc Hlt) as (d & c & Hp & Hci).
  assert (Hn : exists x, c = Num x).
  { unfold close_items in Hci. rewrite list_lookup_fmap in Hci.
    destruct (rows df !! i) as [r|] eqn:Hr; [|done]. simpl in Hci. inversion Hci.
    apply Hnum. by eapply list_elem_of_lookup_2. }
  destruct (format_2f_numeric c Hn) as [ptext Hf].
  exists d, c, ptext. eexists. split; [done|]. split; [done|].
  unfold hover_line. rewrite He, Hi. simpl. rewrite Hp. simpl.
  unfold show_annotation. rewrite Hf. simpl. split; [reflexivity|]. done.
Qed.

Lemma hover_line_miss self line df symbol event :
  match line with Some l => ind event l = [] | None => True end ->
  hover_line self line df symbol event = Ok (self, false).
Proof.
  intros H. unfold hover_line. destruct line as [l|]; [|done]. rewrite H.
  by destruct (negb (empty df)).
Qed.

Lemma hover_line_fields self line df symbol event self' found :
  hover_line self line df symbol event = Ok (self', found) ->
  df_googl self' = df_googl self /\ df_nvda self' = df_nvda self
  /\ line_googl self' = line_googl self /\ line_nvda self' = line_nvda self.
Proof.
  unfold hover_line. destruct line as [l|]; [|intros H; inversion H; by subst].
  destruct (negb (empty df)); [|intros H; inversion H; by subst].
  destruct (ind event l) as [|i rest]; [intros H; inversion H; by subst|].
  destruct (point_at df i) as [[d c]|e]; [|intros H; discriminate H]. simpl.
  unfold show_annotation. destruct (format_2f c) as [t|e]; [|intros H; discriminate H].
  simpl. intros H. inversion H. by subst.
Qed.

Lemma on_hover_frames self event app :
  on_hover self event = Ok app ->
  df_googl app = df_googl self /\ df_nvda app = df_nvda self.
Proof.
  destruct (clear_annotation_fields self) as (_ & _ & Eg & En).
  assert (Hc : forall x, df_googl (clear_annotation x) = df_googl x
                         /\ df_nvda (clear_annotation x) = df_nvda x).
  { intros x. by destruct (clear_annotation_fields x) as (_ & _ & ? & ?). }
  unfold on_hover. destruct (inaxes event).
  2: { intros H. inversion H. by subst. }
  cbv zeta.
  destruct (hover_line (clear_annotation self) _ _ "GOOGL" event)
    as [[s1 b1]|e] eqn:H1; [|intros H; discriminate H]. simpl.
  apply hover_line_fields in H1 as (G1 & N1 & _).
  destruct b1; simpl.
  - intros H. inversion H. subst. split; congruence.
  - destruct (hover_line s1 _ _ "NVDA" event) as [[s2 b2]|e] eqn:H2;
      [|intros H; discriminate H]. simpl.
    apply hover_line_fields in H2 as (G2 & N2 & _).
    destruct b2; simpl; intros H; inversion H; subst.
    + split; congruence.
    + destruct (Hc s2). split; congruence.
Qed.

Lemma hover_line_returns self line df symbol event :
  line_matches line df -> valid_event event -> numeric_closes df ->
  exists self' found, hover_line self line df symbol event = Ok (self', found).
Proof.
  intros Hm Hv Hn. destruct line as [l|]; [|by exists self, false].
  destruct (ind event l) as [|i rest] eqn:Hi.
  - exists self, false. by apply hover_line_miss.
  - destruct (hover_line_hit self l df symbol event i rest Hm Hv Hn Hi)
      as (_ & _ & _ & self' & _ & _ & H & _).
    by exists self', true.
Qed.

Lemma on_hover_returns self event :
  lines_match_frames self -> valid_event event ->
  numeric_closes (df_googl self) -> numeric_closes (df_nvda self) ->
  exists app, on_hover self event = Ok app.
Proof.
  intros [Hmg Hmn] Hv Hg Hn. unfold on_hover. cbv zeta.
  destruct (inaxes event); [|by eexists].
  destruct (clear_annotation_fields self) as (Elg & Eln & Edg & Edn).
  rewrite Elg, Edg.
  destruct (hover_line_returns (clear_annotation self) (line_googl self) (df_googl self)
              "GOOGL" event Hmg Hv Hg) as (s1 & b1 & E1).
  rewrite E1. simpl. destruct b1; simpl; [by eexists|].
  apply hover_line_fields in E1 as (_ & N1 & _ & L1). rewrite N1, L1, Eln, Edn.
  destruct (hover_line_returns s1 (line_nvda self) (df_nvda self)
              "NVDA" event Hmn Hv Hn) as (s2 & b2 & E2).
  rewrite E2. simpl. destruct b2; by eexists.
Qed.

End hover.

(** X9. The chart never holds a stale annotation, and the lines the hover
    handler tests stay with the frames it reads: in a window where the
    chart holds the annotation of the window and no other, and each line
    goes with a frame that has rows and a close column and a point per row,
    the same holds after [plot_data] (which leaves no annotation), after
    [on_hover] and after [clear_annotation] (which leaves none either); it
    holds in the window [__init__] builds. *)
Theorem window_invariant_kept (yf : PriceSource) (self : main.StockChartApp)
    (event : Matplotlib.MouseEvent) :
  window_invariant self ->
  (forall app, value (main.plot_data yf self) = Ok app ->
     window_invariant app /\ main.annotation app = None)
  /\ (forall app, main.on_hover self event = Ok app -> window_invariant app)
  /\ (window_invariant (main.clear_annotation self)
      /\ main.annotation (main.clear_annotation self) = None
      /\ Matplotlib.annotations (main.ax (main.clear_annotation self)) = [])
  /\ (forall now_year app,
        value (main.StockChartApp_new yf now_year) = Ok app -> window_invariant app).
Proof.
  intros Hi. split; [|split; [|split]].
  - intros app. apply plot_data_invariant.
  - intros app. by apply on_hover_invariant.
  - by apply clear_annotation_invariant.
  - intros now_year app H. unfold main.StockChartApp_new in H.
    by apply plot_data_invariant in H as [? _].
Qed.

Section numeric.
Import Calendar Python Pandas Matplotlib main.

Lemma numeric_closesb_spec df : numeric_closesb df = true -> numeric_closes df.
Proof.
  unfold numeric_closesb, numeric_closes. rewrite forallb_forall. intros H r Hr.
  apply list_elem_of_In in Hr. specialize (H r Hr).
  destruct (row_get r.2 "Close") as [x|]; [by exists x | discriminate H].
Qed.

Lemma numeric_closes_filter_ge t df : numeric_closes df -> numeric_closes (filter_ge t df).
Proof.
  intros H r Hr. apply H. unfold filter_ge in Hr. simpl in Hr.
  apply list_elem_of_In, filter_In in Hr as [Hr _]. by apply list_elem_of_In.
Qed.

Lemma last_valid_numeric cs :
  (forall c, c ∈ cs -> exists x, c = Num x) -> exists x, last_valid cs = Num x.
Proof.
  intros H. unfold last_valid.
  destruct (List.filter notna (rev cs)) as [|c l] eqn:E; [by exists None|].
  apply H. apply list_elem_of_In, in_rev.
  assert (Hc : In c (List.filter notna (rev cs))) by (rewrite E; by left).
  by apply filter_In in Hc as [Hc _].
Qed.

Lemma numeric_closes_resampled o df :
  numeric_closes df -> numeric_closes (resampled o df).
Proof.
  intros H r Hr. unfold resampled, to_frame, resample_last_items in Hr. simpl in Hr.
  rewrite map_map in Hr. apply list_elem_of_In, in_map_iff in Hr as (L & <- & _).
  simpl. unfold row_get. rewrite lookup_singleton_eq. simpl.
  apply last_valid_numeric. intros c Hc. unfold group in Hc.
  apply list_elem_of_In, in_map_iff in Hc as (p & <- & Hp).
  apply filter_In in Hp as [Hp _]. unfold close_items in Hp.
  apply in_map_iff in Hp as (r & <- & Hr). simpl. apply H. by apply list_elem_of_In.
Qed.

Lemma returned_numeric yf symbol start_date interval :
  numeric_source yf ->
  numeric_closes (returned (fetch Qt yf symbol start_date interval)).
Proof.
  intros H.
  destruct (fetch_cases Qt yf symbol start_date interval)
    as [(df & t & Hd)|(msgs & E & _)].
  - destruct (returned_has_data Qt yf symbol start_date interval df t Hd) as [-> _].
    destruct Hd as (Hy & _). simpl. unfold body_of.
    destruct (granularity interval).
    + apply numeric_closes_resampled, numeric_closes_filter_ge. by apply (H symbol).
    + apply numeric_closes_filter_ge. by apply (H symbol).
  - unfold returned. rewrite E. simpl. intros r Hr. by apply elem_of_nil in Hr.
Qed.

Lemma sample_source_numeric : numeric_source sample_source.
Proof.
  intros s df. unfold sample_source.
  destruct (String.eqb s "GOOGL").
  { intros E. inversion E. by apply numeric_closesb_spec. }
  destruct (String.eqb s "NVDA").
  { intros E. inversion E. by apply numeric_closesb_spec. }
  destruct (String.eqb s "TSLA"); [done|].
  intros E. inversion E. by apply numeric_closesb_spec.
Qed.

Lemma plotted_app_invariant : window_invariant plotted_app.
Proof.
  split; [reflexivity|]. split; intros l H; [|discriminate H].
  inversion H. by vm_compute.
Qed.

Lemma hover_event_valid : valid_event hover_event.
Proof.
  intros l i. unfold hover_event. simpl.
  destruct (get_xdata l); [by intros ?%elem_of_nil|].
  intros ->%list_elem_of_singleton. simpl. lia.
Qed.

Lemma sample_source_has_close : histories_have_close sample_source.
Proof.
  intros s df. unfold sample_source.
  destruct (String.eqb s "GOOGL"); [intros E; by inversion E|].
  destruct (String.eqb s "NVDA"); [intros E; by inversion E|].
  destruct (String.eqb s "TSLA"); [done|].
  intros E. inversion E. subst. done.
Qed.

Lemma on_hover_plotted_app : on_hover plotted_app hover_event = Ok hovered_app.
Proof. vm_compute. reflexivity. Qed.

Lemma hovered_app_invariant : window_invariant hovered_app.
Proof.
  apply (on_hover_invariant plotted_app hover_event);
    [apply plotted_app_invariant | apply on_hover_plotted_app].
Qed.

End numeric.

Lemma window_invariant_kept_witness :
  main.annotation hovered_app
  = Some {| Matplotlib.get_text := annotation_text "GOOGL" 19724 "139.00";
            Matplotlib.xy := (inject_Z 19724, inject_Z 139) |}
  /\ Matplotlib.annotations (main.ax hovered_app)
     = [{| Matplotlib.get_text := annotation_text "GOOGL" 19724 "139.00";
           Matplotlib.xy := (inject_Z 19724, inject_Z 139) |}]
  /\ Matplotlib.lines (main.ax hovered_app)
     = [line_of (filter_ge 19723 googl_history) "GOOGL" "steelblue"]
  /\ window_invariant (main.clear_annotation hovered_app)
  /\ main.annotation (main.clear_annotation hovered_app) = None
  /\ Matplotlib.annotations (main.ax (main.clear_annotation hovered_app)) = []
  /\ (exists app,
        value (main.plot_data sample_source hovered_app) = Ok app
        /\ window_invariant app /\ main.annotation app = None)
  /\ (exists app,
        main.on_hover hovered_app hover_event = Ok app /\ window_invariant app).
Proof.
  destruct (window_invariant_kept sample_source hovered_app hover_event
              hovered_app_invariant) as (Hp & Hh & (H1 & H2 & H3) & _).
  split; [vm_compute; reflexivity|]. split; [vm_compute; reflexivity|].
  split; [vm_compute; reflexivity|].
  split; [exact H1|]. split; [exact H2|]. split; [exact H3|]. split.
  - destruct (plot_data_returns_if sample_source hovered_app) as [app E].
    { intros symbol. apply qt_returned_close. right. apply sample_source_has_close. }
    exists app. split; [exact E|]. apply Hp. exact E.
  - destruct (on_hover_returns hovered_app hover_event) as [app E].
    + apply hovered_app_invariant.
    + apply hover_event_valid.
    + apply numeric_closesb_spec. vm_compute. reflexivity.
    + apply numeric_closesb_spec. vm_compute. reflexivity.
    + exists app. split; [exact E|]. apply Hh. exact E.
Defined.

(** X10. In a window that keeps its invariant, for an event whose indices
    are indices of points and frames whose closes are numbers, [on_hover]
    returns: no index is out of bounds and no close is missing. Outside the
    axes it leaves no annotation. Inside, a point of the GOOGL line under
    the cursor is annotated, before any point of the NVDA line, with its own
    date and close; the annotation of the window, if any, always describes
    a row of one of the two frames. *)
Theorem on_hover_annotates_a_plotted_point (self : main.StockChartApp)
    (event : Matplotlib.MouseEvent) :
  window_invariant self ->
  valid_event event ->
  numeric_closes (main.df_googl self) ->
  numeric_closes (main.df_nvda self) ->
  exists app,
    main.on_hover self event = Ok app
    /\ (Matplotlib.inaxes event = false -> main.annotation app = None)
    /\ (main.annotation app = None
        \/ exists symbol df i d c ptext,
             (symbol = "GOOGL" /\ df = main.df_googl self
              \/ symbol = "NVDA" /\ df = main.df_nvda self)
             /\ close_items df !! i = Some (d, c) /\ format_2f c = Ok ptext
             /\ main.annotation app
                = Some {| Matplotlib.get_text := annotation_text symbol d ptext;
                          Matplotlib.xy := (Matplotlib.xdata event,
                                            Matplotlib.ydata event) |})
    /\ (Matplotlib.inaxes event = true ->
        forall l i rest,
          main.line_googl self = Some l -> Matplotlib.ind event l = i :: rest ->
          exists d c ptext,
            close_items (main.df_googl self) !! i = Some (d, c)
            /\ format_2f c = Ok ptext
            /\ main.annotation app
               = Some {| Matplotlib.get_text := annotation_text "GOOGL" d ptext;
                         Matplotlib.xy := (Matplotlib.xdata event,
                                           Matplotlib.ydata event) |}).
Proof.
  intros Hi Hv Hg Hn. unfold main.on_hover. cbv zeta.
  destruct (clear_annotation_invariant self Hi) as (Hc & Hnone & _).
  destruct (clear_annotation_fields self) as (Elg & Eln & Edg & Edn).
  destruct Hi as [_ [Hmg Hmn]].
  destruct (Matplotlib.inaxes event) eqn:Hin.
  2: { eexists. split; [done|]. split; [done|]. split; [by left | done]. }
  rewrite Elg, Edg.
  destruct (main.line_googl self) as [lg|] eqn:Hlg.
  - destruct (Matplotlib.ind event lg) as [|i rest] eqn:Hig.
    + rewrite (hover_line_miss _ (Some lg)) by done. simpl. rewrite Eln, Edn.
      destruct (main.line_nvda self) as [ln|] eqn:Hln.
      * destruct (Matplotlib.ind event ln) as [|j rest] eqn:Hin'.
        -- rewrite (hover_line_miss _ (Some ln)) by done. simpl.
           rewrite clear_annotation_none by done.
           eexists. split; [done|]. split; [done|]. split; [by left|].
           intros _ l i rest E. inversion E. subst. congruence.
        -- destruct (hover_line_hit (main.clear_annotation self) ln (main.df_nvda self)
                       "NVDA" event j rest) as (d & c & pt & self' & H1 & H2 & -> & H4);
             [done..|]. simpl.
           eexists. split; [done|]. split; [done|]. split.
           ++ right. exists "NVDA", (main.df_nvda self), j, d, c, pt. by auto.
           ++ intros _ l i rest' E. inversion E. subst. congruence.
      * rewrite (hover_line_miss _ None) by done. simpl.
        rewrite clear_annotation_none by done.
        eexists. split; [done|]. split; [done|]. split; [by left|].
        intros _ l i rest E. inversion E. subst. congruence.
    + destruct (hover_line_hit (main.clear_annotation self) lg (main.df_googl self)
                  "GOOGL" event i rest) as (d & c & pt & self' & H1 & H2 & -> & H4);
        [done..|]. simpl.
      eexists. split; [done|]. split; [done|]. split.
      * right. exists "GOOGL", (main.df_googl self), i, d, c, pt. by auto.
      * intros _ l i' rest' E Hi'. inversion E. subst. rewrite Hig in Hi'.
        inversion Hi'. subst. by exists d, c, pt.
  - rewrite (hover_line_miss _ None) by done. simpl. rewrite Eln, Edn.
    destruct (main.line_nvda self) as [ln|] eqn:Hln.
    + destruct (Matplotlib.ind event ln) as [|j rest] eqn:Hin'.
      * rewrite (hover_line_miss _ (Some ln)) by done. simpl.
        rewrite clear_annotation_none by done.
        eexists. split; [done|]. split; [done|]. split; [by left | done].
      * destruct (hover_line_hit (main.clear_annotation self) ln (main.df_nvda self)
                    "NVDA" event j rest) as (d & c & pt & self' & H1 & H2 & -> & H4);
          [done..|]. simpl.
        eexists. split; [done|]. split; [done|]. split; [|done].
        right. exists "NVDA", (main.df_nvda self), j, d, c, pt. by auto.
    + rewrite (hover_line_miss _ None) by done. simpl.
      rewrite clear_annotation_none by done.
      eexists. split; [done|]. split; [done|]. split; [by left | done].
Qed.

Lemma on_hover_annotates_a_plotted_point_witness :
  exists app,
    main.on_hover plotted_app hover_event = Ok app
    /\ main.annotation app
       = Some {| Matplotlib.get_text := annotation_text "GOOGL" 19724 "139.00";
                 Matplotlib.xy := (inject_Z 19724, inject_Z 139) |}.
Proof.
  destruct (on_hover_annotates_a_plotted_point plotted_app hover_event
              plotted_app_invariant hover_event_valid)
    as (app & H & _ & _ & Hg).
  - by apply numeric_closesb_spec.
  - by apply numeric_closesb_spec.
  - exists app. split; [exact H|].
    destruct (Hg eq_refl _ O [] eq_refl eq_refl) as (d & c & ptext & H1 & H2 & ->).
    vm_compute in H1. inversion H1. subst d c.
    vm_compute in H2. inversion H2. reflexivity.
Defined.

(** X11. Hovering over a chart that [plot_data] has drawn does not raise:
    when the closes of the source are numbers, every window [plot_data]
    returns, from any window, handles any event whose indices are indices
    of points, and the window it gives keeps the invariant. *)
Theorem hover_after_plot (yf : PriceSource) (self app : main.StockChartApp)
    (event : Matplotlib.MouseEvent) :
  numeric_source yf ->
  value (main.plot_data yf self) = Ok app ->
  valid_event event ->
  exists app',
    main.on_hover app event = Ok app' /\ window_invariant app'
    /\ main.df_googl app' = main.df_googl app
    /\ main.df_nvda app' = main.df_nvda app.
Proof.
  intros Hs H Hv.
  destruct (plot_data_invariant yf self app H) as [Hi _].
  pose proof (plot_data_inv yf self app H) as Hp. cbv zeta in Hp.
  destruct Hp as (_ & _ & E & _).
  assert (Hg : numeric_closes (main.df_googl app))
    by (rewrite E; simpl; by apply returned_numeric).
  assert (Hn : numeric_closes (main.df_nvda app))
    by (rewrite E; simpl; by apply returned_numeric).
  clear E.
  destruct (on_hover_returns app event (proj2 Hi) Hv Hg Hn) as (app' & H').
  exists app'. split; [exact H'|]. split; [by apply (on_hover_invariant app event)|].
  by apply on_hover_frames in H'.
Qed.

Lemma hover_after_plot_witness :
  exists app app',
    value (main.plot_data sample_source (blank_app "Month")) = Ok app
    /\ main.on_hover app hover_event = Ok app' /\ window_invariant app'.
Proof.
  destruct (plot_data_returns_if sample_source (blank_app "Month")) as [app H].
  { intros symbol. apply qt_returned_close. left. discriminate. }
  destruct (hover_after_plot sample_source (blank_app "Month") app hover_event
              sample_source_numeric H hover_event_valid) as (app' & H1 & H2 & _).
  exists app, app'. split; [exact H|]. split; [exact H1 | exact H2].
Defined.

(** ** The end bound of the script *)

Section end_bound.
Import Calendar Python Pandas.
Local Open Scope Z_scope.

Lemma filter_twice {A} (p q : A -> bool) (l : list A) :
  List.filter p (List.filter q l) = List.filter (fun x => q x && p x) l.
Proof.
  induction l as [|x l IH]; simpl; [done|]. destruct (q x); simpl; [|done].
  destruct (p x); by rewrite IH.
Qed.

Lemma strongly_sorted_filter (p : Z -> bool) l :
  StronglySorted Z.lt l -> StronglySorted Z.lt (List.filter p l).
Proof.
  induction 1 as [|x l Hs IH Hall]; simpl; [constructor|].
  destruct (p x); [|done]. constructor; [done|].
  rewrite Forall_forall in *. intros y Hy. apply Hall.
  apply list_elem_of_In, filter_In in Hy as [Hy _]. by apply list_elem_of_In.
Qed.

Lemma sorted_same_elements (l k : list Z) :
  StronglySorted Z.lt l -> StronglySorted Z.lt k -> (forall x, x ∈ l <-> x ∈ k) -> l = k.
Proof.
  intros Hl Hk H. apply (StronglySorted_unique_strong Z.lt); [|done..|].
  - intros; lia.
  - apply NoDup_Permutation; [by apply ascending_no_dup..|done].
Qed.

(** The rows of a bucket are dated on or before its label. *)
Lemma group_filter_le o L l e :
  L <= e -> group o L (up_to e l) = group o L l.
Proof.
  intros H. unfold group, up_to. f_equal. rewrite filter_twice. apply filter_ext.
  intros p. destruct (rollforward o p.1 =? L) eqn:E; [|by rewrite andb_false_r].
  rewrite andb_true_r. apply Z.eqb_eq in E. apply Z.leb_le.
  pose proof (rollforward_ge o p.1). lia.
Qed.

Lemma group_nonempty o L l :
  notna (last_valid (group o L l)) = true ->
  exists d c, (d, c) ∈ l /\ rollforward o d = L.
Proof.
  intros H. destruct (last_valid_elem (group o L l)) as [E|E].
  - rewrite E in H. discriminate H.
  - apply group_elem in E as (d & Hd & Hr). eauto.
Qed.

Lemma elem_of_up_to e l d c : (d, c) ∈ up_to e l <-> (d, c) ∈ l /\ d <= e.
Proof. unfold up_to. rewrite !list_elem_of_In, filter_In. simpl. by rewrite Z.leb_le. Qed.

Lemma fst_elem_of (l : list (Z * cell)) d c : (d, c) ∈ l -> d ∈ map fst l.
Proof.
  intros H. apply list_elem_of_In, in_map_iff. exists (d, c).
  split; [done | by apply list_elem_of_In].
Qed.

(** When [e] is a bin edge, cutting the resampled points at [e] and
    resampling the rows cut at [e] give the same valued points. *)
Lemma resample_filter_edge o l e :
  rollforward o e = e ->
  valued (up_to e (resample_last_items o l)) = valued (resample_last_items o (up_to e l)).
Proof.
  intros He. unfold valued. unfold up_to at 1. unfold resample_last_items.
  rewrite !filter_map_swap. simpl. rewrite filter_twice.
  set (Q := fun L => (L <=? e) && notna (last_valid (group o L l))).
  set (Q' := fun L => notna (last_valid (group o L (up_to e l)))).
  assert (E : List.filter Q (time_bins o (map fst l))
              = List.filter Q' (time_bins o (map fst (up_to e l)))).
  { apply sorted_same_elements; [by apply strongly_sorted_filter, time_bins_sorted..|].
    intros L. rewrite !list_elem_of_In, !filter_In, <- !list_elem_of_In. unfold Q, Q'.
    rewrite andb_true_iff, Z.leb_le. split.
    - intros (HL & Hle & Hn). rewrite (group_filter_le o L l e Hle). split; [|done].
      apply group_nonempty in Hn as (d & c & Hd & Hr). subst L.
      apply time_bins_covers. apply (fst_elem_of _ d c). apply elem_of_up_to.
      split; [done|]. pose proof (rollforward_ge o d). lia.
    - intros (HL & Hn). pose proof Hn as Hn'.
      apply group_nonempty in Hn as (d & c & Hd & Hr).
      apply elem_of_up_to in Hd as [Hd Hde].
      assert (Hle : L <= e). { subst L. rewrite <- He. by apply rollforward_mono. }
      split; [|split; [done|]].
      + subst L. apply time_bins_covers. by apply (fst_elem_of _ d c).
      + by rewrite <- (group_filter_le o L l e Hle). }
  rewrite E. apply map_ext_in. intros L HL. apply filter_In in HL as [_ HL].
  unfold Q' in HL. do 2 f_equal. symmetry. apply group_filter_le.
  apply group_nonempty in HL as (d & c & Hd & Hr).
  apply elem_of_up_to in Hd as [_ Hde].
  subst L. rewrite <- He. by apply rollforward_mono.
Qed.

(** The last day of a year is the end of its month, its quarter and the
    year. *)
Lemma year_end_is_edge o y :
  o <> Week -> rollforward o (days_from_civil y 12 31) = days_from_civil y 12 31.
Proof.
  intros Ho.
  assert (Hm : civil_month (days_from_civil y 12 31) = 12 * y + 11).
  { rewrite civil_month_days_from_civil; [lia | lia | rewrite days_in_december; lia]. }
  assert (Hd : days_from_civil y 12 31 = civil_month_start (12 * y + 12) - 1).
  { pose proof (days_in_december y) as H. unfold days_in_month in H.
    unfold days_from_civil. lia. }
  destruct o; [congruence|..]; unfold rollforward, period_end; rewrite Hm;
    rewrite Hd; do 2 f_equal.
  - rewrite Z.div_1_r. lia.
  - replace (12 * y + 11) with (2 + (4 * y + 3) * 3) by lia.
    rewrite Z.div_add by lia. change (2 / 3) with 0. lia.
  - replace (12 * y + 11) with (11 + y * 12) by lia.
    rewrite Z.div_add by lia. change (11 / 12) with 0. lia.
Qed.

Lemma Timestamp_start_date y :
  1000 <= y <= 9999 ->
  Timestamp (main_st_good.start_date_str y) = Some (days_from_civil y 1 1).
Proof.
  intros H. apply (Timestamp_Ymd y 1 1); [done | lia |].
  pose proof (days_in_month_bounds y 1). lia.
Qed.

Lemma Timestamp_end_date y :
  1000 <= y <= 9999 ->
  Timestamp (main_st_good.end_date_str y) = Some (days_from_civil y 12 31).
Proof.
  intros H. apply (Timestamp_Ymd y 12 31); [done | lia |].
  rewrite days_in_december. lia.
Qed.

Lemma close_items_range t e df :
  up_to e (close_items (filter_ge t df))
  = close_items {| columns := columns df;
                   rows := List.filter (fun r => (t <=? r.1) && (r.1 <=? e)) (rows df) |}.
Proof.
  unfold up_to, close_items, filter_ge. simpl.
  by rewrite filter_map_swap, filter_twice.
Qed.

Lemma st_close_items_has_data yf symbol start_date interval df t :
  has_data yf symbol start_date interval df t -> has_column df "Close" = true ->
  close_items (returned (fetch Streamlit yf symbol start_date interval))
  = close_items (body_of interval t df).
Proof.
  intros Hd Hc.
  destruct (returned_has_data Streamlit yf symbol start_date interval df t Hd) as [-> _].
  simpl. rewrite close_items_setitem by done. unfold main_st_good.ensure_close.
  assert (H : has_column (body_of interval t df) "Close" = true).
  { unfold body_of. destruct (granularity interval); [reflexivity|].
    by rewrite filter_ge_has_column. }
  by rewrite H.
Qed.

End end_bound.

(** X12. For Day, Month, Quarter and Year the end bound of the script acts
    as a filter on the daily rows: the points with a value that remain of
    the series fetched for a symbol once the script has cut it at the last
    day of the end year are those of the history cut to the dates from the
    first of January of the start year to that day, resampled (left as it
    is for Day). The end of a year is the end of a month, of a quarter and
    of a year, not of a week. *)
Theorem year_range_is_a_row_filter (yf : PriceSource) (symbol interval : string)
    (start_year end_year : Z) (df : DataFrame) :
  (1000 <= start_year <= 9999)%Z -> (1000 <= end_year <= 9999)%Z ->
  granularity interval <> Some Week ->
  yf symbol = Ok df -> has_column df "Close" = true ->
  let t := days_from_civil start_year 1 1 in
  let e := days_from_civil end_year 12 31 in
  let out := returned (main_st_good.fetch_and_resample_data yf symbol
                         (main_st_good.start_date_str start_year) interval) in
  valued (up_to e (close_items out)) = valued (range_series interval t e df).
Proof.
  intros Hs He Hw Hy Hc. cbv zeta.
  set (t := days_from_civil start_year 1 1). set (e := days_from_civil end_year 12 31).
  pose proof (Timestamp_start_date start_year Hs) as Ht. fold t in Ht.
  change (main_st_good.fetch_and_resample_data yf symbol
            (main_st_good.start_date_str start_year) interval)
    with (fetch Streamlit yf symbol (main_st_good.start_date_str start_year) interval).
  destruct (empty df) eqn:Hne.
  { unfold returned.
    rewrite (fetch_unknown Streamlit yf symbol _ interval) by (by exists df). simpl.
    pose proof (empty_no_rows df "Close" Hc Hne) as Hr.
    unfold range_series, resample_of_range. rewrite Hr. simpl.
    by destruct (granularity interval). }
  destruct (empty (filter_ge t df)) eqn:Hf.
  { unfold returned.
    rewrite (fetch_out_of_range Streamlit yf symbol _ interval) by (by exists df, t).
    simpl. assert (Hc' : has_column (filter_ge t df) "Close" = true)
      by (by rewrite filter_ge_has_column).
    pose proof (empty_no_rows (filter_ge t df) "Close" Hc' Hf) as Hr.
    pose proof (close_items_range t e df) as E. unfold close_items at 1 in E.
    rewrite Hr in E. simpl in E.
    unfold range_series, resample_of_range. rewrite <- E. simpl.
    by destruct (granularity interval). }
  rewrite (st_close_items_has_data yf symbol _ interval df t) by done.
  unfold body_of, range_series, resample_of_range.
  destruct (granularity interval) as [o|] eqn:Hg.
  - rewrite close_items_resampled, <- close_items_range.
    apply resample_filter_edge. apply year_end_is_edge. congruence.
  - by rewrite close_items_range.
Qed.

Lemma year_range_is_a_row_filter_witness :
  valued (up_to 20088
            (close_items (returned (main_st_good.fetch_and_resample_data sample_source
                                      "GOOGL" "2024-01-01" "Month"))))
  = valued (range_series "Month" 19723 20088 googl_history).
Proof.
  apply (year_range_is_a_row_filter sample_source "GOOGL" "Month" 2024 2024 googl_history);
    [lia | lia | discriminate | reflexivity | reflexivity].
Defined.

(** ** The script of main_st_good.py *)

Section streamlit_script.
Import Calendar Python Pandas main_st_good.
Local Open Scope Z_scope.
Local Arguments has_column : simpl never.
Local Arguments empty : simpl never.

Lemma st_fetch_pair yf symbol start_date interval :
  exists out w,
    fetch_and_resample_data yf symbol start_date interval = (Ok out, w)
    /\ out = returned (fetch_and_resample_data yf symbol start_date interval)
    /\ w = shown (fetch_and_resample_data yf symbol start_date interval).
Proof.
  destruct (fetch_returns Streamlit yf symbol start_date interval) as [df E].
  unfold returned, shown, value, fetch in *.
  destruct (fetch_and_resample_data yf symbol start_date interval) as [r w].
  simpl in *. subst. by exists df, w.
Qed.

Lemma assign_nil c rs mask values : assign c rs mask values = [] -> rs = [].
Proof.
  destruct rs as [|r rs]; [done|]. destruct mask as [|[] mask]; simpl; [done| |done].
  by destruct values.
Qed.

Lemma empty_with_MA200 df symbol :
  empty df = false -> empty (with_MA200 df symbol) = false.
Proof.
  intros H. apply empty_false_iff in H as [Hc Hr]. apply empty_false_iff.
  unfold with_MA200, loc_set. simpl. split.
  - destruct (has_column df "MA200"); [done|]. by destruct (columns df).
  - intros E. by apply assign_nil in E.
Qed.

Lemma has_MA200 df symbol : has_column (with_MA200 df symbol) "MA200" = true.
Proof.
  apply has_column_elem. unfold with_MA200, loc_set. simpl.
  destruct (has_column df "MA200") eqn:E; [by apply has_column_elem|].
  apply elem_of_app. right. by apply list_elem_of_singleton.
Qed.

Lemma with_MA200_all_shape df :
  plottable df -> empty df = false ->
  plottable (with_MA200_all df) /\ empty (with_MA200_all df) = false
  /\ has_column (with_MA200_all df) "MA200" = true
  /\ points (with_MA200_all df) = points df.
Proof.
  intros Hp He. unfold with_MA200_all. split; [by do 3 apply plottable_with_MA200|].
  split; [by do 3 apply empty_with_MA200|]. split; [apply has_MA200|].
  by rewrite !points_with_MA200.
Qed.

(** The frame the script plots, with what the fetches show. *)
Lemma combined_df_run yf show_ma start_year end_date interval t e :
  Timestamp (start_date_str start_year) = Some t ->
  Timestamp end_date = Some e ->
  exists X,
    (empty X = true \/ plottable X)
    /\ points X
       = List.filter (fun p => p.1.1 <=? e)
           (points (returned (st_fetched yf start_year interval "GOOGL"))
            ++ points (returned (st_fetched yf start_year interval "NVDA"))
            ++ points (returned (st_fetched yf start_year interval "TSLA")))
    /\ combined_df yf show_ma (start_date_str start_year) end_date interval
       = (Ok (if show_ma && String.eqb interval "Day" && negb (empty X)
              then with_MA200_all X else X),
          st_fetch_messages yf start_year interval).
Proof.
  intros Ht He. unfold st_fetch_messages, st_fetched.
  set (sd := start_date_str start_year) in *.
  destruct (combined_df_points yf false sd end_date interval t e Ht He)
    as (X & EX & HX).
  cbv zeta in HX. exists X.
  rewrite combined_df_value in EX. cbv beta zeta in EX.
  unfold combined_df.
  destruct (st_fetch_pair yf "GOOGL" sd interval) as (g & wg & Eg & Hg & Hwg).
  destruct (st_fetch_pair yf "NVDA" sd interval) as (n & wn & En & Hn & Hwn).
  destruct (st_fetch_pair yf "TSLA" sd interval) as (t' & wt & Et & Ht' & Hwt).
  rewrite <- Hg, <- Hn, <- Ht', <- Hwg, <- Hwn, <- Hwt in *.
  rewrite Eg. simpl. rewrite En. simpl. rewrite Et. simpl.
  destruct (filter_range (combine g n t') sd end_date) as [X'|err] eqn:EF;
    [|discriminate EX].
  simpl in EX. unfold moving_average in EX. simpl in EX. inversion EX. subst X'.
  assert (Hshape : empty X = true \/ plottable X).
  { destruct (filter_range_ok (combine g n t') sd end_date t e Ht He)
      as (X' & EF' & Hcols & _).
    rewrite EF in EF'. inversion EF'. subst X'.
    assert (HC : combine g n t' = DataFrame_new \/ plottable (combine g n t')).
    { apply combine_shape; [rewrite Hg | rewrite Hn | rewrite Ht'];
        apply returned_plottable. }
    destruct HC as [E|[H1 H2]].
    - left. unfold empty. by rewrite Hcols, E.
    - right. unfold plottable, has_column in *. by rewrite Hcols. }
  split; [exact Hshape|]. split; [exact HX|]. simpl.
  destruct (show_ma && String.eqb interval "Day" && negb (empty X)) eqn:Ec.
  - apply andb_prop in Ec as [Ec Hne]. apply andb_prop in Ec as [-> Ec].
    apply String.eqb_eq in Ec as ->. apply negb_true_iff in Hne.
    destruct Hshape as [Hs|Hs]; [congruence|].
    rewrite (moving_average_day X Hs Hne). simpl. by rewrite !app_nil_r.
  - rewrite (moving_average_off X show_ma interval Ec). simpl. by rewrite !app_nil_r.
Qed.

Lemma add_ma_trace_ok df fig symbol :
  plottable df -> has_column df "MA200" = true ->
  add_ma_trace df fig symbol
  = Ok {| fig_title := fig_title fig; fig_data := fig_data fig;
          fig_traces := fig_traces fig ++ [ma_trace df symbol] |}.
Proof.
  intros [Hs _] Hm. unfold add_ma_trace, eq_mask, getitem. rewrite Hs. simpl.
  assert (Hc : forall mask, has_column (df_mask df mask) "MA200" = true) by done.
  rewrite !Hc. simpl. do 3 f_equal. unfold ma_trace, index, series_of. simpl.
  rewrite !map_map. simpl.
  assert (E : select (rows df)
                (map (fun x : Z * gmap string cell =>
                        match row_get x.2 "Symbol" with
                        | Num _ => false
                        | Str s' => String.eqb s' symbol
                        end) (rows df))
              = List.filter (symbol_row symbol) (rows df)).
  { by rewrite <- select_map. }
  by rewrite E.
Qed.

(** The chart of a frame. *)
Lemma render_run out show_ma start_year name :
  (empty out = true
   \/ (plottable out
       /\ (show_ma && String.eqb name "Day" = true -> has_column out "MA200" = true))) ->
  render out show_ma start_year name
  = if empty out then (Ok None, [no_chart_info])
    else (Ok (Some {| fig_title := chart_title name start_year; fig_data := out;
                      fig_traces := if show_ma && String.eqb name "Day"
                                    then map (ma_trace out) ["GOOGL"; "NVDA"; "TSLA"]
                                    else [] |}), []).
Proof.
  intros H. unfold render. destruct (empty out) eqn:He; simpl; [done|].
  destruct H as [H|[Hp Hm]]; [discriminate H|].
  destruct (show_ma && String.eqb name "Day") eqn:Ec; simpl; [|done].
  specialize (Hm eq_refl).
  rewrite (add_ma_trace_ok out _ "GOOGL" Hp Hm). simpl.
  rewrite (add_ma_trace_ok out _ "NVDA" Hp Hm). simpl.
  by rewrite (add_ma_trace_ok out _ "TSLA" Hp Hm).
Qed.

Lemma selectable_cases name :
  selectable name <-> name ∈ ["Day"; "Week"; "Month"; "Quarter"; "Year"].
Proof. done. Qed.

Lemma yfinance_interval_code_ok name :
  selectable name -> exists code, yfinance_interval_code name = Ok code.
Proof.
  intros H. apply selectable_cases in H.
  repeat (apply elem_of_cons in H as [->|H]); [by eexists..|by apply elem_of_nil in H].
Qed.

Lemma yfinance_interval_code_raises name :
  ~ selectable name -> yfinance_interval_code name = Raise (KeyError name).
Proof.
  intros H. unfold yfinance_interval_code, interval_options. cbn [List.find fst].
  assert (Hn : forall s, s ∈ ["Day"; "Week"; "Month"; "Quarter"; "Year"] ->
                         String.eqb s name = false).
  { intros s Hs. apply String.eqb_neq. intros ->. by apply H, selectable_cases. }
  rewrite !Hn; [done|set_solver..].
Qed.

(** The script, for four-digit years and a name of the select box. *)
Lemma script_run yf show_ma start_year end_year name :
  1000 <= start_year <= 9999 -> 1000 <= end_year <= 9999 -> selectable name ->
  exists X,
    (empty X = true \/ plottable X)
    /\ points X
       = List.filter (fun p => p.1.1 <=? days_from_civil end_year 12 31)
           (points (returned (st_fetched yf start_year name "GOOGL"))
            ++ points (returned (st_fetched yf start_year name "NVDA"))
            ++ points (returned (st_fetched yf start_year name "TSLA")))
    /\ let out := if show_ma && String.eqb name "Day" && negb (empty X)
                  then with_MA200_all X else X in
       empty out = empty X /\ points out = points X
       /\ script yf show_ma start_year end_year name
          = (Ok (out,
                 if empty out then None
                 else Some {| fig_title := chart_title name start_year; fig_data := out;
                              fig_traces :=
                                if show_ma && String.eqb name "Day"
                                then map (ma_trace out) ["GOOGL"; "NVDA"; "TSLA"]
                                else [] |}),
             st_fetch_messages yf start_year name
             ++ if empty out then [no_chart_info] else []).
Proof.
  intros Hs He Hn.
  destruct (combined_df_run yf show_ma start_year (end_date_str end_year) name
              _ _ (Timestamp_start_date start_year Hs) (Timestamp_end_date end_year He))
    as (X & Hshape & Hpts & Erun).
  exists X. split; [exact Hshape|]. split; [exact Hpts|]. cbv zeta.
  set (out := if show_ma && String.eqb name "Day" && negb (empty X)
              then with_MA200_all X else X) in *.
  assert (Hout : empty out = empty X /\ points out = points X
                 /\ (empty out = true
                     \/ (plottable out
                         /\ (show_ma && String.eqb name "Day" = true ->
                             has_column out "MA200" = true)))).
  { unfold out. destruct (show_ma && String.eqb name "Day") eqn:Ec; simpl.
    - destruct (empty X) eqn:HeX; simpl; [by auto|].
      destruct Hshape as [Hx|Hx]; [discriminate Hx|].
      destruct (with_MA200_all_shape X Hx HeX) as (H1 & H2 & H3 & H4).
      split; [done|]. split; [done|]. right. by split.
    - split; [done|]. split; [done|].
      destruct Hshape as [Hx|Hx]; [by left|]. right. split; [done|]. intros H.
      discriminate H. }
  destruct Hout as (H1 & H2 & H3). split; [exact H1|]. split; [exact H2|].
  unfold script. destruct (yfinance_interval_code_ok name Hn) as [code ->]. simpl.
  rewrite Erun. simpl. rewrite (render_run out show_ma start_year name H3).
  destruct (empty out); simpl; by rewrite ?app_nil_r.
Qed.

Lemma points_elem df p :
  p ∈ points df -> exists r, r ∈ rows df /\ p = (r.1, row_get r.2 "Symbol", row_get r.2 "Close").
Proof.
  intros H. apply list_elem_of_In, in_map_iff in H as (r & <- & Hr).
  exists r. split; [by apply list_elem_of_In | done].
Qed.

Lemma returned_points_ge yf symbol start_date interval t p :
  Timestamp start_date = Some t ->
  p ∈ points (returned (fetch_and_resample_data yf symbol start_date interval)) ->
  t <= p.1.1.
Proof.
  intros Ht Hp. apply points_elem in Hp as (r & Hr & ->). simpl.
  by eapply returned_dates_ge.
Qed.

End streamlit_script.

(** X13. For years of four digits and a name of the select box the script
    runs to its end: it shows what the three fetches show, then either the
    chart of the combined frame, titled with the interval and the start
    year, or, when that frame is empty, the notice and no chart. Every row
    it plots is dated from the first of January of the start year to the
    last of December of the end year. For a name the select box does not
    offer, it stops at line 45 with a KeyError, before any fetch. *)
Theorem script_returns (yf : PriceSource) (show_ma : bool) (start_year end_year : Z)
    (name : string) :
  (1000 <= start_year <= 9999)%Z -> (1000 <= end_year <= 9999)%Z ->
  (selectable name ->
   exists out fig,
     main_st_good.script yf show_ma start_year end_year name
     = (Ok (out, fig),
        st_fetch_messages yf start_year name
        ++ if empty out then [no_chart_info] else [])
     /\ (fig = None <-> empty out = true)
     /\ (forall f, fig = Some f ->
           main_st_good.fig_data f = out
           /\ main_st_good.fig_title f = chart_title name start_year)
     /\ (forall r, r ∈ rows out ->
           (days_from_civil start_year 1 1 <= r.1 <= days_from_civil end_year 12 31)%Z))
  /\ (~ selectable name ->
      main_st_good.script yf show_ma start_year end_year name
      = (Raise (KeyError name), [])).
Proof.
  intros Hs He. split.
  - intros Hn.
    destruct (script_run yf show_ma start_year end_year name Hs He Hn)
      as (X & _ & HX & Hrun). cbv zeta in Hrun.
    set (out := if show_ma && String.eqb name "Day" && negb (empty X)
                then with_MA200_all X else X) in *.
    destruct Hrun as (_ & Hp & ->). eexists _, _. split; [reflexivity|].
    split; [|split].
    + by destruct (empty out).
    + intros f Hf. destruct (empty out); [discriminate Hf|]. inversion Hf. by subst.
    + intros r Hr.
      assert (Hin : (r.1, row_get r.2 "Symbol", row_get r.2 "Close") ∈ points out).
      { apply list_elem_of_In, in_map_iff. exists r. split; [done|].
        by apply list_elem_of_In. }
      rewrite Hp, HX in Hin. apply list_elem_of_In, filter_In in Hin as [Hin Hle].
      simpl in Hle. apply Z.leb_le in Hle. split; [|exact Hle].
      apply list_elem_of_In in Hin. rewrite !elem_of_app in Hin.
      pose proof (Timestamp_start_date start_year Hs) as Ht.
      destruct Hin as [Hin|[Hin|Hin]];
        by apply (returned_points_ge _ _ _ _ _ _ Ht) in Hin.
  - intros Hn. unfold main_st_good.script.
    by rewrite (yfinance_interval_code_raises name Hn).
Qed.

Lemma script_returns_witness :
  exists out fig,
    main_st_good.script sample_source false 2024 2024 "Month"
    = (Ok (out, fig),
       st_fetch_messages sample_source 2024 "Month"
       ++ if empty out then [no_chart_info] else [])
    /\ (fig = None <-> empty out = true).
Proof.
  destruct (script_returns sample_source false 2024 2024 "Month") as [H _]; [lia | lia |].
  destruct H as (out & fig & H1 & H2 & _).
  - apply selectable_cases, list_elem_of_In. simpl. auto.
  - exists out, fig. split; [exact H1 | exact H2].
Defined.

(** X14. The traces of the moving averages: when the box is ticked and the
    interval is Day, the chart has three more traces, for GOOGL, NVDA and
    TSLA in that order, a symbol without a plotted row having an empty one;
    each runs over the dates of the plotted rows of its symbol, and its
    values are the trailing means of 200 of the plotted closes of that
    symbol. Otherwise the chart has no trace besides the lines. *)
Theorem moving_average_traces (yf : PriceSource) (show_ma : bool)
    (start_year end_year : Z) (name : string) (out : DataFrame)
    (f : main_st_good.Figure) :
  (1000 <= start_year <= 9999)%Z -> (1000 <= end_year <= 9999)%Z ->
  selectable name ->
  value (main_st_good.script yf show_ma start_year end_year name) = Ok (out, Some f) ->
  main_st_good.fig_traces f
  = (if show_ma && String.eqb name "Day"
     then map (ma_trace out) ["GOOGL"; "NVDA"; "TSLA"] else [])
  /\ (show_ma && String.eqb name "Day" = true ->
      forall symbol, symbol ∈ ["GOOGL"; "NVDA"; "TSLA"] ->
        main_st_good.trace_y (ma_trace out symbol) = map Num (MA200_values out symbol)
        /\ length (main_st_good.trace_x (ma_trace out symbol))
           = length (main_st_good.trace_y (ma_trace out symbol))).
Proof.
  intros Hs He Hn H.
  destruct (script_run yf show_ma start_year end_year name Hs He Hn)
    as (X & Hshape & _ & Hrun). cbv zeta in Hrun.
  destruct Hrun as (HeX & _ & Erun). unfold value in H. rewrite Erun in H. simpl in H.
  clear Erun.
  set (out' := if show_ma && String.eqb name "Day" && negb (empty X)
               then with_MA200_all X else X) in *.
  destruct (empty out') eqn:Eo; [discriminate H|]. inversion H. subst out.
  split; [reflexivity|]. intros Ec symbol Hsym. simpl.
  assert (Eout : out' = with_MA200_all X).
  { unfold out'. by rewrite Ec, <- HeX. }
  split.
  - rewrite Eout. unfold with_MA200_all at 1.
    rewrite (series_of_three_passes X symbol Hsym). f_equal.
    unfold with_MA200_all. by rewrite !MA200_values_with_MA200.
  - unfold series_of. by rewrite !length_map.
Qed.

Lemma moving_average_traces_witness :
  exists out f,
    value (main_st_good.script sample_source true 2024 2024 "Day") = Ok (out, Some f)
    /\ map main_st_good.trace_name (main_st_good.fig_traces f)
       = ["GOOGL 200D MA"; "NVDA 200D MA"; "TSLA 200D MA"].
Proof.
  assert (Hs : selectable "Day")
    by (apply selectable_cases, list_elem_of_In; simpl; auto).
  assert (Hc : match value (main_st_good.script sample_source true 2024 2024 "Day") with
               | Ok (_, Some _) => true
               | _ => false
               end = true) by (vm_compute; reflexivity).
  destruct (value (main_st_good.script sample_source true 2024 2024 "Day"))
    as [[out [f|]]|err] eqn:E; [|discriminate Hc..].
  exists out, f. split; [reflexivity|].
  destruct (moving_average_traces sample_source true 2024 2024 "Day" out f) as [-> _];
    [lia | lia | exact Hs | exact E | reflexivity].
Defined.

(** X15. In main_st_good.py a history without a close column does not stop
    a daily chart, where main.py raises: the fetch shows nothing, and
    lines 91 and 92 rename the first column of the frame, so that the
    closes that are plotted are the values of that column. *)
Theorem first_column_plotted_as_close (yf : PriceSource)
    (symbol start_date interval : string) (df : DataFrame) (t : Z)
    (c0 : string) (cs : list string) :
  has_data yf symbol start_date interval df t ->
  has_column df "Close" = false ->
  columns df = c0 :: cs ->
  let r := main_st_good.fetch_and_resample_data yf symbol start_date interval in
  shown r = []
  /\ has_column (returned r) "Close" = true
  /\ index (returned r) = index (filter_ge t df)
  /\ close_items (returned r)
     = map (fun row => (row.1, row_get row.2 c0)) (rows (filter_ge t df)).
Proof.
  intros Hd Hc Hcols. cbv zeta.
  change (main_st_good.fetch_and_resample_data yf symbol start_date interval)
    with (fetch Streamlit yf symbol start_date interval).
  assert (Hg : granularity interval = None).
  { destruct Hd as (_ & _ & _ & _ & H).
    destruct (granularity interval); [|done]. rewrite H in Hc; done. }
  unfold returned, shown, value.
  rewrite (fetch_has_data Streamlit yf symbol start_date interval df t Hd). simpl.
  unfold body_of. rewrite Hg. split; [done|].
  destruct Hd as (_ & _ & _ & Hf & _).
  split; [by apply has_column_setitem_other, has_close_ensure_close|].
  split; [by rewrite index_setitem, index_ensure_close|].
  rewrite close_items_setitem by done.
  unfold main_st_good.ensure_close. rewrite filter_ge_has_column, Hc.
  unfold rename_first, close_items. simpl. rewrite Hcols. simpl. rewrite map_map.
  apply map_ext. intros [d m]. simpl. unfold row_get at 1.
  by rewrite lookup_insert_eq.
Qed.

Lemma first_column_plotted_as_close_witness :
  close_items (returned (main_st_good.fetch_and_resample_data no_close_source
                           "GOOGL" "2024-01-01" "Day"))
  = [(19724%Z, price 138)].
Proof.
  destruct (first_column_plotted_as_close no_close_source "GOOGL" "2024-01-01" "Day"
              {| columns := ["Open"; "Volume"];
                 rows := [(19724%Z, {[ "Open" := price 138; "Volume" := price 120 ]})] |}
              19723%Z "Open" ["Volume"]) as (_ & _ & _ & ->).
  - repeat split; try reflexivity. intros H. by contradiction H.
  - reflexivity.
  - reflexivity.
  - vm_compute. reflexivity.
Defined.
